(** * Load-test analysis script ([scripts/analyze-load-test.py])

    A shallow embedding of the analysis script of Party Puzzle Palooza and
    the properties of its loader, analyzer, chart renderer and report
    writer.

    Conventions of the embedding:
    - a JSON value loaded by [json.load] is a [json]; an object is a finite
      map from strings to values, an integer is a [Z] (Python integers are
      unbounded), a float is an IEEE-754 binary64 value ([spec_float] with
      precision 53 and maximal exponent 1024);
    - a Python exception is a constructor of [exn]; a computation that can
      raise returns a [result];
    - code that prints, reads the clock, draws or writes files runs in the
      monad [M], a state monad over [World] whose state survives an
      exception (what was written before a [raise] stays written);
    - a file is the sequence of chunks written to it (one chunk per
      [f.write] call); its bytes are the concatenation of the chunks;
    - a cell of the resource log and a value pandas computes from a column
      (numpy.float64) are represented by the exact rational value of the
      float; the arithmetic of [Series.mean] and [Series.quantile], which
      rounds, is not modelled: the two are parameters of the section
      [Runtime]. Cells that are missing or not numeric are outside the
      model;
    - of the failures of the operating system, the model has those of
      [open(path, 'r')]: the missing file and the path that is a directory.
      The output directory is taken to be one that can be made and written
      to: [os.makedirs], [open(path, 'w')] and [plt.savefig] do not fail;
    - [repr] of the interpreter, [json.load], [pd.read_csv],
      [pd.to_datetime], [Series.mean], [Series.quantile] and the conversion
      of the heights that [Axes.bar] is given are parameters of the section
      [Runtime]. *)

From Stdlib Require Import ZArith QArith String Ascii SpecFloat DecimalString.
From Stdlib Require Import Qround Qabs Permutation Sorted.
From stdpp Require Import gmap strings list fin_maps sorting.

#[local] Set Warnings "-register-all".
#[local] Open Scope string_scope.
#[local] Open Scope Z_scope.

(** ** Python values *)

Inductive json : Type :=
  | JNull
  | JBool (b : bool)
  | JInt (z : Z)
  | JFloat (f : spec_float)
  | JStr (s : string)
  | JArr (l : list json)
  | JObj (m : gmap string json).

Inductive exn : Type :=
  | AttributeError
  | TypeError
  | ValueError
  | OverflowError
  | FileNotFoundError
  | IsADirectoryError
  | JSONDecodeError
  | KeyError
  | OtherException (name : string).

Inductive result (A : Type) : Type :=
  | Ok (a : A)
  | Raise (e : exn).
Arguments Ok {A} a.
Arguments Raise {A} e.

Definition rbind {A B} (r : result A) (k : A -> result B) : result B :=
  match r with
  | Ok a => k a
  | Raise e => Raise e
  end.

(** Truth value of an object, as [if x] and [not x] test it. *)
Definition truthy (v : json) : bool :=
  match v with
  | JNull => false
  | JBool b => b
  | JInt z => negb (z =? 0)
  | JFloat (S754_zero _) => false
  | JFloat _ => true
  | JStr s => negb (String.eqb s "")
  | JArr l => match l with [] => false | _ => true end
  | JObj m => negb (bool_decide (m = ∅))
  end.

(** [x.get(key, default)]: only a dict has the method. *)
Definition py_get (x : json) (key : string) (default : json) : result json :=
  match x with
  | JObj m => Ok (match m !! key with Some v => v | None => default end)
  | _ => Raise AttributeError
  end.

(** [key in x]: a key of a dict, an element of a list, a part of a string. *)
Definition py_contains (key : string) (x : json) : result bool :=
  match x with
  | JObj m => Ok (bool_decide (is_Some (m !! key)))
  | JArr l => Ok (existsb (fun v => match v with JStr s => String.eqb s key | _ => false end) l)
  | JStr s => Ok (match index 0 key s with Some _ => true | None => false end)
  | _ => Raise TypeError
  end.

(** [x[key]] for a string [key] *)
Definition py_getitem (x : json) (key : string) : result json :=
  match x with
  | JObj m => match m !! key with Some v => Ok v | None => Raise KeyError end
  | _ => Raise TypeError
  end.

(** ** Numbers *)

(** binary64 *)
Definition prec : Z := 53.
Definition emax : Z := 1024.

Definition float_of_int (z : Z) : spec_float := binary_normalize prec emax z 0 false.

(** The float nearest to the decimal literal [m * 10^e10]. *)
Definition float_literal (m : Z) (e10 : Z) : spec_float :=
  if 0 <=? e10 then float_of_int (m * 10 ^ e10)
  else match m with
       | Z0 => S754_zero false
       | Zpos p => SFdiv prec emax (S754_finite false p 0)
                     (S754_finite false (Z.to_pos (10 ^ (- e10))) 0)
       | Zneg p => SFdiv prec emax (S754_finite true p 0)
                     (S754_finite false (Z.to_pos (10 ^ (- e10))) 0)
       end.

(** The exact value of a number: not-a-number, an infinity, or [m * 2^e]. *)
Inductive xnum : Type :=
  | XNaN
  | XInf (neg : bool)
  | XFin (m : Z) (e : Z).

Definition xnum_of_float (f : spec_float) : xnum :=
  match f with
  | S754_nan => XNaN
  | S754_infinity s => XInf s
  | S754_zero _ => XFin 0 0
  | S754_finite s m e => XFin (cond_Zopp s (Zpos m)) e
  end.

(** [bool] is a subclass of [int]: [True] is 1 and [False] is 0. *)
Definition int_of_bool (b : bool) : Z := if b then 1 else 0.

Definition xnum_of (v : json) : option xnum :=
  match v with
  | JBool b => Some (XFin (int_of_bool b) 0)
  | JInt z => Some (XFin z 0)
  | JFloat f => Some (xnum_of_float f)
  | _ => None
  end.

Definition xcompare (x y : xnum) : option comparison :=
  match x, y with
  | XNaN, _ | _, XNaN => None
  | XInf s1, XInf s2 =>
      Some (match s1, s2 with
            | true, false => Lt
            | false, true => Gt
            | _, _ => Eq
            end)
  | XInf s, XFin _ _ => Some (if s then Lt else Gt)
  | XFin _ _, XInf s => Some (if s then Gt else Lt)
  | XFin m1 e1, XFin m2 e2 =>
      let e := Z.min e1 e2 in
      Some (Z.compare (m1 * 2 ^ (e1 - e)) (m2 * 2 ^ (e2 - e)))
  end.

(** [a < b] and [a > b]. Every comparison of the script has a numeric
    literal on the right, so an operand that is not a number raises. *)
Definition py_lt (a b : json) : result bool :=
  match xnum_of a, xnum_of b with
  | Some x, Some y => Ok (match xcompare x y with Some Lt => true | _ => false end)
  | _, _ => Raise TypeError
  end.

Definition py_gt (a b : json) : result bool :=
  match xnum_of a, xnum_of b with
  | Some x, Some y => Ok (match xcompare x y with Some Gt => true | _ => false end)
  | _, _ => Raise TypeError
  end.

(** [float(z)] for an integer [z]. *)
Definition py_float_of_int (z : Z) : result spec_float :=
  match float_of_int z with
  | S754_infinity _ => Raise OverflowError
  | f => Ok f
  end.

(** [a / z] for an integer literal [z <> 0]: true division. The quotient of
    two integers is the correctly rounded quotient. *)
Definition int_as_float_exact (z : Z) : spec_float :=
  match z with
  | Z0 => S754_zero false
  | Zpos p => S754_finite false p 0
  | Zneg p => S754_finite true p 0
  end.

Definition py_truediv (a : json) (z : Z) : result json :=
  match a with
  | JInt x =>
      match SFdiv prec emax (int_as_float_exact x) (int_as_float_exact z) with
      | S754_infinity _ => Raise OverflowError
      | q => Ok (JFloat q)
      end
  | JBool b =>
      Ok (JFloat (SFdiv prec emax (int_as_float_exact (int_of_bool b)) (int_as_float_exact z)))
  | JFloat f => Ok (JFloat (SFdiv prec emax f (float_of_int z)))
  | _ => Raise TypeError
  end.

(** ** Text of numbers *)

Definition dec (n : Z) : string := NilZero.string_of_uint (N.to_uint (Z.to_N n)).

Fixpoint zeros (n : nat) : string :=
  match n with
  | O => ""
  | S n' => "0" +:+ zeros n'
  end.

(** [s] padded with zeros on the left up to [width] characters. *)
Definition zero_pad (width : nat) (s : string) : string :=
  zeros (width - String.length s) +:+ s.

(** [num / den >= 0] rounded to an integer, ties to even. *)
Definition round_half_even (num den : Z) : Z :=
  let q := num / den in
  let r := num mod den in
  match 2 * r ?= den with
  | Lt => q
  | Gt => q + 1
  | Eq => if Z.even q then q else q + 1
  end.

(** Fixed-point text with [d] digits after the point of the number of sign
    [neg] and magnitude [num / den]: what the [f] presentation type prints
    for a finite float, which is rounded correctly from its exact value. *)
Definition fixed_point (d : nat) (neg : bool) (num den : Z) : string :=
  let scale := 10 ^ Z.of_nat d in
  let n := round_half_even (num * scale) den in
  (if neg then "-" else "") +:+ dec (n / scale) +:+
  match d with
  | O => ""
  | _ => "." +:+ zero_pad d (dec (n mod scale))
  end.

Definition format_float_f (d : nat) (f : spec_float) : string :=
  match f with
  | S754_nan => "nan"
  | S754_infinity s => if s then "-inf" else "inf"
  | S754_zero s => fixed_point d s 0 1
  | S754_finite s m e =>
      if 0 <=? e then fixed_point d s (Zpos m * 2 ^ e) 1
      else fixed_point d s (Zpos m) (2 ^ (- e))
  end.

(** [format(v, '.<d>f')] *)
Definition py_format_f (d : nat) (v : json) : result string :=
  match v with
  | JFloat f => Ok (format_float_f d f)
  | JInt z => rbind (py_float_of_int z) (fun f => Ok (format_float_f d f))
  | JBool b => Ok (format_float_f d (float_of_int (int_of_bool b)))
  | JStr _ => Raise ValueError
  | JNull | JArr _ | JObj _ => Raise TypeError
  end.

(** [format(v, '.<d>%')]: the float is multiplied by 100, printed in fixed
    point and followed by a percent sign. *)
Definition format_float_pct (d : nat) (f : spec_float) : string :=
  format_float_f d (SFmul prec emax f (float_of_int 100)) +:+ "%".

Definition py_format_pct (d : nat) (v : json) : result string :=
  match v with
  | JFloat f => Ok (format_float_pct d f)
  | JInt z => rbind (py_float_of_int z) (fun f => Ok (format_float_pct d f))
  | JBool b => Ok (format_float_pct d (float_of_int (int_of_bool b)))
  | JStr _ => Raise ValueError
  | JNull | JArr _ | JObj _ => Raise TypeError
  end.

(** Thousands separators: [ds] holds the digits, least significant first,
    and [k] counts the digits already put in the current group. *)
Fixpoint group_rev (ds : list ascii) (k : nat) : list ascii :=
  match ds with
  | [] => []
  | c :: rest =>
      match k, rest with
      | 2%nat, _ :: _ => c :: ","%char :: group_rev rest 0
      | _, _ => c :: group_rev rest (S k)
      end
  end.

Definition group_thousands (digits : string) : string :=
  string_of_list_ascii (rev (group_rev (rev (list_ascii_of_string digits)) 0)).

Definition is_digit (c : ascii) : bool :=
  let n := nat_of_ascii c in (48 <=? n)%nat && (n <=? 57)%nat.

(** The longest prefix of digits of [s], and what follows it. *)
Fixpoint span_digits (s : string) : string * string :=
  match s with
  | EmptyString => ("", "")
  | String c s' =>
      if is_digit c then let '(ds, rest) := span_digits s' in (String c ds, rest)
      else ("", s)
  end.

(** Separators put in the integer digits of the text of a float. *)
Definition group_float_text (s : string) : string :=
  match s with
  | String "-" s' => let '(ds, rest) := span_digits s' in "-" +:+ group_thousands ds +:+ rest
  | _ => let '(ds, rest) := span_digits s in group_thousands ds +:+ rest
  end.

(** Text of a value computed by pandas under the [f] presentation type. *)
Definition format_Q (d : nat) (q : Q) : string :=
  fixed_point d (Qnum q <? 0) (Z.abs (Qnum q)) (Zpos (Qden q)).

(** [x > c] for a value computed by pandas and an integer literal. *)
Definition q_gt (x : Q) (c : Z) : bool := negb (Qle_bool x (inject_Z c)).

(** The line feed, written [\n] in the source. *)
Definition nl : string := String "010"%char EmptyString.

Definition format_int_comma (z : Z) : string :=
  (if z <? 0 then "-" else "") +:+ group_thousands (dec (Z.abs z)).

Definition str_of_int (z : Z) : string :=
  (if z <? 0 then "-" else "") +:+ dec (Z.abs z).

(** ** Results and the world *)

#[global] Instance result_ret : MRet result := @Ok.
#[global] Instance result_bind : MBind result := fun A B k r => rbind r k.

Fixpoint mapM_result {A B} (f : A -> result B) (l : list A) : result (list B) :=
  match l with
  | [] => Ok []
  | x :: l' => y ← f x; ys ← mapM_result f l'; Ok (y :: ys)
  end.

Record datetime : Type := {
  year : Z; month : Z; day : Z; hour : Z; minute : Z; second : Z }.

Definition pad2 (n : Z) : string := zero_pad 2 (dec n).
Definition pad4 (n : Z) : string := zero_pad 4 (dec n).

(** [strftime("%Y%m%d_%H%M%S")] and [strftime("%Y-%m-%d %H:%M:%S")] *)
Definition strftime_compact (t : datetime) : string :=
  pad4 (year t) +:+ pad2 (month t) +:+ pad2 (day t) +:+ "_" +:+
  pad2 (hour t) +:+ pad2 (minute t) +:+ pad2 (second t).

Definition strftime_iso (t : datetime) : string :=
  pad4 (year t) +:+ "-" +:+ pad2 (month t) +:+ "-" +:+ pad2 (day t) +:+ " " +:+
  pad2 (hour t) +:+ ":" +:+ pad2 (minute t) +:+ ":" +:+ pad2 (second t).

(** A row of the system metrics log, under the column names that
    [load_system_metrics] gives to [read_csv]. *)
Module Row.
Record t : Type := {
  timestamp : string; cpu : Q; memory : Q; db_connections : Q; redis_connections : Q }.
End Row.

Definition DataFrame : Type := list Row.t.

(** [df[col]] *)
Definition column {A} (col : Row.t -> A) (df : DataFrame) : list A := map col df.

(** [df.empty] *)
Definition df_empty (df : DataFrame) : bool :=
  match df with [] => true | _ => false end.

(** The panels of the 2x3 grid, [axes[r, c]]. *)
Definition panel : Type := (nat * nat)%type.

(** Calls on the current figure and its axes. *)
Inductive draw : Type :=
  | SupTitle (text : string)
  | Bar (ax : panel) (labels : list string) (values : list json) (colors : list string)
  | Plot (ax : panel) (xs : list string) (ys : list Q) (color : option string)
  | SetTitle (ax : panel) (text : string)
  | SetYLabel (ax : panel) (text : string)
  | TickParams (ax : panel)
  | SetYLim (ax : panel) (lo hi : Z)
  | AxHLine (ax : panel) (y : json) (label : string)
  | Legend (ax : panel)
  | TightLayout.

Record World : Type := {
  files : gmap string (list string);
  dirs : gset string;
  stdout : list string;
  clock : nat -> datetime;
  ticks : nat;
  rc : list string;
  figure : list draw;
  images : gmap string (list draw) }.

(** The bytes of a file. *)
Definition file_bytes (chunks : list string) : string := String.concat "" chunks.

(** Computations: a result and the world after them, also when they raise. *)
Definition M (A : Type) : Type := World -> result A * World.

#[global] Instance M_ret : MRet M := fun A a w => (Ok a, w).
#[global] Instance M_bind : MBind M := fun A B k m w =>
  match m w with
  | (Ok a, w') => k a w'
  | (Raise e, w') => (Raise e, w')
  end.

Definition lift {A} (r : result A) : M A := fun w => (r, w).

(** [try: m except ...: h e], where [h] gives the handler of the exceptions
    that a clause catches. *)
Definition try_except {A} (m : M A) (h : exn -> option (M A)) : M A := fun w =>
  match m w with
  | (Ok a, w') => (Ok a, w')
  | (Raise e, w') =>
      match h e with
      | Some handler => handler w'
      | None => (Raise e, w')
      end
  end.

Definition py_print (line : string) : M unit := fun w =>
  (Ok tt, {| files := files w; dirs := dirs w; stdout := (stdout w ++ [line])%list;
             clock := clock w; ticks := ticks w; rc := rc w;
             figure := figure w; images := images w |}).

(** [os.path.exists], and [os.makedirs] on a path that can be made. *)
Definition path_exists (p : string) : M bool := fun w =>
  (Ok (bool_decide (p ∈ dirs w) || bool_decide (is_Some (files w !! p))), w).

Definition makedirs (p : string) : M unit := fun w =>
  (Ok tt, {| files := files w; dirs := {[p]} ∪ dirs w; stdout := stdout w;
             clock := clock w; ticks := ticks w; rc := rc w;
             figure := figure w; images := images w |}).

(** [datetime.now()] *)
Definition now : M datetime := fun w =>
  (Ok (clock w (ticks w)),
   {| files := files w; dirs := dirs w; stdout := stdout w;
      clock := clock w; ticks := S (ticks w); rc := rc w;
      figure := figure w; images := images w |}).

(** [open(p, 'r')] followed by reading the whole file. A path that is a
    directory cannot be opened; a path that is neither a file nor a
    directory does not exist. *)
Definition read_file (p : string) : M string := fun w =>
  match files w !! p with
  | Some chunks => (Ok (file_bytes chunks), w)
  | None =>
      (Raise (if bool_decide (p ∈ dirs w) then IsADirectoryError else FileNotFoundError), w)
  end.

(** [open(p, 'w')] in a directory that can be written to: the file is
    created or truncated *)
Definition open_write (p : string) : M unit := fun w =>
  (Ok tt, {| files := <[p := []]> (files w); dirs := dirs w; stdout := stdout w;
             clock := clock w; ticks := ticks w; rc := rc w;
             figure := figure w; images := images w |}).

(** [f.write(chunk)] on the file opened at [p] *)
Definition f_write (p : string) (chunk : string) : M unit := fun w =>
  (Ok tt, {| files := <[p := (default [] (files w !! p) ++ [chunk])%list]> (files w);
             dirs := dirs w; stdout := stdout w;
             clock := clock w; ticks := ticks w; rc := rc w;
             figure := figure w; images := images w |}).

(** [plt.style.use] and [sns.set_palette]: settings of the charts to come *)
Definition use_setting (name : string) : M unit := fun w =>
  (Ok tt, {| files := files w; dirs := dirs w; stdout := stdout w;
             clock := clock w; ticks := ticks w; rc := (rc w ++ [name])%list;
             figure := figure w; images := images w |}).

(** [plt.subplots]: a new, empty current figure *)
Definition subplots : M unit := fun w =>
  (Ok tt, {| files := files w; dirs := dirs w; stdout := stdout w;
             clock := clock w; ticks := ticks w; rc := rc w;
             figure := []; images := images w |}).

(** A call on the figure that does not fail: it is recorded. *)
Definition draw_call (d : draw) : M unit := fun w =>
  (Ok tt, {| files := files w; dirs := dirs w; stdout := stdout w;
             clock := clock w; ticks := ticks w; rc := rc w;
             figure := (figure w ++ [d])%list; images := images w |}).

(** [plt.savefig(p)] in a directory that can be written to, and
    [plt.close()] *)
Definition savefig (p : string) : M unit := fun w =>
  (Ok tt, {| files := files w; dirs := dirs w; stdout := stdout w;
             clock := clock w; ticks := ticks w; rc := rc w; figure := figure w;
             images := <[p := figure w]> (images w) |}).

Definition plt_close : M unit := fun w =>
  (Ok tt, {| files := files w; dirs := dirs w; stdout := stdout w;
             clock := clock w; ticks := ticks w; rc := rc w;
             figure := []; images := images w |}).
(** ** Analyzer *)

Module Http.
Record t : Type := { total : json; rate : json; p95 : json; p99 : json; failed_rate : json }.
End Http.

Module Ws.
Record t : Type := { latency_p95 : json; messages_total : json }.
End Ws.

Module Biz.
Record t : Type := {
  room_creation_success : json; game_join_success : json; question_flag_success : json }.
End Biz.

Module Perf.
Record t : Type := {
  http_requests : Http.t;
  websocket : Ws.t;
  business_metrics : Biz.t;
  test_duration : json;
  max_vus : json }.
End Perf.

Definition empty_dict : json := JObj ∅.

(** [x.get(k1, {}).get(k2, 0)] *)
Definition get2 (x : json) (k1 k2 : string) : result json :=
  y ← py_get x k1 empty_dict; py_get y k2 (JInt 0).

Definition analyze_performance (k6_data : json) : result (option Perf.t) :=
  if negb (truthy k6_data) then Ok None
  else
    metrics ← py_get k6_data "metrics" empty_dict;
    total ← get2 metrics "http_reqs" "count";
    rate ← get2 metrics "http_reqs" "rate";
    p95 ← get2 metrics "http_req_duration" "p(95)";
    p99 ← get2 metrics "http_req_duration" "p(99)";
    failed_rate ← get2 metrics "http_req_failed" "rate";
    latency_p95 ← get2 metrics "ws_latency_ms" "p(95)";
    messages_total ← get2 metrics "ws_messages_total" "count";
    room_creation_success ← get2 metrics "room_creation_success" "rate";
    game_join_success ← get2 metrics "game_join_success" "rate";
    question_flag_success ← get2 metrics "question_flag_success" "rate";
    test_duration ← get2 k6_data "state" "testRunDuration";
    max_vus ← get2 k6_data "state" "maxVUs";
    Ok (Some
      {| Perf.http_requests :=
           {| Http.total := total; Http.rate := rate; Http.p95 := p95; Http.p99 := p99;
              Http.failed_rate := failed_rate |};
         Perf.websocket :=
           {| Ws.latency_p95 := latency_p95; Ws.messages_total := messages_total |};
         Perf.business_metrics :=
           {| Biz.room_creation_success := room_creation_success;
              Biz.game_join_success := game_join_success;
              Biz.question_flag_success := question_flag_success |};
         Perf.test_duration := test_duration;
         Perf.max_vus := max_vus |}).

(** The order of the exact values, decided. *)
#[global] Instance Qle_dec (x y : Q) : Decision (x <= y)%Q.
Proof. destruct (Qlt_le_dec y x) as [H | H]; [right | left]; auto using Qlt_not_le. Defined.

Definition qmax (a b : Q) : Q := if decide (a <= b)%Q then b else a.

(** [s.max()]: the greatest cell, which no rounding touches. *)
Definition series_max (xs : list Q) : Q :=
  match xs with
  | [] => 0%Q
  | x :: rest => foldl qmax x rest
  end.

Module Stats.
Record t : Type := { mean : Q; max : Q; p95 : Q }.
End Stats.

Module Sys.
Record t : Type := {
  cpu : Stats.t; memory : Stats.t; database_connections : Stats.t; redis_connections : Stats.t }.
End Sys.

(** ** Runtime and libraries *)

Section Runtime.

(** [repr] of the interpreter, used for floats, lists and dicts: the
    shortest text that reads back as the same float, and the literal
    notation of a container. *)
Variable py_repr : json -> string.

(** [format(v, ',')] *)
Definition py_format_comma (v : json) : result string :=
  match v with
  | JInt z => Ok (format_int_comma z)
  | JBool b => Ok (format_int_comma (int_of_bool b))
  | JFloat f => Ok (group_float_text (py_repr (JFloat f)))
  | JStr _ => Raise ValueError
  | JNull | JArr _ | JObj _ => Raise TypeError
  end.

(** [format(v, '')], that is [str(v)] *)
Definition py_str (v : json) : string :=
  match v with
  | JNull => "None"
  | JBool b => if b then "True" else "False"
  | JInt z => str_of_int z
  | JStr s => s
  | JFloat _ | JArr _ | JObj _ => py_repr v
  end.

(** ** Loader *)

(** What the script takes from its libraries: [json.loads] on the text of
    a file, the parser of [pd.read_csv] with the column names of
    [load_system_metrics], [pd.to_datetime] on a cell, and the text of an
    exception. *)
Variable json_loads : string -> result json.
Variable pd_parse_csv : string -> result DataFrame.
Variable pd_to_datetime : string -> result string.
Variable py_exn_str : exn -> string.

(** [s.mean()] and [s.quantile(q)] of pandas on a numeric column: the
    exact value of the float64 that the library computes from the cells. *)
Variable pd_mean : list Q -> Q.
Variable pd_quantile : Q -> list Q -> Q.

(** The exception that [Axes.bar] raises when it converts these heights to
    floats, if it raises one. *)
Variable plt_bar_error : list json -> option exn.

(** Python's [None] is [JNull], also as the value of [k6_data]. *)
Definition load_k6_results (results_file : string) : M json :=
  try_except
    (text ← read_file results_file;
     data ← lift (json_loads text);
     mret data)
    (fun e =>
       match e with
       | FileNotFoundError =>
           Some (py_print ("❌ Results file not found: " +:+ results_file);; mret JNull)
       | JSONDecodeError =>
           Some (py_print ("❌ Invalid JSON in results file: " +:+ results_file);; mret JNull)
       | _ => None
       end).

(** [df['timestamp'] = ts] *)
Definition set_timestamps (df : DataFrame) (ts : list string) : DataFrame :=
  zip_with (fun r t =>
    {| Row.timestamp := t; Row.cpu := Row.cpu r; Row.memory := Row.memory r;
       Row.db_connections := Row.db_connections r;
       Row.redis_connections := Row.redis_connections r |}) df ts.

Definition load_system_metrics (metrics_file : string) : M (option DataFrame) :=
  try_except
    (text ← read_file metrics_file;
     df ← lift (pd_parse_csv text);
     ts ← lift (mapM_result pd_to_datetime (column Row.timestamp df));
     mret (Some (set_timestamps df ts)))
    (fun e =>
       match e with
       | FileNotFoundError =>
           Some (py_print ("⚠️  System metrics file not found: " +:+ metrics_file);; mret None)
       | _ =>
           Some (py_print ("❌ Error loading system metrics: " +:+ py_exn_str e);; mret None)
       end).

(** ** Analyzer of the resource series *)

Definition analyze_system_metrics (system_df : option DataFrame) : option Sys.t :=
  match system_df with
  | None => None
  | Some df =>
      if df_empty df then None
      else Some
        {| Sys.cpu :=
             {| Stats.mean := pd_mean (column Row.cpu df);
                Stats.max := series_max (column Row.cpu df);
                Stats.p95 := pd_quantile (95 # 100) (column Row.cpu df) |};
           Sys.memory :=
             {| Stats.mean := pd_mean (column Row.memory df);
                Stats.max := series_max (column Row.memory df);
                Stats.p95 := pd_quantile (95 # 100) (column Row.memory df) |};
           Sys.database_connections :=
             {| Stats.mean := pd_mean (column Row.db_connections df);
                Stats.max := series_max (column Row.db_connections df);
                Stats.p95 := pd_quantile (95 # 100) (column Row.db_connections df) |};
           Sys.redis_connections :=
             {| Stats.mean := pd_mean (column Row.redis_connections df);
                Stats.max := series_max (column Row.redis_connections df);
                Stats.p95 := pd_quantile (95 # 100) (column Row.redis_connections df) |} |}
  end.

(** ** Chart renderer *)

Definition when (b : bool) (m : M unit) : M unit := if b then m else mret tt.

Definition f0_05 : spec_float := float_literal 5 (-2).
Definition f0_95 : spec_float := float_literal 95 (-2).
Definition f0_9 : spec_float := float_literal 9 (-1).

(** ['green' if v > 0.95 else 'yellow' if v > 0.9 else 'red'] *)
Definition rate_color (v : json) : result string :=
  high ← py_gt v (JFloat f0_95);
  if (high : bool) then Ok "green"
  else
    mid ← py_gt v (JFloat f0_9);
    Ok (if (mid : bool) then "yellow" else "red").

(** [ax.bar(labels, values, color=colors)] *)
Definition plt_bar (ax : panel) (labels : list string) (values : list json)
    (colors : list string) : M unit :=
  match plt_bar_error values with
  | Some e => lift (Raise e)
  | None => draw_call (Bar ax labels values colors)
  end.

Definition generate_graphs (k6_data : json) (system_df : option DataFrame)
    (output_dir : string) : M unit :=
  ex ← path_exists output_dir;
  when (negb ex) (makedirs output_dir);;
  use_setting "seaborn-v0_8";;
  use_setting "husl";;
  subplots;;
  draw_call (SupTitle "Party Puzzle Palooza Load Test Analysis");;
  (* 1. HTTP Response Time Distribution *)
  has_metrics ← lift (if truthy k6_data then py_contains "metrics" k6_data else Ok false);
  when has_metrics
    (metrics ← lift (py_getitem k6_data "metrics");
     has_duration ← lift (py_contains "http_req_duration" metrics);
     when has_duration
       (duration_data ← lift (py_getitem metrics "http_req_duration");
        let percentiles := ["p(50)"; "p(90)"; "p(95)"; "p(99)"] in
        values ← lift (mapM_result (fun p => py_get duration_data p (JInt 0)) percentiles);
        plt_bar (0, 0)%nat percentiles values ["green"; "yellow"; "orange"; "red"];;
        draw_call (SetTitle (0, 0)%nat "HTTP Response Time Percentiles");;
        draw_call (SetYLabel (0, 0)%nat "Response Time (ms)");;
        draw_call (TickParams (0, 0)%nat);;
        draw_call (AxHLine (0, 0)%nat (JInt 300) "Threshold (300ms)");;
        draw_call (Legend (0, 0)%nat)));;
  (* 2. System CPU Usage *)
  match system_df with
  | Some df =>
      draw_call (Plot (0, 1)%nat (column Row.timestamp df) (column Row.cpu df) None);;
      draw_call (SetTitle (0, 1)%nat "CPU Usage Over Time");;
      draw_call (SetYLabel (0, 1)%nat "CPU Usage (%)");;
      draw_call (TickParams (0, 1)%nat);;
      draw_call (AxHLine (0, 1)%nat (JInt 80) "Warning (80%)");;
      draw_call (Legend (0, 1)%nat)
  | None => mret tt
  end;;
  (* 3. Database Connections *)
  match system_df with
  | Some df =>
      draw_call (Plot (0, 2)%nat (column Row.timestamp df) (column Row.db_connections df)
                   (Some "blue"));;
      draw_call (SetTitle (0, 2)%nat "Database Connections Over Time");;
      draw_call (SetYLabel (0, 2)%nat "Connections");;
      draw_call (TickParams (0, 2)%nat);;
      draw_call (AxHLine (0, 2)%nat (JInt 100) "Limit (100)");;
      draw_call (Legend (0, 2)%nat)
  | None => mret tt
  end;;
  (* 4. Redis Connections *)
  match system_df with
  | Some df =>
      draw_call (Plot (1, 0)%nat (column Row.timestamp df) (column Row.redis_connections df)
                   (Some "green"));;
      draw_call (SetTitle (1, 0)%nat "Redis Connections Over Time");;
      draw_call (SetYLabel (1, 0)%nat "Connections");;
      draw_call (TickParams (1, 0)%nat);;
      draw_call (AxHLine (1, 0)%nat (JInt 500) "Limit (500)");;
      draw_call (Legend (1, 0)%nat)
  | None => mret tt
  end;;
  (* 5. Memory Usage *)
  match system_df with
  | Some df =>
      draw_call (Plot (1, 1)%nat (column Row.timestamp df) (column Row.memory df)
                   (Some "purple"));;
      draw_call (SetTitle (1, 1)%nat "Memory Usage Over Time");;
      draw_call (SetYLabel (1, 1)%nat "Memory (pages)");;
      draw_call (TickParams (1, 1)%nat)
  | None => mret tt
  end;;
  (* 6. Business Metrics *)
  has_metrics ← lift (if truthy k6_data then py_contains "metrics" k6_data else Ok false);
  when has_metrics
    (metrics ← lift (py_getitem k6_data "metrics");
     let business_metrics :=
       ["room_creation_success"; "game_join_success"; "question_flag_success"] in
     values ← lift (mapM_result (fun m => get2 metrics m "rate") business_metrics);
     let labels := ["Room Creation"; "Game Join"; "Question Flag"] in
     colors ← lift (mapM_result rate_color values);
     plt_bar (1, 2)%nat labels values colors;;
     draw_call (SetTitle (1, 2)%nat "Business Metrics Success Rates");;
     draw_call (SetYLabel (1, 2)%nat "Success Rate");;
     draw_call (TickParams (1, 2)%nat);;
     draw_call (SetYLim (1, 2)%nat 0 1);;
     draw_call (AxHLine (1, 2)%nat (JFloat f0_95) "Threshold (95%)");;
     draw_call (Legend (1, 2)%nat));;
  draw_call TightLayout;;
  t ← now;
  savefig (output_dir +:+ "/load-test-analysis-" +:+ strftime_compact t +:+ ".png");;
  plt_close;;
  py_print ("📈 Graphs saved to " +:+ output_dir).

(** ** Report writer *)

Definition generate_report (perf_analysis : option Perf.t) (sys_analysis : option Sys.t)
    (output_dir : string) : M unit :=
  ex ← path_exists output_dir;
  when (negb ex) (makedirs output_dir);;
  t ← now;
  let timestamp := strftime_compact t in
  let report_file := output_dir +:+ "/performance-report-" +:+ timestamp +:+ ".md" in
  let write := f_write report_file in
  open_write report_file;;
  write ("# Party Puzzle Palooza Load Test Performance Report" +:+ nl +:+ nl);;
  t' ← now;
  write ("**Generated:** " +:+ strftime_iso t' +:+ nl +:+ nl);;
  (* Executive Summary *)
  write ("## Executive Summary" +:+ nl +:+ nl);;
  match perf_analysis with
  | Some perf =>
      let http_p95 := Http.p95 (Perf.http_requests perf) in
      let error_rate := Http.failed_rate (Perf.http_requests perf) in
      let ws_p95 := Ws.latency_p95 (Perf.websocket perf) in
      write ("### Key Performance Indicators" +:+ nl +:+ nl);;
      s ← lift (py_format_f 2 http_p95);
      write ("- **HTTP Response Time (p95):** " +:+ s +:+ "ms" +:+ nl);;
      s ← lift (py_format_pct 2 error_rate);
      write ("- **Error Rate:** " +:+ s +:+ nl);;
      s ← lift (py_format_f 2 ws_p95);
      write ("- **WebSocket Latency (p95):** " +:+ s +:+ "ms" +:+ nl);;
      s ← lift (py_format_comma (Http.total (Perf.http_requests perf)));
      write ("- **Total Requests:** " +:+ s +:+ nl);;
      s ← lift (py_format_f 2 (Http.rate (Perf.http_requests perf)));
      write ("- **Request Rate:** " +:+ s +:+ " req/s" +:+ nl);;
      seconds ← lift (py_truediv (Perf.test_duration perf) 1000000000);
      s ← lift (py_format_f 1 seconds);
      write ("- **Test Duration:** " +:+ s +:+ "s" +:+ nl);;
      write ("- **Max Virtual Users:** " +:+ py_str (Perf.max_vus perf) +:+ nl +:+ nl);;
      (* Performance Assessment *)
      write ("### Performance Assessment" +:+ nl +:+ nl);;
      ok ← lift (py_lt http_p95 (JInt 300));
      (if (ok : bool)
       then write ("✅ **HTTP Response Time:** Within acceptable limits" +:+ nl)
       else write ("❌ **HTTP Response Time:** Exceeds 300ms threshold" +:+ nl));;
      ok ← lift (py_lt error_rate (JFloat f0_05));
      (if (ok : bool)
       then write ("✅ **Error Rate:** Within acceptable limits" +:+ nl)
       else write ("❌ **Error Rate:** Exceeds 5% threshold" +:+ nl));;
      ok ← lift (py_lt ws_p95 (JInt 100));
      (if (ok : bool)
       then write ("✅ **WebSocket Latency:** Within acceptable limits" +:+ nl)
       else write ("❌ **WebSocket Latency:** Exceeds 100ms threshold" +:+ nl))
  | None => mret tt
  end;;
  (* System Analysis *)
  match sys_analysis with
  | Some sys =>
      write (nl +:+ "## System Resource Analysis" +:+ nl +:+ nl);;
      write ("### CPU Usage" +:+ nl);;
      write ("- **Average:** " +:+ format_Q 1 (Stats.mean (Sys.cpu sys)) +:+ "%" +:+ nl);;
      write ("- **Peak:** " +:+ format_Q 1 (Stats.max (Sys.cpu sys)) +:+ "%" +:+ nl);;
      write ("- **95th Percentile:** " +:+ format_Q 1 (Stats.p95 (Sys.cpu sys)) +:+ "%"
               +:+ nl +:+ nl);;
      write ("### Database Connections" +:+ nl);;
      write ("- **Average:** " +:+ format_Q 1 (Stats.mean (Sys.database_connections sys))
               +:+ nl);;
      write ("- **Peak:** " +:+ format_Q 0 (Stats.max (Sys.database_connections sys)) +:+ nl);;
      write ("- **95th Percentile:** " +:+ format_Q 1 (Stats.p95 (Sys.database_connections sys))
               +:+ nl +:+ nl);;
      write ("### Redis Connections" +:+ nl);;
      write ("- **Average:** " +:+ format_Q 1 (Stats.mean (Sys.redis_connections sys)) +:+ nl);;
      write ("- **Peak:** " +:+ format_Q 0 (Stats.max (Sys.redis_connections sys)) +:+ nl);;
      write ("- **95th Percentile:** " +:+ format_Q 1 (Stats.p95 (Sys.redis_connections sys))
               +:+ nl +:+ nl)
  | None => mret tt
  end;;
  (* Recommendations *)
  write ("## Recommendations" +:+ nl +:+ nl);;
  match perf_analysis with
  | Some perf =>
      slow ← lift (py_gt (Http.p95 (Perf.http_requests perf)) (JInt 300));
      when slow
        (write ("- **Optimize HTTP endpoints** that exceed 300ms response time" +:+ nl);;
         write ("- **Implement caching** for frequently accessed data" +:+ nl);;
         write ("- **Review database queries** for optimization opportunities" +:+ nl));;
      failing ← lift (py_gt (Http.failed_rate (Perf.http_requests perf)) (JFloat f0_05));
      when failing
        (write ("- **Investigate error patterns** and implement error handling" +:+ nl);;
         write ("- **Review rate limiting** configuration" +:+ nl);;
         write ("- **Check external service dependencies**" +:+ nl));;
      lagging ← lift (py_gt (Ws.latency_p95 (Perf.websocket perf)) (JInt 100));
      when lagging
        (write ("- **Optimize WebSocket message processing**" +:+ nl);;
         write ("- **Review Redis pub/sub performance**" +:+ nl);;
         write ("- **Consider WebSocket connection pooling**" +:+ nl))
  | None => mret tt
  end;;
  match sys_analysis with
  | Some sys =>
      when (q_gt (Stats.p95 (Sys.cpu sys)) 80)
        (write ("- **Scale horizontally** by adding more API instances" +:+ nl);;
         write ("- **Optimize CPU-intensive operations**" +:+ nl);;
         write ("- **Consider async processing** for heavy operations" +:+ nl));;
      when (q_gt (Stats.p95 (Sys.database_connections sys)) 80)
        (write ("- **Increase database connection pool size**" +:+ nl);;
         write ("- **Implement connection pooling**" +:+ nl);;
         write ("- **Consider read replicas** for read-heavy operations" +:+ nl));;
      when (q_gt (Stats.p95 (Sys.redis_connections sys)) 400)
        (write ("- **Optimize Redis connection usage**" +:+ nl);;
         write ("- **Implement connection pooling** for Redis" +:+ nl);;
         write ("- **Consider Redis clustering** for scale" +:+ nl))
  | None => mret tt
  end;;
  write (nl +:+ "## Next Steps" +:+ nl +:+ nl);;
  write ("1. **Address critical performance issues** identified above" +:+ nl);;
  write ("2. **Implement recommended optimizations**" +:+ nl);;
  write ("3. **Re-run load tests** after optimizations" +:+ nl);;
  write ("4. **Monitor production performance** continuously" +:+ nl);;
  write ("5. **Set up automated performance testing** in CI/CD" +:+ nl);;
  py_print ("📊 Report saved to " +:+ report_file).

(** ** Entry point *)

(** The parsed command line: [--k6-results], [--system-metrics] (absent
    when not given) and [--output-dir]. *)
Record Args : Type := {
  k6_results : string; system_metrics : option string; output_dir : string }.

Definition main (args : Args) : M unit :=
  py_print "🔍 Analyzing load test results...";;
  (* Load data *)
  k6_data ← load_k6_results (k6_results args);
  system_df ← match system_metrics args with
              | Some path =>
                  if negb (String.eqb path "") then load_system_metrics path else mret None
              | None => mret None
              end;
  (* Analyze performance *)
  perf_analysis ← lift (analyze_performance k6_data);
  let sys_analysis := analyze_system_metrics system_df in
  (* Generate outputs *)
  generate_graphs k6_data system_df (output_dir args);;
  generate_report perf_analysis sys_analysis (output_dir args);;
  py_print "✅ Analysis complete!";;
  (* Print summary *)
  match perf_analysis with
  | Some perf =>
      py_print (nl +:+ "📈 Performance Summary:");;
      s ← lift (py_format_f 2 (Http.p95 (Perf.http_requests perf)));
      py_print ("  HTTP p95: " +:+ s +:+ "ms");;
      s ← lift (py_format_pct 2 (Http.failed_rate (Perf.http_requests perf)));
      py_print ("  Error Rate: " +:+ s);;
      s ← lift (py_format_f 2 (Ws.latency_p95 (Perf.websocket perf)));
      py_print ("  WS p95: " +:+ s +:+ "ms")
  | None => mret tt
  end.

End Runtime.

(** ** Sample data *)

(** A runtime for the examples: its [repr] is constant (no example prints
    a float or a container with it), its parsers know one text each, its
    statistics are computed without rounding and its bars take as heights
    the numbers that convert to a float. *)
Definition sample_repr : json -> string := fun _ => "0.0".

Definition Qsum (xs : list Q) : Q := foldr Qplus 0%Q xs.

(** The arithmetic mean. *)
Definition sample_mean (xs : list Q) : Q := (Qsum xs / inject_Z (Z.of_nat (length xs)))%Q.

(** The quantile by linear interpolation between the two order statistics
    around the position [q * (n - 1)]. *)
Definition sample_quantile (q : Q) (xs : list Q) : Q :=
  let sorted := merge_sort Qle xs in
  let h := (q * inject_Z (Z.of_nat (length xs - 1)))%Q in
  let lo := Z.to_nat (Qfloor h) in
  let a := nth lo sorted 0%Q in
  let b := nth (S lo) sorted a in
  (a + (b - a) * (h - inject_Z (Qfloor h)))%Q.

(** A height is a number that converts to a float. *)
Definition sample_height (v : json) : result spec_float :=
  match v with
  | JInt z => py_float_of_int z
  | JBool b => Ok (float_of_int (int_of_bool b))
  | JFloat f => Ok f
  | _ => Raise TypeError
  end.

Definition sample_bar_error (values : list json) : option exn :=
  match mapM_result sample_height values with
  | Ok _ => None
  | Raise e => Some e
  end.

Definition sample_time : datetime :=
  {| year := 2025; month := 3; day := 7; hour := 9; minute := 5; second := 1 |}.

Definition sample_world : World :=
  {| files := ∅; dirs := ∅; stdout := []; clock := fun _ => sample_time; ticks := 0;
     rc := []; figure := []; images := ∅ |}.

(** A world with a results file, a log of system metrics and the output
    directory. *)
Definition sample_files_world : World :=
  {| files := <["k6-results.json" := ["{}"]]> (<["metrics.csv" := ["rows"]]> ∅);
     dirs := {["out"]}; stdout := []; clock := fun _ => sample_time; ticks := 0;
     rc := []; figure := []; images := ∅ |}.

(** A JSON object, from its entries. *)
Definition dict (entries : list (string * json)) : json := JObj (list_to_map entries).

(** The document of the end-to-end scenario: HTTP p95 of 320 ms, 2 % of
    failed requests, a run of 90.5 s. *)
Definition sample_document : json :=
  dict [("metrics",
         dict [("http_req_duration", dict [("p(95)", JInt 320)]);
               ("http_req_failed", dict [("rate", JFloat (float_literal 2 (-2)))])]);
        ("state", dict [("testRunDuration", JInt 90500000000)])].

(** A document with every target key. *)
Definition full_document : json :=
  dict [("metrics",
         dict [("http_reqs",
                dict [("count", JInt 1200); ("rate", JFloat (float_literal 125 (-1)))]);
               ("http_req_duration", dict [("p(95)", JInt 250); ("p(99)", JInt 410)]);
               ("http_req_failed", dict [("rate", JFloat (float_literal 1 (-2)))]);
               ("ws_latency_ms", dict [("p(95)", JInt 40)]);
               ("ws_messages_total", dict [("count", JInt 5000)]);
               ("room_creation_success", dict [("rate", JInt 1)]);
               ("game_join_success", dict [("rate", JFloat (float_literal 97 (-2)))]);
               ("question_flag_success", dict [("rate", JFloat (float_literal 9 (-1)))])]);
        ("state", dict [("testRunDuration", JInt 60000000000); ("maxVUs", JInt 50)])].

(** A document that is not empty and has no target key. *)
Definition unrelated_document : json := dict [("root_group", dict [])].

Definition zero_biz : Biz.t :=
  {| Biz.room_creation_success := JInt 0; Biz.game_join_success := JInt 0;
     Biz.question_flag_success := JInt 0 |}.

(** The summary of [sample_document]. *)
Definition sample_summary : Perf.t :=
  {| Perf.http_requests :=
       {| Http.total := JInt 0; Http.rate := JInt 0; Http.p95 := JInt 320; Http.p99 := JInt 0;
          Http.failed_rate := JFloat (float_literal 2 (-2)) |};
     Perf.websocket := {| Ws.latency_p95 := JInt 0; Ws.messages_total := JInt 0 |};
     Perf.business_metrics := zero_biz;
     Perf.test_duration := JInt 90500000000;
     Perf.max_vus := JInt 0 |}.

(** A summary whose three assessed indicators sit on their thresholds. *)
Definition threshold_summary : Perf.t :=
  {| Perf.http_requests :=
       {| Http.total := JInt 1200; Http.rate := JFloat (float_literal 125 (-1));
          Http.p95 := JInt 300; Http.p99 := JInt 410;
          Http.failed_rate := JFloat (float_literal 5 (-2)) |};
     Perf.websocket := {| Ws.latency_p95 := JFloat (float_of_int 100);
                          Ws.messages_total := JInt 0 |};
     Perf.business_metrics := zero_biz;
     Perf.test_duration := JInt 60000000000;
     Perf.max_vus := JInt 50 |}.

Definition sample_row (t : string) (c m d r : Q) : Row.t :=
  {| Row.timestamp := t; Row.cpu := c; Row.memory := m; Row.db_connections := d;
     Row.redis_connections := r |}.

Definition sample_series : DataFrame :=
  [sample_row "2025-03-07 09:00:00" 85.5 1000 12 401;
   sample_row "2025-03-07 09:00:05" 75.25 1024 90 300]%Q.

(** * Properties *)

(** ** The summary and the document *)

(** The fields of the performance summary. *)
Inductive field : Type :=
  | HttpTotal | HttpRate | HttpP95 | HttpP99 | HttpFailedRate
  | WsLatencyP95 | WsMessagesTotal
  | RoomCreationSuccess | GameJoinSuccess | QuestionFlagSuccess
  | TestDuration | MaxVus.

Definition get_field (a : Perf.t) (f : field) : json :=
  match f with
  | HttpTotal => Http.total (Perf.http_requests a)
  | HttpRate => Http.rate (Perf.http_requests a)
  | HttpP95 => Http.p95 (Perf.http_requests a)
  | HttpP99 => Http.p99 (Perf.http_requests a)
  | HttpFailedRate => Http.failed_rate (Perf.http_requests a)
  | WsLatencyP95 => Ws.latency_p95 (Perf.websocket a)
  | WsMessagesTotal => Ws.messages_total (Perf.websocket a)
  | RoomCreationSuccess => Biz.room_creation_success (Perf.business_metrics a)
  | GameJoinSuccess => Biz.game_join_success (Perf.business_metrics a)
  | QuestionFlagSuccess => Biz.question_flag_success (Perf.business_metrics a)
  | TestDuration => Perf.test_duration a
  | MaxVus => Perf.max_vus a
  end.

(** Where the document holds the value of a field: its target keys. *)
Definition target_path (f : field) : list string :=
  match f with
  | HttpTotal => ["metrics"; "http_reqs"; "count"]
  | HttpRate => ["metrics"; "http_reqs"; "rate"]
  | HttpP95 => ["metrics"; "http_req_duration"; "p(95)"]
  | HttpP99 => ["metrics"; "http_req_duration"; "p(99)"]
  | HttpFailedRate => ["metrics"; "http_req_failed"; "rate"]
  | WsLatencyP95 => ["metrics"; "ws_latency_ms"; "p(95)"]
  | WsMessagesTotal => ["metrics"; "ws_messages_total"; "count"]
  | RoomCreationSuccess => ["metrics"; "room_creation_success"; "rate"]
  | GameJoinSuccess => ["metrics"; "game_join_success"; "rate"]
  | QuestionFlagSuccess => ["metrics"; "question_flag_success"; "rate"]
  | TestDuration => ["state"; "testRunDuration"]
  | MaxVus => ["state"; "maxVUs"]
  end.

(** The value under a path of keys; [None] when a key of the path is
    missing. *)
Fixpoint nested (doc : json) (path : list string) : option json :=
  match path with
  | [] => Some doc
  | key :: rest =>
      match doc with
      | JObj m => match m !! key with Some v => nested v rest | None => None end
      | _ => None
      end
  end.

Definition is_dict (v : json) : Prop :=
  match v with
  | JObj _ => True
  | _ => False
  end.

#[global] Instance is_dict_dec (v : json) : Decision (is_dict v).
Proof. destruct v; simpl; apply _. Defined.

Definition dict_or_missing (o : option json) : Prop :=
  match o with
  | None => True
  | Some v => is_dict v
  end.

#[global] Instance dict_or_missing_dec (o : option json) : Decision (dict_or_missing o).
Proof. destruct o; simpl; apply _. Defined.

(** A metrics document: a mapping whose [state] entry is a mapping and
    whose [metrics] entry maps every metric name to a mapping of
    statistics. *)
Definition metrics_document (doc : json) : Prop :=
  match doc with
  | JObj d =>
      dict_or_missing (d !! "state") /\
      match d !! "metrics" with
      | None => True
      | Some (JObj ms) => map_Forall (fun _ v => is_dict v) ms
      | Some _ => False
      end
  | _ => False
  end.

#[global] Instance metrics_document_dec (doc : json) : Decision (metrics_document doc).
Proof.
  destruct doc as [| | | | | |d]; simpl; try apply _.
  destruct (d !! "metrics") as [[| | | | | |ms]|]; apply _.
Defined.

(** ** Analyzer: performance *)

Lemma get2_nested (m : gmap string json) (k1 k2 : string) :
  dict_or_missing (m !! k1) ->
  get2 (JObj m) k1 k2 = Ok (default (JInt 0) (nested (JObj m) [k1; k2])).
Proof.
  unfold get2; simpl. destruct (m !! k1) as [[]|] eqn:E; simpl; try contradiction.
  - intros _. destruct (_ !! k2); reflexivity.
  - intros _. rewrite lookup_empty. reflexivity.
Qed.

Lemma get2_metrics (d : gmap string json) (metrics : json) (k1 k2 : string) :
  py_get (JObj d) "metrics" empty_dict = Ok metrics ->
  (forall ms, d !! "metrics" = Some (JObj ms) -> dict_or_missing (ms !! k1)) ->
  dict_or_missing (d !! "metrics") ->
  get2 metrics k1 k2 = Ok (default (JInt 0) (nested (JObj d) ["metrics"; k1; k2])).
Proof.
  simpl. intros [= <-] Hms Hd.
  destruct (d !! "metrics") as [[]|] eqn:E; simpl in *; try contradiction.
  - apply get2_nested. auto.
  - unfold get2, empty_dict. simpl. rewrite lookup_empty. reflexivity.
Qed.

(** The metrics that the summary is computed from. *)
Definition target_metrics : list string :=
  ["http_reqs"; "http_req_duration"; "http_req_failed"; "ws_latency_ms"; "ws_messages_total";
   "room_creation_success"; "game_join_success"; "question_flag_success"].

(** What the analyzer reads: the entries it calls [.get] on are mappings. *)
Definition analyzable (doc : json) : Prop :=
  exists d, doc = JObj d /\
    dict_or_missing (d !! "state") /\
    dict_or_missing (d !! "metrics") /\
    forall ms name, d !! "metrics" = Some (JObj ms) ->
      In name target_metrics -> dict_or_missing (ms !! name).

Lemma metrics_document_analyzable (doc : json) :
  metrics_document doc -> analyzable doc.
Proof.
  destruct doc; simpl; try contradiction. intros [Hs Hm]. exists m. repeat split; auto.
  - destruct (m !! "metrics") as [[]|]; simpl; auto.
  - intros ms name E _. rewrite E in Hm.
    destruct (ms !! name) as [v|] eqn:Ev; [exact (Hm name v Ev) | exact I].
Qed.

Lemma analyze_performance_fields (doc : json) :
  analyzable doc -> truthy doc = true ->
  exists a, analyze_performance doc = Ok (Some a) /\
    forall f, get_field a f = default (JInt 0) (nested doc (target_path f)).
Proof.
  intros (d & -> & Hs & Hm & Ht) Htr. unfold analyze_performance. rewrite Htr. simpl negb. cbv iota.
  destruct (py_get (JObj d) "metrics" empty_dict) as [metrics|] eqn:Eg; [|discriminate].
  cbn [mbind result_bind rbind].
  repeat (erewrite (get2_metrics d metrics) by
    (first [exact Eg | exact Hm | intros ms E; apply (Ht ms _ E); simpl; tauto])).
  rewrite !get2_nested by assumption.
  cbn [rbind]. eexists; split; [reflexivity|]. intros []; reflexivity.
Qed.

Lemma truthy_dict (d : gmap string json) : truthy (JObj d) = true <-> d <> ∅.
Proof.
  simpl. rewrite negb_true_iff, bool_decide_eq_false. reflexivity.
Qed.

Lemma nested_cons_inv (doc : json) (key : string) (rest : list string) (v : json) :
  nested doc (key :: rest) = Some v ->
  exists d x, doc = JObj d /\ d !! key = Some x /\ nested x rest = Some v.
Proof.
  simpl. destruct doc; try discriminate. destruct (m !! key) eqn:E; [|discriminate]. eauto.
Qed.

(** A document that has every target key is one the analyzer can read. *)
Lemma all_targets_analyzable (doc : json) :
  (forall f, is_Some (nested doc (target_path f))) -> analyzable doc /\ truthy doc = true.
Proof.
  intros H.
  destruct (H TestDuration) as [v Hv].
  apply nested_cons_inv in Hv as (d & st & -> & Est & Hst).
  apply nested_cons_inv in Hst as (dst & ? & -> & _).
  assert (Hm : forall f k1 k2, target_path f = ["metrics"; k1; k2] ->
            exists ms m1, d !! "metrics" = Some (JObj ms) /\ ms !! k1 = Some (JObj m1)).
  { intros f k1 k2 Ef. destruct (H f) as [leaf Hleaf]. rewrite Ef in Hleaf.
    apply nested_cons_inv in Hleaf as (d' & y & [= <-] & Ey & Hy).
    apply nested_cons_inv in Hy as (ms & z & -> & Ez & Hz).
    apply nested_cons_inv in Hz as (m1 & ? & -> & _). eauto. }
  split.
  - exists d. split; [reflexivity|]. rewrite Est.
    destruct (Hm HttpTotal _ _ eq_refl) as (ms & ? & Ems & _).
    rewrite Ems. repeat split.
    intros ms' name [= <-] Hin. simpl in Hin.
    repeat (destruct Hin as [<- | Hin];
      [match goal with
       | |- dict_or_missing (_ !! ?k) =>
           first [ destruct (Hm HttpTotal k _ eq_refl) as (? & ? & E1 & E2)
                 | destruct (Hm HttpP95 k _ eq_refl) as (? & ? & E1 & E2)
                 | destruct (Hm HttpFailedRate k _ eq_refl) as (? & ? & E1 & E2)
                 | destruct (Hm WsLatencyP95 k _ eq_refl) as (? & ? & E1 & E2)
                 | destruct (Hm WsMessagesTotal k _ eq_refl) as (? & ? & E1 & E2)
                 | destruct (Hm RoomCreationSuccess k _ eq_refl) as (? & ? & E1 & E2)
                 | destruct (Hm GameJoinSuccess k _ eq_refl) as (? & ? & E1 & E2)
                 | destruct (Hm QuestionFlagSuccess k _ eq_refl) as (? & ? & E1 & E2) ];
           rewrite Ems in E1; injection E1 as <-; rewrite E2; exact I
       end|]).
    contradiction.
  - apply truthy_dict. intros ->. rewrite lookup_empty in Est. discriminate.
Qed.

(** C3. For every metrics document in which all target keys are present,
    [analyze_performance] returns a summary, and each field of the summary
    is the value that the document holds under the target keys of the
    field, unchanged. *)
Theorem analyze_performance_pass_through (doc : json) :
  (forall f, is_Some (nested doc (target_path f))) ->
  exists a, analyze_performance doc = Ok (Some a) /\
    forall f, nested doc (target_path f) = Some (get_field a f).
Proof.
  intros H. destruct (all_targets_analyzable doc H) as [Ha Ht].
  destruct (analyze_performance_fields doc Ha Ht) as (a & Ea & Hf).
  exists a. split; [exact Ea|]. intros f. rewrite Hf.
  destruct (H f) as [v ->]. reflexivity.
Qed.

(** C1, as the specification states it, fails on the empty document: the
    document is a mapping in which every target key is missing, and the
    analyzer returns no summary at all. *)
Lemma missing_key_zero_fails_on_empty_document :
  ~ (forall doc f, metrics_document doc -> nested doc (target_path f) = None ->
       exists a, analyze_performance doc = Ok (Some a) /\ get_field a f = JInt 0).
Proof.
  intros H. destruct (H (JObj ∅) HttpP95) as (a & Ea & _).
  - split; exact I.
  - reflexivity.
  - discriminate Ea.
Qed.

(** C1, amended. For every metrics document other than the empty mapping
    in which a target key is missing, [analyze_performance] does not raise
    and the field of that key in its summary is the integer 0. *)
Theorem analyze_performance_missing_key_zero (doc : json) (f : field) :
  metrics_document doc -> doc <> JObj ∅ ->
  nested doc (target_path f) = None ->
  exists a, analyze_performance doc = Ok (Some a) /\ get_field a f = JInt 0.
Proof.
  intros Hdoc Hne Hmiss.
  assert (Ht : truthy doc = true).
  { destruct doc; simpl in Hdoc; try contradiction. apply truthy_dict. congruence. }
  destruct (analyze_performance_fields doc (metrics_document_analyzable doc Hdoc) Ht)
    as (a & Ea & Hf).
  exists a. split; [exact Ea|]. rewrite Hf, Hmiss. reflexivity.
Qed.

Lemma analyze_performance_not_none (doc : json) :
  truthy doc = true -> analyze_performance doc <> Ok None.
Proof.
  intros Ht. unfold analyze_performance. rewrite Ht. simpl negb. cbv iota.
  unfold mbind, result_bind.
  repeat match goal with
         | |- rbind ?r _ <> _ => destruct r; cbn [rbind]; [|discriminate]
         end.
  discriminate.
Qed.

(** C2, as the specification states it, fails: the empty mapping is a
    present document, and the analyzer returns an absent result for it. *)
Lemma absent_result_for_present_document :
  ~ (forall doc, analyze_performance doc = Ok None <-> doc = JNull).
Proof.
  intros H. assert (E : JObj ∅ = JNull) by (apply H; reflexivity). discriminate E.
Qed.

(** C2, amended. For a metrics document that is absent or well formed,
    [analyze_performance] does not raise; it returns an absent result when
    and only when the document is absent or is the empty mapping, so every
    non-empty document, also one with no matching key, has a summary. *)
Theorem analyze_performance_absent_iff (doc : json) :
  doc = JNull \/ metrics_document doc ->
  (exists r, analyze_performance doc = Ok r) /\
  (analyze_performance doc = Ok None <-> doc = JNull \/ doc = JObj ∅).
Proof.
  intros [-> | Hdoc].
  - split; [eexists; reflexivity|]. split; auto.
  - destruct doc; simpl in Hdoc; try contradiction.
    destruct (decide (m = ∅)) as [-> | Hne].
    + split; [eexists; reflexivity|]. split; auto.
    + assert (Ht : truthy (JObj m) = true) by (apply truthy_dict; exact Hne).
      destruct (analyze_performance_fields (JObj m)
                  (metrics_document_analyzable (JObj m) Hdoc) Ht) as (a & Ea & _).
      split; [eauto|]. rewrite Ea. split; [discriminate|].
      intros [E | E]; [discriminate E | congruence].
Qed.

(** X4. The analyzer returns an absent result exactly for a falsy argument: for
    any other value it returns a summary or raises. *)
Lemma analyze_performance_none_iff_falsy (k6_data : json) :
  analyze_performance k6_data = Ok None <-> truthy k6_data = false.
Proof.
  split.
  - intros E. destruct (truthy k6_data) eqn:Ht; [|reflexivity].
    exfalso. exact (analyze_performance_not_none k6_data Ht E).
  - intros Ht. unfold analyze_performance. rewrite Ht. reflexivity.
Qed.

(** ** Report writer: what a run writes *)

(** The world in which the file at [p] holds [chunks] and [printed] has
    been added to the standard output. *)
Definition with_output (p : string) (chunks printed : list string) (w : World) : World :=
  {| files := <[p := chunks]> (files w); dirs := dirs w;
     stdout := (stdout w ++ printed)%list;
     clock := clock w; ticks := ticks w; rc := rc w;
             figure := figure w; images := images w |}.

(** [m] does nothing but write the chunks [out] at the end of the open
    file [p] and print the lines [printed], and ends with [r]. *)
Definition emits {A} (p : string) (m : M A) (out printed : list string) (r : result A) : Prop :=
  forall w cs, files w !! p = Some cs -> m w = (r, with_output p (cs ++ out) printed w).

Lemma with_output_compose (p : string) (c1 c2 pr1 pr2 : list string) (w : World) :
  with_output p c2 pr2 (with_output p c1 pr1 w) = with_output p c2 (pr1 ++ pr2) w.
Proof.
  unfold with_output; simpl. rewrite insert_insert_eq, app_assoc. reflexivity.
Qed.

Lemma with_output_id (p : string) (cs : list string) (w : World) :
  files w !! p = Some cs -> with_output p (cs ++ []) [] w = w.
Proof.
  intros H. destruct w. unfold with_output; simpl in *.
  rewrite !app_nil_r, insert_id by exact H. reflexivity.
Qed.

Lemma with_output_lookup (p : string) (cs pr : list string) (w : World) :
  files (with_output p cs pr w) !! p = Some cs.
Proof. simpl. apply lookup_insert_eq. Qed.

Lemma emits_write (p s : string) : emits p (f_write p s) [s] [] (Ok tt).
Proof.
  intros w cs H. unfold f_write, with_output. rewrite H, app_nil_r. reflexivity.
Qed.

Lemma emits_print (p s : string) : emits p (py_print s) [] [s] (Ok tt).
Proof.
  intros w cs H. unfold py_print, with_output.
  rewrite app_nil_r, insert_id by exact H. reflexivity.
Qed.

Lemma emits_lift {A} (p : string) (r : result A) : emits p (lift r) [] [] r.
Proof. intros w cs H. unfold lift. rewrite with_output_id by exact H. reflexivity. Qed.

Lemma emits_lift_ok {A} (p : string) (r : result A) (a : A) :
  r = Ok a -> emits p (lift r) [] [] (Ok a).
Proof. intros ->. apply emits_lift. Qed.

Lemma emits_ret {A} (p : string) (a : A) : emits p (mret a) [] [] (Ok a).
Proof. apply (emits_lift p (Ok a)). Qed.

Lemma emits_bind_ok {A B} (p : string) (m : M A) (k : A -> M B) (a : A)
    (o1 o2 pr1 pr2 : list string) (r : result B) :
  emits p m o1 pr1 (Ok a) -> emits p (k a) o2 pr2 r ->
  emits p (m ≫= k) (o1 ++ o2) (pr1 ++ pr2) r.
Proof.
  intros Hm Hk w cs H. unfold mbind, M_bind. rewrite (Hm w cs H).
  rewrite (Hk _ (cs ++ o1)%list) by apply with_output_lookup.
  rewrite with_output_compose, app_assoc. reflexivity.
Qed.

Lemma emits_bind_raise {A B} (p : string) (m : M A) (k : A -> M B) (e : exn)
    (o pr : list string) :
  emits p m o pr (Raise e) -> emits p (m ≫= k) o pr (Raise e).
Proof. intros Hm w cs H. unfold mbind, M_bind. rewrite (Hm w cs H). reflexivity. Qed.

Lemma emits_when (p : string) (b : bool) (m : M unit) (o : list string) :
  emits p m o [] (Ok tt) -> emits p (when b m) (if b then o else []) [] (Ok tt).
Proof. intros H. destruct b; simpl; [exact H | apply emits_ret]. Qed.

Lemma emits_option {A} (p : string) (x : option A) (f : A -> M unit) (o : A -> list string) :
  (forall a, emits p (f a) (o a) [] (Ok tt)) ->
  emits p (match x with Some a => f a | None => mret tt end)
    (match x with Some a => o a | None => [] end) [] (Ok tt).
Proof. intros H. destruct x; [apply H | apply emits_ret]. Qed.

(** The path of the report and the time it prints, from the two readings
    of the clock that [generate_report] makes. *)
Definition report_path (dir : string) (w : World) : string :=
  dir +:+ "/performance-report-" +:+ strftime_compact (clock w (ticks w)) +:+ ".md".

Definition report_title : string :=
  "# Party Puzzle Palooza Load Test Performance Report" +:+ nl +:+ nl.

Definition generated_line (w : World) : string :=
  "**Generated:** " +:+ strftime_iso (clock w (S (ticks w))) +:+ nl +:+ nl.

(** The chunks of the report that a run from [w] leaves in [w']. *)
Definition report_of (dir : string) (w w' : World) : list string :=
  default [] (files w' !! report_path dir w).

(** The world after the directory is made, the file opened and its first
    two chunks written. *)
Definition report_opened (dir : string) (w : World) : World :=
  {| files := <[report_path dir w := [report_title; generated_line w]]> (files w);
     dirs := if bool_decide (dir ∈ dirs w) || bool_decide (is_Some (files w !! dir))
             then dirs w else {[dir]} ∪ dirs w;
     stdout := stdout w; clock := clock w; ticks := S (S (ticks w));
     rc := rc w; figure := figure w; images := images w |}.

Lemma run_prologue (dir : string) (K : datetime -> datetime -> M unit) (w : World) :
  (ex ← path_exists dir;
   when (negb ex) (makedirs dir);;
   t ← now;
   open_write (dir +:+ "/performance-report-" +:+ strftime_compact t +:+ ".md");;
   f_write (dir +:+ "/performance-report-" +:+ strftime_compact t +:+ ".md")
     ("# Party Puzzle Palooza Load Test Performance Report" +:+ nl +:+ nl);;
   t' ← now;
   f_write (dir +:+ "/performance-report-" +:+ strftime_compact t +:+ ".md")
     ("**Generated:** " +:+ strftime_iso t' +:+ nl +:+ nl);;
   K t t') w
  = K (clock w (ticks w)) (clock w (S (ticks w))) (report_opened dir w).
Proof.
  unfold mbind, M_bind, path_exists, when, makedirs, now, open_write, f_write, report_opened.
  destruct (bool_decide (dir ∈ dirs w) || bool_decide (is_Some (files w !! dir)));
    cbn [negb fst snd files dirs stdout clock ticks figure images mret M_ret];
    rewrite ?lookup_insert_eq; cbn [default]; rewrite ?lookup_insert_eq; cbn [default];
    rewrite !insert_insert_eq; reflexivity.
Qed.

Lemma report_opened_lookup (dir : string) (w : World) :
  files (report_opened dir w) !! report_path dir w = Some [report_title; generated_line w].
Proof. simpl. apply lookup_insert_eq. Qed.

Lemma emits_run {A} (p : string) (m : M A) (out pr : list string) (r : result A)
    (w : World) (cs : list string) :
  emits p m out pr r -> files w !! p = Some cs ->
  m w = (r, with_output p (cs ++ out) pr w).
Proof. intros H Hp. apply H, Hp. Qed.

Lemma emits_seq {A B} (p : string) (m : M A) (k : A -> M B) (a : A)
    (o o1 o2 pr pr1 pr2 : list string) (r : result B) :
  emits p m o1 pr1 (Ok a) -> emits p (k a) o2 pr2 r ->
  o = (o1 ++ o2)%list -> pr = (pr1 ++ pr2)%list ->
  emits p (m ≫= k) o pr r.
Proof. intros Hm Hk -> ->. eapply emits_bind_ok; eassumption. Qed.

Lemma emits_if_write (p : string) (b : bool) (s1 s2 : string) :
  emits p (if b then f_write p s1 else f_write p s2) [if b then s1 else s2] [] (Ok tt).
Proof. destruct b; apply emits_write. Qed.

(** One chunk after the other, when the value of every formatted field and
    of every comparison is among the hypotheses. *)
Ltac emit :=
  lazymatch goal with
  | |- emits _ (@mbind _ _ _ _ _ ?m) _ _ _ =>
      eapply emits_seq; [emit | cbv beta; emit | reflexivity | reflexivity]
  | |- emits _ (f_write _ _) _ _ _ => apply emits_write
  | |- emits _ (py_print _) _ _ _ => apply emits_print
  | |- emits _ (lift _) _ _ _ => apply emits_lift_ok; eassumption
  | |- emits _ (mret _) _ _ _ => apply emits_ret
  | |- emits _ (if _ then f_write _ _ else f_write _ _) _ _ _ => apply emits_if_write
  | |- emits _ (when _ _) _ _ _ => eapply emits_when; emit
  | |- emits _ (match _ with Some _ => _ | None => _ end) _ _ _ =>
      eapply emits_option; intros ?; emit
  end.

(** ** Report writer: numbers that can be printed *)

Definition is_Ok {A} (r : result A) : Prop := exists a, r = Ok a.

(** Every key performance indicator of the summary has a text. *)
Definition kpi_renders (py_repr : json -> string) (perf : Perf.t) : Prop :=
  is_Ok (py_format_f 2 (Http.p95 (Perf.http_requests perf))) /\
  is_Ok (py_format_pct 2 (Http.failed_rate (Perf.http_requests perf))) /\
  is_Ok (py_format_f 2 (Ws.latency_p95 (Perf.websocket perf))) /\
  is_Ok (py_format_comma py_repr (Http.total (Perf.http_requests perf))) /\
  is_Ok (py_format_f 2 (Http.rate (Perf.http_requests perf))) /\
  is_Ok (seconds ← py_truediv (Perf.test_duration perf) 1000000000; py_format_f 1 seconds).

(** A summary whose indicators are floats can always be printed. *)
Lemma kpi_renders_floats (py_repr : json -> string) (perf : Perf.t)
    (p95 err ws total rate duration : spec_float) :
  Http.p95 (Perf.http_requests perf) = JFloat p95 ->
  Http.failed_rate (Perf.http_requests perf) = JFloat err ->
  Ws.latency_p95 (Perf.websocket perf) = JFloat ws ->
  Http.total (Perf.http_requests perf) = JFloat total ->
  Http.rate (Perf.http_requests perf) = JFloat rate ->
  Perf.test_duration perf = JFloat duration ->
  kpi_renders py_repr perf.
Proof.
  intros E1 E2 E3 E4 E5 E6. unfold kpi_renders. rewrite E1, E2, E3, E4, E5, E6.
  repeat split; eexists; reflexivity.
Qed.

Lemma format_f_numeric (d : nat) (v : json) :
  is_Ok (py_format_f d v) -> is_Some (xnum_of v).
Proof. destruct v; simpl; intros [txt E]; try discriminate; eauto. Qed.

Lemma format_pct_numeric (d : nat) (v : json) :
  is_Ok (py_format_pct d v) -> is_Some (xnum_of v).
Proof. destruct v; simpl; intros [txt E]; try discriminate; eauto. Qed.

Lemma py_lt_numeric (v c : json) :
  is_Some (xnum_of v) -> is_Some (xnum_of c) -> is_Ok (py_lt v c).
Proof. intros [x Ex] [y Ey]. unfold py_lt. rewrite Ex, Ey. eexists; reflexivity. Qed.

Lemma py_gt_numeric (v c : json) :
  is_Some (xnum_of v) -> is_Some (xnum_of c) -> is_Ok (py_gt v c).
Proof. intros [x Ex] [y Ey]. unfold py_gt. rewrite Ex, Ey. eexists; reflexivity. Qed.

(** The text of every indicator and the value of every comparison of the
    report, as hypotheses, from [kpi_renders]. *)
Ltac kpi_values H :=
  let Hp95 := fresh "Hp95" in let Herr := fresh "Herr" in let Hws := fresh "Hws" in
  let Htot := fresh "Htot" in let Hrate := fresh "Hrate" in let Hdur := fresh "Hdur" in
  destruct H as (Hp95 & Herr & Hws & Htot & Hrate & Hdur);
  destruct (py_lt_numeric _ (JInt 300) (format_f_numeric _ _ Hp95)
              (ex_intro _ _ eq_refl)) as [?lt_http ?Hlt_http];
  destruct (py_lt_numeric _ (JFloat f0_05) (format_pct_numeric _ _ Herr)
              (ex_intro _ _ eq_refl)) as [?lt_err ?Hlt_err];
  destruct (py_lt_numeric _ (JInt 100) (format_f_numeric _ _ Hws)
              (ex_intro _ _ eq_refl)) as [?lt_ws ?Hlt_ws];
  destruct (py_gt_numeric _ (JInt 300) (format_f_numeric _ _ Hp95)
              (ex_intro _ _ eq_refl)) as [?gt_http ?Hgt_http];
  destruct (py_gt_numeric _ (JFloat f0_05) (format_pct_numeric _ _ Herr)
              (ex_intro _ _ eq_refl)) as [?gt_err ?Hgt_err];
  destruct (py_gt_numeric _ (JInt 100) (format_f_numeric _ _ Hws)
              (ex_intro _ _ eq_refl)) as [?gt_ws ?Hgt_ws];
  destruct Hp95 as [?s_p95 Hp95]; destruct Herr as [?s_err Herr];
  destruct Hws as [?s_ws Hws]; destruct Htot as [?s_total Htot];
  destruct Hrate as [?s_rate Hrate]; destruct Hdur as [?s_dur Hdur];
  let seconds := fresh "seconds" in let Hdiv := fresh "Hdiv" in
  destruct (py_truediv (Perf.test_duration _) 1000000000) as [seconds|] eqn:Hdiv;
    [|discriminate Hdur];
  cbn [mbind result_bind rbind] in Hdur.

(** The run of the report writer, up to the chunks it writes. *)
Ltac report_run :=
  unfold generate_report; rewrite run_prologue; cbv beta iota zeta;
  eapply emits_run; [|apply report_opened_lookup]; emit.

Ltac report_chunks :=
  unfold report_of; rewrite with_output_lookup; cbn [default from_option id].


Ltac find_in :=
  lazymatch goal with
  | |- In _ (_ :: _) => first [apply in_eq | apply in_cons; find_in]
  | |- In _ (_ ++ _) => apply in_or_app; first [left; find_in | right; find_in]
  end.

(** *** True division of a duration *)



















(** ** Report writer: thresholds *)

(** The value [v] is a number equal to [c]. *)
Definition at_value (v : json) (c : xnum) : Prop :=
  exists x, xnum_of v = Some x /\ xcompare x c = Some Eq.

Lemma xcompare_fin_scale (m1 e1 m2 e2 e : Z) :
  e <= e1 -> e <= e2 ->
  xcompare (XFin m1 e1) (XFin m2 e2) = Some (m1 * 2 ^ (e1 - e) ?= m2 * 2 ^ (e2 - e)).
Proof.
  intros H1 H2. simpl. f_equal. set (e0 := Z.min e1 e2).
  replace (e1 - e) with ((e1 - e0) + (e0 - e)) by lia.
  replace (e2 - e) with ((e2 - e0) + (e0 - e)) by lia.
  rewrite !Z.pow_add_r, !Z.mul_assoc by lia.
  apply Zmult_compare_compat_r. apply Z.lt_gt, Z.pow_pos_nonneg; lia.
Qed.

(** Numbers that are equal compare alike with any third number. *)
Lemma xcompare_eq_l (x y z : xnum) :
  xcompare x y = Some Eq -> xcompare x z = xcompare y z.
Proof.
  destruct x as [|s1|m1 e1], y as [|s2|m2 e2]; try discriminate.
  - destruct s1, s2; try discriminate; reflexivity.
  - destruct s1; discriminate.
  - destruct s2; discriminate.
  - intros H. destruct z as [|s3|m3 e3]; try reflexivity.
    set (e := Z.min e1 (Z.min e2 e3)).
    rewrite (xcompare_fin_scale m1 e1 m2 e2 e) in H by lia.
    injection H as H. apply Z.compare_eq in H.
    rewrite (xcompare_fin_scale m1 e1 m3 e3 e), (xcompare_fin_scale m2 e2 m3 e3 e) by lia.
    rewrite H. reflexivity.
Qed.

Lemma py_lt_at_value (v t : json) (c y : xnum) :
  at_value v c -> xnum_of t = Some y ->
  py_lt v t = Ok (match xcompare c y with Some Lt => true | _ => false end).
Proof.
  intros (x & Ex & Hc) Et. unfold py_lt. rewrite Ex, Et, (xcompare_eq_l x c y Hc). reflexivity.
Qed.

Lemma py_gt_at_value (v t : json) (c y : xnum) :
  at_value v c -> xnum_of t = Some y ->
  py_gt v t = Ok (match xcompare c y with Some Gt => true | _ => false end).
Proof.
  intros (x & Ex & Hc) Et. unfold py_gt. rewrite Ex, Et, (xcompare_eq_l x c y Hc). reflexivity.
Qed.

(** The three indicators that the report assesses. *)
Inductive metric : Type := HttpTime | ErrorRate | WsLatency.

Definition metric_value (perf : Perf.t) (m : metric) : json :=
  match m with
  | HttpTime => Http.p95 (Perf.http_requests perf)
  | ErrorRate => Http.failed_rate (Perf.http_requests perf)
  | WsLatency => Ws.latency_p95 (Perf.websocket perf)
  end.

(** 300 ms, 5 %, 100 ms *)
Definition threshold (m : metric) : json :=
  match m with
  | HttpTime => JInt 300
  | ErrorRate => JFloat f0_05
  | WsLatency => JInt 100
  end.

Definition threshold_value (m : metric) : xnum :=
  match m with
  | HttpTime => XFin 300 0
  | ErrorRate => xnum_of_float f0_05
  | WsLatency => XFin 100 0
  end.

Definition pass_line (m : metric) : string :=
  match m with
  | HttpTime => "✅ **HTTP Response Time:** Within acceptable limits" +:+ nl
  | ErrorRate => "✅ **Error Rate:** Within acceptable limits" +:+ nl
  | WsLatency => "✅ **WebSocket Latency:** Within acceptable limits" +:+ nl
  end.

Definition fail_line (m : metric) : string :=
  match m with
  | HttpTime => "❌ **HTTP Response Time:** Exceeds 300ms threshold" +:+ nl
  | ErrorRate => "❌ **Error Rate:** Exceeds 5% threshold" +:+ nl
  | WsLatency => "❌ **WebSocket Latency:** Exceeds 100ms threshold" +:+ nl
  end.

(** The block of recommendations of an indicator. *)
Definition advice (m : metric) : list string :=
  match m with
  | HttpTime =>
      ["- **Optimize HTTP endpoints** that exceed 300ms response time" +:+ nl;
       "- **Implement caching** for frequently accessed data" +:+ nl;
       "- **Review database queries** for optimization opportunities" +:+ nl]
  | ErrorRate =>
      ["- **Investigate error patterns** and implement error handling" +:+ nl;
       "- **Review rate limiting** configuration" +:+ nl;
       "- **Check external service dependencies**" +:+ nl]
  | WsLatency =>
      ["- **Optimize WebSocket message processing**" +:+ nl;
       "- **Review Redis pub/sub performance**" +:+ nl;
       "- **Consider WebSocket connection pooling**" +:+ nl]
  end.

Definition recommendations_header : string := "## Recommendations" +:+ nl +:+ nl.

(** The chunks of a report that follow the chunk [header]. *)
Fixpoint section_from (header : string) (chunks : list string) : list string :=
  match chunks with
  | [] => []
  | c :: rest => if String.eqb c header then rest else section_from header rest
  end.

Lemma Forall_if {A} (P : A -> Prop) (b : bool) (l1 l2 : list A) :
  Forall P l1 -> Forall P l2 -> Forall P (if b then l1 else l2).
Proof. destruct b; auto. Qed.

Lemma Forall_option {A B} (P : B -> Prop) (x : option A) (f : A -> list B) :
  (forall a, Forall P (f a)) -> Forall P (match x with Some a => f a | None => [] end).
Proof. destruct x; auto. Qed.

Lemma not_in_differ (x : string) (l : list string) :
  Forall (fun c => c <> x) l -> ~ In x l.
Proof. intros H Hin. exact (proj1 (List.Forall_forall _ l) H x Hin eq_refl). Qed.

(** Two chunks differ: they differ at a character of their constant
    parts. *)
Ltac differ :=
  lazymatch goal with
  | |- (if ?b then _ else _) <> _ => destruct b; differ
  | |- _ <> _ =>
      let E := fresh in intros E; cbn [String.append nl] in E; discriminate E
  end.

Ltac all_differ :=
  repeat first
    [ apply List.Forall_nil
    | apply List.Forall_cons; [differ|]
    | apply Forall_app_2
    | apply Forall_if
    | apply Forall_option; intros ? ].

Ltac absent := apply not_in_differ; all_differ.

(** The value of a comparison of the report with an indicator that has the
    value [c]. *)
Ltac known_lt Hat H :=
  let E := fresh in
  lazymatch type of H with
  | py_lt ?v ?t = _ => pose proof (py_lt_at_value v t _ _ Hat eq_refl) as E
  end;
  rewrite H in E; vm_compute in E; injection E as ->.

Ltac known_gt Hat H :=
  let E := fresh in
  lazymatch type of H with
  | py_gt ?v ?t = _ => pose proof (py_gt_at_value v t _ _ Hat eq_refl) as E
  end;
  rewrite H in E; vm_compute in E; injection E as ->.

(** C10. When an indicator sits exactly on its threshold (HTTP p95 = 300,
    error rate = 0.05, WebSocket p95 = 100), the report marks its line of
    the Performance Assessment as failed, not as passed, and writes no
    line of its block of recommendations; this holds for each of the three
    indicators. *)
Theorem report_on_threshold_fails_without_advice (py_repr : json -> string) (perf : Perf.t)
    (sys : option Sys.t) (dir : string) (w : World) (m : metric) :
  kpi_renders py_repr perf ->
  at_value (metric_value perf m) (threshold_value m) ->
  exists w',
    generate_report py_repr (Some perf) sys dir w = (Ok tt, w') /\
    In (fail_line m) (report_of dir w w') /\
    ~ In (pass_line m) (report_of dir w w') /\
    forall line, In line (advice m) -> ~ In line (report_of dir w w').
Proof.
  intros Hkpi Hat. kpi_values Hkpi.
  destruct m; cbn [metric_value threshold_value] in Hat.
  - known_lt Hat Hlt_http. known_gt Hat Hgt_http.
    eexists. split; [report_run|]. report_chunks. cbv iota.
    split; [|split].
    + unfold fail_line. find_in.
    + unfold pass_line. absent.
    + intros line [<- | [<- | [<- | []]]]; absent.
  - known_lt Hat Hlt_err. known_gt Hat Hgt_err.
    eexists. split; [report_run|]. report_chunks. cbv iota.
    split; [|split].
    + unfold fail_line. find_in.
    + unfold pass_line. absent.
    + intros line [<- | [<- | [<- | []]]]; absent.
  - known_lt Hat Hlt_ws. known_gt Hat Hgt_ws.
    eexists. split; [report_run|]. report_chunks. cbv iota.
    split; [|split].
    + unfold fail_line. find_in.
    + unfold pass_line. absent.
    + intros line [<- | [<- | [<- | []]]]; absent.
Qed.

Lemma section_from_skip (header : string) (l1 l2 : list string) :
  Forall (fun c => c <> header) l1 ->
  section_from header (l1 ++ l2) = section_from header l2.
Proof.
  induction 1 as [|c l1 Hc _ IH]; [reflexivity|]. simpl.
  destruct (String.eqb_spec c header); [contradiction|exact IH].
Qed.

Lemma section_from_here (header : string) (rest : list string) :
  section_from header ([header] ++ rest) = rest.
Proof. simpl. rewrite String.eqb_refl. reflexivity. Qed.

(** C4. For a performance summary with HTTP p95 = 320 and HTTP failed rate
    = 0.02, the report writer writes the failed line for the HTTP response
    time (exceeds 300ms) and the passed line for the error rate, and the
    Recommendations section holds the block about HTTP optimization while
    no line of the block about error investigation is written. *)
Theorem report_slow_http_low_errors (py_repr : json -> string) (perf : Perf.t)
    (sys : option Sys.t) (dir : string) (w : World) :
  kpi_renders py_repr perf ->
  at_value (Http.p95 (Perf.http_requests perf)) (XFin 320 0) ->
  at_value (Http.failed_rate (Perf.http_requests perf)) (xnum_of_float (float_literal 2 (-2))) ->
  exists w',
    generate_report py_repr (Some perf) sys dir w = (Ok tt, w') /\
    In (fail_line HttpTime) (report_of dir w w') /\
    In (pass_line ErrorRate) (report_of dir w w') /\
    (forall line, In line (advice HttpTime) ->
       In line (section_from recommendations_header (report_of dir w w'))) /\
    (forall line, In line (advice ErrorRate) -> ~ In line (report_of dir w w')).
Proof.
  intros Hkpi Hhttp Herrors. kpi_values Hkpi.
  known_lt Hhttp Hlt_http. known_gt Hhttp Hgt_http.
  known_lt Herrors Hlt_err. known_gt Herrors Hgt_err.
  eexists. split; [report_run|]. report_chunks. cbv iota.
  split; [|split; [|split]].
  - unfold fail_line. find_in.
  - unfold pass_line. find_in.
  - unfold recommendations_header.
    repeat (rewrite section_from_skip by all_differ).
    rewrite section_from_here.
    intros line [<- | [<- | [<- | []]]]; find_in.
  - intros line [<- | [<- | [<- | []]]]; absent.
Qed.

(** ** Report writer: what any run writes *)

(** Whatever the path [p] of the open file, [m p] writes the same chunks
    at its end, all of which satisfy [Q], does nothing else but print, and
    ends with the same result. *)
Definition writes_only (Q : string -> Prop) {A} (m : string -> M A) : Prop :=
  exists out r, Forall Q out /\ forall p, exists pr, emits p (m p) out pr r.

Lemma wo_write (Q : string -> Prop) (s : string) :
  Q s -> writes_only Q (fun p => f_write p s).
Proof.
  intros HQ. exists [s], (Ok tt). split; [constructor; [exact HQ|constructor]|].
  intros p. exists []. apply emits_write.
Qed.

Lemma wo_print (Q : string -> Prop) (s : string -> string) :
  writes_only Q (fun p => py_print (s p)).
Proof.
  exists [], (Ok tt). split; [constructor|]. intros p. exists [s p]. apply emits_print.
Qed.

Lemma wo_lift (Q : string -> Prop) {A} (r : result A) : writes_only Q (fun _ => lift r).
Proof. exists [], r. split; [constructor|]. intros p. exists []. apply emits_lift. Qed.

Lemma wo_ret (Q : string -> Prop) {A} (a : A) : writes_only Q (fun _ => mret a : M A).
Proof. apply (wo_lift Q (Ok a)). Qed.

Lemma wo_bind (Q : string -> Prop) {A B} (m : string -> M A) (k : A -> string -> M B) :
  writes_only Q m -> (forall a, writes_only Q (k a)) ->
  writes_only Q (fun p => m p ≫= fun a => k a p).
Proof.
  intros (o1 & r1 & H1 & E1) Hk. destruct r1 as [a|e].
  - destruct (Hk a) as (o2 & r2 & H2 & E2). exists (o1 ++ o2)%list, r2.
    split; [apply Forall_app_2; assumption|].
    intros p. destruct (E1 p) as [pr1 E1p]. destruct (E2 p) as [pr2 E2p].
    exists (pr1 ++ pr2)%list. eapply emits_bind_ok; eassumption.
  - exists o1, (Raise e). split; [exact H1|].
    intros p. destruct (E1 p) as [pr1 E1p]. exists pr1. apply emits_bind_raise, E1p.
Qed.

(** Every path through a computation, whatever its formatted fields and
    comparisons give; [chunk_ok] proves [Q] of a chunk. *)
Ltac explore chunk_ok :=
  cbv beta iota;
  lazymatch goal with
  | |- writes_only _ (fun p => @mbind _ _ _ _ (@?k p) (@?m p)) =>
      apply wo_bind; [explore chunk_ok | intros ?; explore chunk_ok]
  | |- writes_only _ (fun p => f_write p _) => apply wo_write; chunk_ok
  | |- writes_only _ (fun p => py_print (@?s p)) => apply wo_print
  | |- writes_only _ (fun _ => lift _) => apply wo_lift
  | |- writes_only _ (fun _ => mret _) => apply wo_ret
  | |- writes_only _ (fun p => if ?b then @?x p else @?y p) => destruct b; explore chunk_ok
  | |- writes_only _ (fun p => when ?b (@?m p)) => unfold when; explore chunk_ok
  | |- writes_only _ (fun p => match ?x with Some a => @?f p a | None => @?g p end) =>
      destruct x; explore chunk_ok
  end.

(** A computation [G] that, once the report is opened, goes on as [F]
    does with the path of the report, where [F] writes chunks that satisfy
    [Q]: its report is the title, the line of the generation time and a
    body of such chunks that is the same in every world. *)
Lemma frame_of_rest (Q : string -> Prop) (G : string -> M unit) (F : string -> M unit) :
  (forall dir w, G dir w = F (report_path dir w) (report_opened dir w)) ->
  writes_only Q F ->
  exists body r, Forall Q body /\
    forall dir w,
      fst (G dir w) = r /\
      report_of dir w (snd (G dir w)) = report_title :: generated_line w :: body.
Proof.
  intros HG (out & r & HQ & E). exists out, r. split; [exact HQ|].
  intros dir w. destruct (E (report_path dir w)) as [pr Ep].
  rewrite HG, (Ep _ _ (report_opened_lookup dir w)). split; [reflexivity|].
  unfold report_of. cbn [snd]. rewrite with_output_lookup. reflexivity.
Qed.

(** [generate_report], once the report is opened, as a function of the
    path of the report. *)
Ltac report_rest :=
  intros ? ?; unfold generate_report; rewrite run_prologue; cbv beta iota zeta;
  unfold report_path;
  lazymatch goal with
  | |- _ (report_opened ?dir ?w) = _ =>
      apply (f_equal (fun f : M unit => f (report_opened dir w)));
      generalize (dir +:+ "/performance-report-" +:+
                  strftime_compact (clock w (ticks w)) +:+ ".md")
  end;
  intros ?; reflexivity.

(** Whatever the world, the report is the title, the line of the
    generation time and a body that depends on the summaries alone, and so
    does the result of the run. *)
Lemma generate_report_frame (py_repr : json -> string) (perf : option Perf.t)
    (sys : option Sys.t) :
  exists body r, forall dir w,
    fst (generate_report py_repr perf sys dir w) = r /\
    report_of dir w (snd (generate_report py_repr perf sys dir w)) =
    report_title :: generated_line w :: body.
Proof.
  edestruct (frame_of_rest (fun _ => True) (generate_report py_repr perf sys))
    as (body & r & _ & H); [report_rest | explore ltac:(exact I) |].
  exists body, r. exact H.
Qed.

(** C7. Two runs of the report writer on the same summaries end with the
    same result and write the same report, byte for byte, aside from the
    line of the generation time, whatever the worlds they start from; when
    the generation time is the same, the two reports are the same bytes.
    The report is a function of the summaries and of the generation
    time. *)
Theorem generate_report_deterministic (py_repr : json -> string) (perf : option Perf.t)
    (sys : option Sys.t) (dir1 dir2 : string) (w1 w2 : World) :
  let run1 := generate_report py_repr perf sys dir1 w1 in
  let run2 := generate_report py_repr perf sys dir2 w2 in
  fst run1 = fst run2 /\
  (exists body,
     report_of dir1 w1 (snd run1) = report_title :: generated_line w1 :: body /\
     report_of dir2 w2 (snd run2) = report_title :: generated_line w2 :: body) /\
  (generated_line w1 = generated_line w2 ->
   file_bytes (report_of dir1 w1 (snd run1)) = file_bytes (report_of dir2 w2 (snd run2))).
Proof.
  destruct (generate_report_frame py_repr perf sys) as (body & r & H).
  destruct (H dir1 w1) as [R1 E1]. destruct (H dir2 w2) as [R2 E2].
  cbv zeta. split; [congruence|]. split.
  - exists body. split; assumption.
  - intros Hgen. rewrite E1, E2, Hgen. reflexivity.
Qed.

(** ** Absent resource series *)

Definition system_section_header : string :=
  nl +:+ "## System Resource Analysis" +:+ nl +:+ nl.

(** The chunks of the System Resource Analysis section: its header, the
    headers of its three parts, and their lines. *)
Definition system_section_chunk (c : string) : bool :=
  String.eqb c system_section_header
  || String.eqb c ("### CPU Usage" +:+ nl)
  || String.eqb c ("### Database Connections" +:+ nl)
  || String.eqb c ("### Redis Connections" +:+ nl)
  || String.prefix "- **Average:** " c
  || String.prefix "- **Peak:** " c
  || String.prefix "- **95th Percentile:** " c.

(** Without a resource summary, no chunk of the section is written,
    whatever the performance summary and whether or not the run raises. *)
Lemma report_without_system_section (py_repr : json -> string) (perf : option Perf.t)
    (dir : string) (w : World) :
  Forall (fun c => system_section_chunk c = false)
    (report_of dir w (snd (generate_report py_repr perf None dir w))).
Proof.
  edestruct (frame_of_rest (fun c => system_section_chunk c = false)
               (generate_report py_repr perf None))
    as (body & r & Hbody & H); [report_rest | explore ltac:(reflexivity) |].
  destruct (H dir w) as [_ ->].
  repeat (constructor; [reflexivity|]). exact Hbody.
Qed.

(** ** Chart renderer: the panels of the resource series *)

(** The panel that a call draws on. *)
Definition draw_panel (d : draw) : option panel :=
  match d with
  | Bar ax _ _ _ | Plot ax _ _ _ | SetTitle ax _ | SetYLabel ax _ | TickParams ax
  | SetYLim ax _ _ | AxHLine ax _ _ | Legend ax => Some ax
  | SupTitle _ | TightLayout => None
  end.

(** The panels of CPU usage, database connections, cache connections and
    memory usage. *)
Definition resource_panels : list panel := [(0, 1); (0, 2); (1, 0); (1, 1)]%nat.

Definition on_resource_panel (d : draw) : bool :=
  match draw_panel d with
  | Some ax => bool_decide (ax ∈ resource_panels)
  | None => false
  end.

Definition graph_path (dir : string) (w : World) : string :=
  dir +:+ "/load-test-analysis-" +:+ strftime_compact (clock w (ticks w)) +:+ ".png".

(** [m], run from a world that satisfies [P], ends in a world that
    satisfies [R] when it returns and [E] when it raises. *)
Definition hoare {A} (P : World -> Prop) (m : M A) (R : A -> World -> Prop)
    (E : World -> Prop) : Prop :=
  forall w, P w ->
    match m w with
    | (Ok a, w') => R a w'
    | (Raise _, w') => E w'
    end.

Lemma hoare_bind {A B} (P : World -> Prop) (m : M A) (k : A -> M B)
    (R1 : A -> World -> Prop) (R2 : B -> World -> Prop) (E : World -> Prop) :
  hoare P m R1 E -> (forall a, hoare (R1 a) (k a) R2 E) -> hoare P (m ≫= k) R2 E.
Proof.
  intros Hm Hk w HP. unfold mbind, M_bind. specialize (Hm w HP).
  destruct (m w) as [[a|e] w1]; [apply (Hk a w1 Hm) | exact Hm].
Qed.

Lemma hoare_lift {A} (P : World -> Prop) (r : result A) :
  hoare P (lift r) (fun _ => P) P.
Proof. intros w HP. unfold lift. destruct r; exact HP. Qed.

Lemma hoare_ret {A} (P : World -> Prop) (E : World -> Prop) (a : A) :
  hoare P (mret a) (fun _ => P) E.
Proof. intros w HP. exact HP. Qed.

(** While the panels are drawn: the current figure holds only calls that
    satisfy [Q], and the clock and the saved images are those of [w0]. *)
Definition drawing (Q : draw -> Prop) (w0 w : World) : Prop :=
  Forall Q (figure w) /\ clock w = clock w0 /\ ticks w = ticks w0 /\ images w = images w0.

Lemma hoare_draw (Q : draw -> Prop) (w0 : World) (d : draw) :
  Q d -> hoare (drawing Q w0) (draw_call d) (fun _ => drawing Q w0) (drawing Q w0).
Proof.
  intros HQ w (Hf & Hc & Ht & Hi). unfold draw_call, drawing; simpl.
  repeat split; try assumption.
  apply Forall_app_2; [exact Hf|]. constructor; [exact HQ|constructor].
Qed.

(** Every path through the panels of the metrics document. *)
Ltac draw_paths call_ok :=
  cbv beta iota zeta;
  lazymatch goal with
  | |- hoare _ (@mbind _ _ _ _ _ _) _ _ =>
      eapply hoare_bind; [draw_paths call_ok | intros ?; draw_paths call_ok]
  | |- hoare _ (draw_call _) _ _ => apply hoare_draw; call_ok
  | |- hoare _ (plt_bar ?bar_error _ _ ?values _) _ _ =>
      unfold plt_bar; destruct (bar_error values); draw_paths call_ok
  | |- hoare _ (lift _) _ _ => apply hoare_lift
  | |- hoare _ (mret _) _ _ => apply hoare_ret
  | |- hoare _ (when ?b _) _ _ => destruct b; unfold when; draw_paths call_ok
  | |- hoare _ (if ?b then _ else _) _ _ => destruct b; draw_paths call_ok
  end.

(** The end of [generate_graphs]: the figure is saved and closed. *)
Lemma graphs_epilogue (Q : draw -> Prop) (w0 : World) (dir : string) :
  Q TightLayout ->
  hoare (drawing Q w0)
    (draw_call TightLayout;;
     t ← now;
     savefig (dir +:+ "/load-test-analysis-" +:+ strftime_compact t +:+ ".png");;
     plt_close;;
     py_print ("📈 Graphs saved to " +:+ dir))
    (fun _ w' => exists fig, Forall Q fig /\ figure w' = [] /\
                   images w' = <[graph_path dir w0 := fig]> (images w0))
    (drawing Q w0).
Proof.
  intros HQ w (Hf & Hc & Ht & Hi). cbn. exists (figure w ++ [TightLayout])%list.
  split; [apply Forall_app_2; [exact Hf|constructor; [exact HQ|constructor]]|].
  split; [reflexivity|]. unfold graph_path. rewrite Hc, Ht, Hi. reflexivity.
Qed.

(** The start of [generate_graphs]: a new figure. *)
Lemma graphs_prologue (Q : draw -> Prop) (w0 : World) (dir : string) (k : M unit)
    (R : unit -> World -> Prop) (E : World -> Prop) :
  Q (SupTitle "Party Puzzle Palooza Load Test Analysis") ->
  hoare (drawing Q w0) k R E ->
  hoare (fun w => w = w0)
    (ex ← path_exists dir;
     when (negb ex) (makedirs dir);;
     use_setting "seaborn-v0_8";;
     use_setting "husl";;
     subplots;;
     draw_call (SupTitle "Party Puzzle Palooza Load Test Analysis");;
     k) R E.
Proof.
  intros HQ Hk w ->. unfold mbind, M_bind, path_exists, when.
  destruct (bool_decide (dir ∈ dirs w0) || bool_decide (is_Some (files w0 !! dir)));
    cbn; apply Hk; repeat split; constructor; [exact HQ|constructor|exact HQ|constructor].
Qed.

(** Without a resource series, no call of [generate_graphs] is on a panel
    of the resource series: neither in the image it saves when it returns,
    nor in the figure it leaves when it raises on the metrics document. *)
Lemma graphs_without_resource_panels (plt_bar_error : list json -> option exn)
    (k6_data : json) (dir : string) (w : World) :
  match generate_graphs plt_bar_error k6_data None dir w with
  | (Ok _, w') =>
      exists fig, images w' !! graph_path dir w = Some fig /\
        Forall (fun d => on_resource_panel d = false) fig
  | (Raise _, w') => Forall (fun d => on_resource_panel d = false) (figure w')
  end.
Proof.
  assert (H : hoare (fun w1 => w1 = w) (generate_graphs plt_bar_error k6_data None dir)
                (fun _ w' => exists fig, Forall (fun d => on_resource_panel d = false) fig /\
                   figure w' = [] /\ images w' = <[graph_path dir w := fig]> (images w))
                (drawing (fun d => on_resource_panel d = false) w)).
  { unfold generate_graphs.
    apply (graphs_prologue (fun d => on_resource_panel d = false)); [reflexivity|].
    do 8 (eapply hoare_bind; [solve [draw_paths ltac:(reflexivity)] | intros ?; cbv beta iota]).
    apply graphs_epilogue. reflexivity. }
  specialize (H w eq_refl).
  destruct (generate_graphs plt_bar_error k6_data None dir w) as [[[]|e] w'].
  - destruct H as (fig & HQ & _ & Hi). exists fig. rewrite Hi, lookup_insert_eq. auto.
  - apply H.
Qed.

(** C6, as the specification states it, fails for a series of zero rows:
    the chart renderer tests only that the series is not absent, and draws
    the panels of the resource series (title, labels, reference line,
    legend and a line without points). *)
Lemma empty_series_panels_are_drawn :
  ~ (forall system_df dir w, system_df = None \/ system_df = Some [] ->
       forall fig,
         images (snd (generate_graphs sample_bar_error JNull system_df dir w))
           !! graph_path dir w = Some fig ->
         Forall (fun d => on_resource_panel d = false) fig).
Proof.
  intros H.
  specialize (H (Some []) "out" sample_world (or_intror eq_refl)).
  eassert (E : images (snd (generate_graphs sample_bar_error JNull (Some []) "out" sample_world))
               !! graph_path "out" sample_world = Some _) by (vm_compute; reflexivity).
  apply H in E.
  apply (proj1 (List.Forall_forall _ _)) with (x := SetTitle (0, 1)%nat "CPU Usage Over Time") in E.
  - discriminate E.
  - simpl. tauto.
Qed.

(** C6, amended. For an absent resource series or one of zero rows,
    [analyze_system_metrics] returns an absent result and the report has no
    chunk of the System Resource Analysis section; for an absent series,
    the chart renderer makes no call on the four panels of the resource
    series. *)
Theorem absent_resource_series_omitted (py_repr : json -> string)
    (pd_mean : list Q -> Q) (pd_quantile : Q -> list Q -> Q)
    (plt_bar_error : list json -> option exn)
    (system_df : option DataFrame) (k6_data : json) (perf : option Perf.t)
    (dir : string) (w : World) :
  system_df = None \/ system_df = Some [] ->
  analyze_system_metrics pd_mean pd_quantile system_df = None /\
  Forall (fun c => system_section_chunk c = false)
    (report_of dir w
       (snd (generate_report py_repr perf
               (analyze_system_metrics pd_mean pd_quantile system_df) dir w))) /\
  (system_df = None ->
   match generate_graphs plt_bar_error k6_data system_df dir w with
   | (Ok _, w') =>
       exists fig, images w' !! graph_path dir w = Some fig /\
         Forall (fun d => on_resource_panel d = false) fig
   | (Raise _, w') => Forall (fun d => on_resource_panel d = false) (figure w')
   end).
Proof.
  intros Hdf.
  assert (Ha : analyze_system_metrics pd_mean pd_quantile system_df = None)
    by (destruct Hdf as [-> | ->]; reflexivity).
  rewrite Ha. split; [reflexivity|]. split.
  - apply report_without_system_section.
  - intros ->. apply graphs_without_resource_panels.
Qed.

(** ** Loader and entry point *)

(** The world after [lines] are printed. *)
Definition printed (lines : list string) (w : World) : World :=
  {| files := files w; dirs := dirs w; stdout := (stdout w ++ lines)%list;
     clock := clock w; ticks := ticks w; rc := rc w;
             figure := figure w; images := images w |}.



Lemma load_k6_results_success (json_loads : string -> result json) (results_file : string)
    (w : World) (chunks : list string) (data : json) :
  files w !! results_file = Some chunks -> json_loads (file_bytes chunks) = Ok data ->
  load_k6_results json_loads results_file w = (Ok data, w).
Proof.
  intros Hf Hp. unfold load_k6_results, try_except, mbind, M_bind, read_file, lift.
  rewrite Hf, Hp. reflexivity.
Qed.




(** [line] has been printed. *)
Definition said (line : string) (w : World) : Prop := In line (stdout w).

(** [m] never raises and keeps [I]. *)
Definition keeps {A} (I : World -> Prop) (m : M A) : Prop :=
  hoare I m (fun _ => I) (fun _ => False).

Lemma keeps_quiet {A} (line : string) (m : M A) :
  (forall w, exists a w', m w = (Ok a, w') /\ stdout w' = stdout w) ->
  keeps (said line) m.
Proof.
  intros H w Hw. destruct (H w) as (a & w' & -> & Hs). unfold said. rewrite Hs. exact Hw.
Qed.

Lemma keeps_print (line s : string) : keeps (said line) (py_print s).
Proof. intros w Hw. unfold said; simpl. apply in_or_app. left. exact Hw. Qed.

Lemma hoare_ok {A} (I : World -> Prop) (E : World -> Prop) (a : A) :
  hoare I (lift (Ok a)) (fun x w => x = a /\ I w) E.
Proof. intros w Hw. split; [reflexivity|exact Hw]. Qed.

Lemma hoare_pure {A} (fact : Prop) (P : World -> Prop) (m : M A) (R : A -> World -> Prop)
    (E : World -> Prop) :
  (fact -> hoare P m R E) -> hoare (fun w => fact /\ P w) m R E.
Proof. intros H w [Hf HP]. apply (H Hf w HP). Qed.



Ltac quiet := apply keeps_quiet; intros ?; eexists _, _; split; reflexivity.

(** Every path through a computation that cannot raise. *)
Ltac keep :=
  cbv beta iota zeta delta [truthy negb analyze_performance when];
  lazymatch goal with
  | |- hoare _ (@mbind _ _ _ _ _ (lift (Ok _))) _ _ =>
      eapply hoare_bind; [apply hoare_ok | intros ?; apply hoare_pure; intros ->; keep]
  | |- hoare _ (@mbind _ _ _ _ _ _) _ _ => eapply hoare_bind; [keep | intros ?; keep]
  | |- hoare _ (py_print _) _ _ => apply keeps_print
  | |- hoare _ (mret _) _ _ => apply hoare_ret
  | |- hoare _ (if ?b then _ else _) _ _ => destruct b; keep
  | |- hoare _ (match ?x with Some _ => _ | None => _ end) _ _ => destruct x; keep
  | |- hoare _ _ _ _ => quiet
  end.


Lemma generate_report_keeps (py_repr : json -> string) (line : string) (sys : option Sys.t)
    (dir : string) :
  keeps (said line) (generate_report py_repr None sys dir).
Proof. unfold keeps, generate_report. keep. Qed.

(** The chunks of the Key Performance Indicators and of the Performance
    Assessment. *)
Definition performance_section_chunk (c : string) : bool :=
  String.eqb c ("### Key Performance Indicators" +:+ nl +:+ nl)
  || String.eqb c ("### Performance Assessment" +:+ nl +:+ nl)
  || String.prefix "- **HTTP Response Time (p95):** " c
  || String.prefix "- **Error Rate:** " c
  || String.prefix "- **WebSocket Latency (p95):** " c
  || String.prefix "- **Total Requests:** " c
  || String.prefix "- **Request Rate:** " c
  || String.prefix "- **Test Duration:** " c
  || String.prefix "- **Max Virtual Users:** " c
  || String.prefix "✅ " c
  || String.prefix "❌ " c.

(** X15. Without a performance summary, the report writer does not raise and
    writes no chunk of the indicators or of the assessment. *)
Lemma report_without_performance_summary (py_repr : json -> string) (sys : option Sys.t)
    (dir : string) (w : World) :
  fst (generate_report py_repr None sys dir w) = Ok tt /\
  Forall (fun c => performance_section_chunk c = false)
    (report_of dir w (snd (generate_report py_repr None sys dir w))).
Proof.
  edestruct (frame_of_rest (fun c => performance_section_chunk c = false)
               (generate_report py_repr None sys))
    as (body & r & Hbody & H); [report_rest | explore ltac:(reflexivity) |].
  split.
  - destruct (H dir (printed [""] w)) as [<- _].
    pose proof (generate_report_keeps py_repr "" sys dir (printed [""] w)) as Hk.
    destruct (H dir w) as [-> _].
    destruct (generate_report py_repr None sys dir (printed [""] w)) as [[[]|e] w'].
    + reflexivity.
    + exfalso. apply Hk. unfold said; simpl. apply in_or_app. right. left. reflexivity.
  - destruct (H dir w) as [_ ->].
    repeat (constructor; [reflexivity|]). exact Hbody.
Qed.


Definition start_message : string := "🔍 Analyzing load test results...".
Definition complete_message : string := "✅ Analysis complete!".





(** A run without a resource log: no path is given, or there is no file
    at the path. *)
Definition no_resource_log (args : Args) (w : World) : Prop :=
  forall path, system_metrics args = Some path -> path <> "" -> files w !! path = None.



(** * Examples *)

Example sample_document_summary :
  analyze_performance sample_document = Ok (Some sample_summary).
Proof. vm_compute. reflexivity. Qed.

Example full_document_p95 :
  exists a, analyze_performance full_document = Ok (Some a) /\ get_field a HttpP95 = JInt 250.
Proof. eexists. split; [vm_compute; reflexivity|reflexivity]. Qed.

Example empty_document_summary : analyze_performance (JObj ∅) = Ok None.
Proof. reflexivity. Qed.

Example ill_typed_metrics_raise :
  analyze_performance (JObj (<["metrics" := JInt 5]> ∅)) = Raise AttributeError.
Proof. vm_compute. reflexivity. Qed.

Example duration_in_seconds :
  (seconds ← py_truediv (JInt 90500000000) 1000000000; py_format_f 1 seconds) = Ok "90.5".
Proof. vm_compute. reflexivity. Qed.

Example comma_format : format_int_comma 1234567 = "1,234,567".
Proof. vm_compute. reflexivity. Qed.

Example percent_format : py_format_pct 2 (JFloat (float_literal 2 (-2))) = Ok "2.00%".
Proof. vm_compute. reflexivity. Qed.

Example sample_series_cpu_p95 :
  (sample_quantile (95 # 100) (column Row.cpu sample_series) == 84.9875)%Q.
Proof. vm_compute. reflexivity. Qed.

Lemma sample_summary_renders : kpi_renders sample_repr sample_summary.
Proof. repeat split; eexists; vm_compute; reflexivity. Defined.

Lemma threshold_summary_renders : kpi_renders sample_repr threshold_summary.
Proof. repeat split; eexists; vm_compute; reflexivity. Defined.

(** ** Instances of the theorems *)

Lemma analyze_performance_missing_key_zero_witness :
  exists a, analyze_performance sample_document = Ok (Some a) /\ get_field a HttpP99 = JInt 0.
Proof.
  apply analyze_performance_missing_key_zero.
  - eapply bool_decide_unpack. vm_compute. exact I.
  - discriminate.
  - vm_compute. reflexivity.
Defined.

Lemma analyze_performance_absent_iff_witness :
  (exists r, analyze_performance unrelated_document = Ok r) /\
  (analyze_performance unrelated_document = Ok None <->
   unrelated_document = JNull \/ unrelated_document = JObj ∅).
Proof.
  apply analyze_performance_absent_iff. right.
  eapply bool_decide_unpack. vm_compute. exact I.
Defined.

Lemma analyze_performance_pass_through_witness :
  exists a, analyze_performance full_document = Ok (Some a) /\
    forall f, nested full_document (target_path f) = Some (get_field a f).
Proof.
  apply analyze_performance_pass_through.
  intros []; vm_compute; eexists; reflexivity.
Defined.

Lemma report_slow_http_low_errors_witness :
  exists w',
    generate_report sample_repr (Some sample_summary) None "out" sample_world = (Ok tt, w') /\
    In (fail_line HttpTime) (report_of "out" sample_world w') /\
    In (pass_line ErrorRate) (report_of "out" sample_world w') /\
    (forall line, In line (advice HttpTime) ->
       In line (section_from recommendations_header (report_of "out" sample_world w'))) /\
    (forall line, In line (advice ErrorRate) -> ~ In line (report_of "out" sample_world w')).
Proof.
  apply report_slow_http_low_errors.
  - exact sample_summary_renders.
  - exists (XFin 320 0). split; reflexivity.
  - eexists. split; [reflexivity|]. vm_compute. reflexivity.
Defined.

Lemma absent_resource_series_omitted_witness :
  analyze_system_metrics sample_mean sample_quantile None = None /\
  Forall (fun c => system_section_chunk c = false)
    (report_of "out" sample_world
       (snd (generate_report sample_repr (Some sample_summary)
               (analyze_system_metrics sample_mean sample_quantile None) "out"
               sample_world))) /\
  ((None : option DataFrame) = None ->
   match generate_graphs sample_bar_error sample_document None "out" sample_world with
   | (Ok _, w') =>
       exists fig, images w' !! graph_path "out" sample_world = Some fig /\
         Forall (fun d => on_resource_panel d = false) fig
   | (Raise _, w') => Forall (fun d => on_resource_panel d = false) (figure w')
   end).
Proof. apply absent_resource_series_omitted. left. reflexivity. Defined.


Lemma report_on_threshold_fails_without_advice_witness :
  exists w',
    generate_report sample_repr (Some threshold_summary) None "out" sample_world = (Ok tt, w') /\
    In (fail_line ErrorRate) (report_of "out" sample_world w') /\
    ~ In (pass_line ErrorRate) (report_of "out" sample_world w') /\
    forall line, In line (advice ErrorRate) -> ~ In line (report_of "out" sample_world w').
Proof.
  apply report_on_threshold_fails_without_advice.
  - exact threshold_summary_renders.
  - eexists. split; [reflexivity|]. vm_compute. reflexivity.
Defined.


(** * Further properties *)

(** ** Analyzer: what it raises *)

Lemma py_get_raises (x : json) (key : string) (default : json) (e : exn) :
  py_get x key default = Raise e -> e = AttributeError.
Proof. destruct x; simpl; congruence. Qed.

Lemma get2_raises (x : json) (k1 k2 : string) (e : exn) :
  get2 x k1 k2 = Raise e -> e = AttributeError.
Proof.
  unfold get2, mbind, result_bind.
  destruct (py_get x k1 empty_dict) as [y|e'] eqn:E; cbn [rbind].
  - apply py_get_raises.
  - intros [= <-]. exact (py_get_raises _ _ _ _ E).
Qed.

(** A successful [x.get(k1, {}).get(k2, 0)]: [x] is a mapping and its
    entry under [k1], when it has one, is a mapping. *)
Lemma get2_ok_inv (x : json) (k1 k2 : string) (v : json) :
  get2 x k1 k2 = Ok v -> exists m, x = JObj m /\ dict_or_missing (m !! k1).
Proof.
  unfold get2, mbind, result_bind. destruct x as [| | | | | |m]; simpl; try discriminate.
  intros E. exists m. split; [reflexivity|].
  destruct (m !! k1) as [[]|]; simpl in *; solve [discriminate E | exact I].
Qed.

Lemma analyze_performance_some_analyzable (doc : json) (a : Perf.t) :
  analyze_performance doc = Ok (Some a) -> analyzable doc.
Proof.
  unfold analyze_performance. destruct (truthy doc); simpl negb; cbv iota; [|discriminate].
  unfold mbind, result_bind.
  destruct (py_get doc "metrics" empty_dict) as [metrics|] eqn:Eg; cbn [rbind]; [|discriminate].
  repeat match goal with
         | |- rbind ?r _ = _ -> _ => destruct r eqn:?; cbn [rbind]; [|discriminate]
         end.
  intros _.
  destruct doc as [| | | | | |d]; try discriminate Eg.
  simpl in Eg. injection Eg as Eg.
  exists d. split; [reflexivity|].
  repeat match goal with
         | H : get2 _ _ _ = Ok _ |- _ => apply get2_ok_inv in H; destruct H as (? & ? & ?)
         end.
  repeat match goal with
         | H : JObj _ = JObj _ |- _ => injection H as <-
         end.
  split; [assumption|].
  destruct (d !! "metrics") as [v|] eqn:Em; subst metrics.
  - match goal with H : v = JObj _ |- _ => subst v end.
    repeat match goal with
           | H : JObj _ = JObj _ |- _ => injection H as <-
           end.
    split; [exact I|].
    intros ms name [= <-] Hin. simpl in Hin.
    repeat (destruct Hin as [<- | Hin]; [assumption|]). contradiction.
  - split; [exact I|]. intros ms name E. discriminate E.
Qed.

Lemma analyze_performance_raise_kind (k6_data : json) (e : exn) :
  analyze_performance k6_data = Raise e -> e = AttributeError.
Proof.
  unfold analyze_performance. destruct (truthy k6_data); simpl negb; cbv iota; [|discriminate].
  unfold mbind, result_bind.
  destruct (py_get k6_data "metrics" empty_dict) as [metrics|e'] eqn:Eg; cbn [rbind];
    [|intros [= <-]; exact (py_get_raises _ _ _ _ Eg)].
  repeat match goal with
         | |- rbind ?r _ = _ -> _ =>
             let E := fresh "E" in
             destruct r eqn:E; cbn [rbind];
             [|intros [= <-]; exact (get2_raises _ _ _ _ E)]
         end.
  discriminate.
Qed.

Lemma analyze_performance_raises (k6_data : json) :
  truthy k6_data = true -> ~ analyzable k6_data ->
  analyze_performance k6_data = Raise AttributeError.
Proof.
  intros Ht Hn.
  destruct (analyze_performance k6_data) as [[a|]|e] eqn:E.
  - exfalso. exact (Hn (analyze_performance_some_analyzable _ _ E)).
  - exfalso. exact (analyze_performance_not_none k6_data Ht E).
  - f_equal. exact (analyze_performance_raise_kind _ _ E).
Qed.

(** X5. The analyzer raises nothing but [AttributeError], and it raises
    exactly on a truthy argument in which one of the values it calls
    [.get] on (the argument itself, its [metrics] or [state] entry, the
    entry of a target metric) is present and is not a mapping. *)
Theorem analyze_performance_raises_iff_not_analyzable (k6_data : json) :
  (forall e, analyze_performance k6_data = Raise e -> e = AttributeError) /\
  (analyze_performance k6_data = Raise AttributeError <->
   truthy k6_data = true /\ ~ analyzable k6_data).
Proof.
  split; [intros e; apply analyze_performance_raise_kind|]. split.
  - intros E.
    destruct (truthy k6_data) eqn:Ht;
      [|unfold analyze_performance in E; rewrite Ht in E; discriminate E].
    split; [reflexivity|]. intros Ha.
    destruct (analyze_performance_fields k6_data Ha Ht) as (a & Ea & _). congruence.
  - intros [Ht Hn]. apply analyze_performance_raises; assumption.
Qed.

(** ** Report writer: assessment and recommendations *)

(** A value is not both below and above a threshold. *)
Lemma py_lt_gt_exclusive (v t : json) :
  py_lt v t = Ok true -> py_gt v t = Ok false.
Proof.
  unfold py_lt, py_gt. destruct (xnum_of v); [|discriminate]. destruct (xnum_of t); [|discriminate].
  destruct (xcompare _ _) as [[]|]; cbn; congruence.
Qed.

(** The summaries that the report writer can print: none, or one whose
    indicators all have a text. *)
Definition renders (py_repr : json -> string) (perf : option Perf.t) : Prop :=
  match perf with
  | Some p => kpi_renders py_repr p
  | None => True
  end.

(** Whether a chunk is in a list of chunks that is known up to the values
    of the other comparisons. *)
Ltac settle_in :=
  lazymatch goal with
  | |- In _ _ <-> true = true => split; [reflexivity | intros _; find_in]
  | |- In _ _ <-> false = false => split; [reflexivity | intros _; find_in]
  | |- In _ _ <-> _ = _ =>
      split; [let H := fresh in intros H; exfalso; revert H; absent | discriminate]
  end.

(** X16. For each of the three indicators, the Performance Assessment has the
    passed line when and only when the indicator is below its threshold
    ([<]) and the failed line otherwise, and the report has each line of
    the block of recommendations of the indicator when and only when the
    indicator is above the threshold ([>]); an indicator that passed gets
    no recommendation. *)
Theorem report_assessment_follows_comparisons (py_repr : json -> string) (perf : Perf.t)
    (sys : option Sys.t) (dir : string) (w : World) (m : metric) :
  kpi_renders py_repr perf ->
  exists w' below above,
    generate_report py_repr (Some perf) sys dir w = (Ok tt, w') /\
    py_lt (metric_value perf m) (threshold m) = Ok below /\
    py_gt (metric_value perf m) (threshold m) = Ok above /\
    (In (pass_line m) (report_of dir w w') <-> below = true) /\
    (In (fail_line m) (report_of dir w w') <-> below = false) /\
    (forall line, In line (advice m) -> (In line (report_of dir w w') <-> above = true)) /\
    (below = true -> above = false).
Proof.
  intros Hkpi. kpi_values Hkpi.
  destruct m; cbn [metric_value threshold].
  - eexists _, lt_http, gt_http. split; [report_run|]. report_chunks.
    split; [exact Hlt_http|]. split; [exact Hgt_http|].
    split; [|split; [|split]].
    + unfold pass_line. destruct lt_http; settle_in.
    + unfold fail_line. destruct lt_http; settle_in.
    + intros line [<- | [<- | [<- | []]]]; destruct gt_http; settle_in.
    + intros ->. pose proof (py_lt_gt_exclusive _ _ Hlt_http). congruence.
  - eexists _, lt_err, gt_err. split; [report_run|]. report_chunks.
    split; [exact Hlt_err|]. split; [exact Hgt_err|].
    split; [|split; [|split]].
    + unfold pass_line. destruct lt_err; settle_in.
    + unfold fail_line. destruct lt_err; settle_in.
    + intros line [<- | [<- | [<- | []]]]; destruct gt_err; settle_in.
    + intros ->. pose proof (py_lt_gt_exclusive _ _ Hlt_err). congruence.
  - eexists _, lt_ws, gt_ws. split; [report_run|]. report_chunks.
    split; [exact Hlt_ws|]. split; [exact Hgt_ws|].
    split; [|split; [|split]].
    + unfold pass_line. destruct lt_ws; settle_in.
    + unfold fail_line. destruct lt_ws; settle_in.
    + intros line [<- | [<- | [<- | []]]]; destruct gt_ws; settle_in.
    + intros ->. pose proof (py_lt_gt_exclusive _ _ Hlt_ws). congruence.
Qed.

(** ** Report writer: the resource summary *)

(** The three resources that the report writer gives advice on. *)
Inductive resource : Type := Cpu | DatabaseConnections | RedisConnections.

Definition resource_stats (sys : Sys.t) (r : resource) : Stats.t :=
  match r with
  | Cpu => Sys.cpu sys
  | DatabaseConnections => Sys.database_connections sys
  | RedisConnections => Sys.redis_connections sys
  end.

(** 80 %, 80 connections, 400 connections *)
Definition resource_limit (r : resource) : Z :=
  match r with
  | Cpu => 80
  | DatabaseConnections => 80
  | RedisConnections => 400
  end.

Definition resource_advice (r : resource) : list string :=
  match r with
  | Cpu =>
      ["- **Scale horizontally** by adding more API instances" +:+ nl;
       "- **Optimize CPU-intensive operations**" +:+ nl;
       "- **Consider async processing** for heavy operations" +:+ nl]
  | DatabaseConnections =>
      ["- **Increase database connection pool size**" +:+ nl;
       "- **Implement connection pooling**" +:+ nl;
       "- **Consider read replicas** for read-heavy operations" +:+ nl]
  | RedisConnections =>
      ["- **Optimize Redis connection usage**" +:+ nl;
       "- **Implement connection pooling** for Redis" +:+ nl;
       "- **Consider Redis clustering** for scale" +:+ nl]
  end.

Lemma q_gt_true_iff (x : Q) (c : Z) : q_gt x c = true <-> (inject_Z c < x)%Q.
Proof.
  unfold q_gt. rewrite negb_true_iff. split.
  - intros H. apply Qnot_le_lt. intros Hle. apply Qle_bool_iff in Hle. congruence.
  - intros H. destruct (Qle_bool x (inject_Z c)) eqn:E; [|reflexivity].
    apply Qle_bool_iff in E. exfalso. exact (Qlt_not_le _ _ H E).
Qed.

(** X18. With a resource summary, the report has each line of the block of
    advice of a resource (CPU, database connections, Redis connections)
    when and only when the 95th percentile of the resource is strictly
    above its limit (80, 80, 400): a percentile on the limit gets no
    advice. *)
Theorem report_resource_advice_iff_above_limit (py_repr : json -> string)
    (perf : option Perf.t) (sys : Sys.t) (dir : string) (w : World) (r : resource) :
  renders py_repr perf ->
  exists w',
    generate_report py_repr perf (Some sys) dir w = (Ok tt, w') /\
    forall line, In line (resource_advice r) ->
      (In line (report_of dir w w') <->
       (inject_Z (resource_limit r) < Stats.p95 (resource_stats sys r))%Q).
Proof.
  intros Hr. destruct perf as [perf|]; cbn [renders] in Hr; [kpi_values Hr|];
    (eexists; split; [report_run|]); report_chunks;
    intros line Hline; rewrite <- q_gt_true_iff; revert line Hline;
    destruct r; cbn [resource_stats resource_limit resource_advice];
    intros line [<- | [<- | [<- | []]]];
    match goal with
    | |- _ <-> ?b = true => destruct b
    end; settle_in.
Qed.

(** The lines of the System Resource Analysis section for a summary. *)
Definition system_section_lines (sys : Sys.t) : list string :=
  ["### CPU Usage" +:+ nl;
   "- **Average:** " +:+ format_Q 1 (Stats.mean (Sys.cpu sys)) +:+ "%" +:+ nl;
   "- **Peak:** " +:+ format_Q 1 (Stats.max (Sys.cpu sys)) +:+ "%" +:+ nl;
   "- **95th Percentile:** " +:+ format_Q 1 (Stats.p95 (Sys.cpu sys)) +:+ "%" +:+ nl +:+ nl;
   "### Database Connections" +:+ nl;
   "- **Average:** " +:+ format_Q 1 (Stats.mean (Sys.database_connections sys)) +:+ nl;
   "- **Peak:** " +:+ format_Q 0 (Stats.max (Sys.database_connections sys)) +:+ nl;
   "- **95th Percentile:** " +:+ format_Q 1 (Stats.p95 (Sys.database_connections sys))
     +:+ nl +:+ nl;
   "### Redis Connections" +:+ nl;
   "- **Average:** " +:+ format_Q 1 (Stats.mean (Sys.redis_connections sys)) +:+ nl;
   "- **Peak:** " +:+ format_Q 0 (Stats.max (Sys.redis_connections sys)) +:+ nl;
   "- **95th Percentile:** " +:+ format_Q 1 (Stats.p95 (Sys.redis_connections sys))
     +:+ nl +:+ nl].

(** X17. With a resource summary, the header of the System Resource Analysis
    section is followed by the twelve lines of the CPU, the database
    connections and the Redis connections, in this order, and then by the
    header of the Recommendations: the memory statistics of the summary
    are not reported. *)
Theorem report_system_section_lines (py_repr : json -> string)
    (perf : option Perf.t) (sys : Sys.t) (dir : string) (w : World) :
  renders py_repr perf ->
  exists w' rest,
    generate_report py_repr perf (Some sys) dir w = (Ok tt, w') /\
    section_from system_section_header (report_of dir w w') =
    (system_section_lines sys ++ recommendations_header :: rest)%list.
Proof.
  intros Hr. destruct perf as [perf|]; cbn [renders] in Hr; [kpi_values Hr|];
    (eexists _, _; split; [report_run|]); report_chunks; cbv iota;
    unfold system_section_header;
    repeat (rewrite section_from_skip by all_differ);
    rewrite <- app_assoc, section_from_here;
    unfold system_section_lines, recommendations_header; cbn [app]; reflexivity.
Qed.

(** ** Report writer: what a run leaves behind *)

(** A computation that, once the report is opened, only writes to the
    report and prints: the world it ends in. *)
Lemma world_of_rest (Q : string -> Prop) (G : string -> M unit) (F : string -> M unit) :
  (forall dir w, G dir w = F (report_path dir w) (report_opened dir w)) ->
  writes_only Q F ->
  forall dir w, exists chunks lines,
    snd (G dir w) = with_output (report_path dir w) chunks lines (report_opened dir w).
Proof.
  intros HG (out & r & _ & E) dir w. destruct (E (report_path dir w)) as [pr Ep].
  rewrite HG, (Ep _ _ (report_opened_lookup dir w)). eexists _, _. reflexivity.
Qed.

(** X11. Whatever the summaries and whether or not it raises, the report
    writer changes no file other than its report, saves no image and
    leaves the current figure alone. When it returns, the report exists
    and the clock has been read twice. *)
Theorem generate_report_touches_only_its_report (py_repr : json -> string)
    (perf : option Perf.t) (sys : option Sys.t) (dir : string) (w : World) :
  let w' := snd (generate_report py_repr perf sys dir w) in
  (forall p, p <> report_path dir w -> files w' !! p = files w !! p) /\
  images w' = images w /\ figure w' = figure w /\
  (fst (generate_report py_repr perf sys dir w) = Ok tt ->
   is_Some (files w' !! report_path dir w) /\ ticks w' = S (S (ticks w))).
Proof.
  destruct (world_of_rest (fun _ => True) (generate_report py_repr perf sys)
              (fun p => _) ltac:(report_rest) ltac:(explore ltac:(exact I)) dir w)
    as (chunks & lines & E).
  cbv zeta. rewrite E. simpl. split; [|split; [|split; [|split]]].
  - intros p Hp. rewrite !lookup_insert_ne by congruence. reflexivity.
  - reflexivity.
  - reflexivity.
  - rewrite lookup_insert_eq. eauto.
  - reflexivity.
Qed.

(** The fields of the summaries that the report writer reads. *)
Definition reported_indicators (perf : Perf.t) : list json :=
  [Http.p95 (Perf.http_requests perf); Http.failed_rate (Perf.http_requests perf);
   Ws.latency_p95 (Perf.websocket perf); Http.total (Perf.http_requests perf);
   Http.rate (Perf.http_requests perf); Perf.test_duration perf; Perf.max_vus perf].

Definition reported_resources (sys : Sys.t) : list Stats.t :=
  [Sys.cpu sys; Sys.database_connections sys; Sys.redis_connections sys].

(** X19. The report writer reads seven indicators of the performance summary
    and three resources of the resource summary: two runs on summaries
    that agree on these do the same, whatever the HTTP p99, the count of
    WebSocket messages, the business success rates and the memory
    statistics of the summaries are. *)
Theorem generate_report_ignores_unreported_fields (py_repr : json -> string)
    (perf1 perf2 : option Perf.t) (sys1 sys2 : option Sys.t) (dir : string) (w : World) :
  reported_indicators <$> perf1 = reported_indicators <$> perf2 ->
  reported_resources <$> sys1 = reported_resources <$> sys2 ->
  generate_report py_repr perf1 sys1 dir w = generate_report py_repr perf2 sys2 dir w.
Proof.
  intros Hp Hs.
  destruct perf1 as [[[] [] [] ? ?]|], perf2 as [[[] [] [] ? ?]|]; try discriminate Hp;
    destruct sys1 as [[]|], sys2 as [[]|]; try discriminate Hs;
    cbn in Hp, Hs; simplify_eq; reflexivity.
Qed.

(** ** Report writer: when it returns *)

Definition next_steps_header : string := nl +:+ "## Next Steps" +:+ nl +:+ nl.

Definition next_steps : list string :=
  [next_steps_header;
   "1. **Address critical performance issues** identified above" +:+ nl;
   "2. **Implement recommended optimizations**" +:+ nl;
   "3. **Re-run load tests** after optimizations" +:+ nl;
   "4. **Monitor production performance** continuously" +:+ nl;
   "5. **Set up automated performance testing** in CI/CD" +:+ nl].

Definition saved_message (dir : string) (w : World) : string :=
  "📊 Report saved to " +:+ report_path dir w.

(** The end of a list of chunks that is known up to its conditional
    parts. *)
Ltac at_end := first [apply suffix_app_r; at_end | apply suffix_cons_r; at_end | reflexivity].

(** X13. When the report writer returns, its report ends with the Next Steps,
    whatever the summaries, and the one line it has printed is the path of
    the report. *)
Theorem report_complete_on_return (py_repr : json -> string) (perf : option Perf.t)
    (sys : option Sys.t) (dir : string) (w : World) :
  renders py_repr perf ->
  exists w',
    generate_report py_repr perf sys dir w = (Ok tt, w') /\
    next_steps `suffix_of` report_of dir w w' /\
    stdout w' = (stdout w ++ [saved_message dir w])%list.
Proof.
  intros Hr. destruct perf as [perf|]; cbn [renders] in Hr; [kpi_values Hr|];
    (eexists; split; [report_run|]); (split; [report_chunks; at_end | reflexivity]).
Qed.

Lemma emits_lift_raise {A} (p : string) (r : result A) (e : exn) :
  r = Raise e -> emits p (lift r) [] [] (Raise e).
Proof. intros ->. apply emits_lift. Qed.

(** One chunk after the other, up to the first field that has no text. *)
Ltac emit_any :=
  lazymatch goal with
  | |- emits _ (@mbind _ _ _ _ _ ?m) _ _ _ =>
      first [ eapply emits_seq; [emit_any | cbv beta; emit_any | reflexivity | reflexivity]
            | eapply emits_bind_raise; emit_any ]
  | |- emits _ (f_write _ _) _ _ _ => apply emits_write
  | |- emits _ (py_print _) _ _ _ => apply emits_print
  | |- emits _ (lift _) _ _ _ =>
      first [apply emits_lift_ok; eassumption | apply emits_lift_raise; eassumption]
  | |- emits _ (mret _) _ _ _ => apply emits_ret
  | |- emits _ (if _ then f_write _ _ else f_write _ _) _ _ _ => apply emits_if_write
  | |- emits _ (when _ _) _ _ _ => eapply emits_when; emit_any
  | |- emits _ (match _ with Some _ => _ | None => _ end) _ _ _ =>
      eapply emits_option; intros ?; emit_any
  end.

(** What the formatting of an indicator raises. *)
Definition format_error (e : exn) : Prop :=
  e = TypeError \/ e = ValueError \/ e = OverflowError.

Lemma py_float_of_int_raises (z : Z) (e : exn) :
  py_float_of_int z = Raise e -> e = OverflowError.
Proof. unfold py_float_of_int. destruct (float_of_int z); congruence. Qed.

Lemma py_format_f_raises (d : nat) (v : json) (e : exn) :
  py_format_f d v = Raise e -> format_error e.
Proof.
  unfold format_error. destruct v; simpl; try (intros [= <-]; tauto).
  destruct (py_float_of_int z) eqn:E; simpl; [discriminate|].
  intros [= <-]. apply py_float_of_int_raises in E. tauto.
Qed.

Lemma py_format_pct_raises (d : nat) (v : json) (e : exn) :
  py_format_pct d v = Raise e -> format_error e.
Proof.
  unfold format_error. destruct v; simpl; try (intros [= <-]; tauto).
  destruct (py_float_of_int z) eqn:E; simpl; [discriminate|].
  intros [= <-]. apply py_float_of_int_raises in E. tauto.
Qed.

Lemma py_format_comma_raises (py_repr : json -> string) (v : json) (e : exn) :
  py_format_comma py_repr v = Raise e -> format_error e.
Proof. unfold format_error. destruct v; simpl; try (intros [= <-]; tauto); discriminate. Qed.

Lemma py_truediv_raises (v : json) (z : Z) (e : exn) :
  py_truediv v z = Raise e -> format_error e.
Proof.
  unfold format_error. destruct v; simpl; try (intros [= <-]; tauto); try discriminate.
  destruct (SFdiv _ _ _ _); try discriminate. intros [= <-]. tauto.
Qed.

(** The run of the report writer up to the indicator that has no text. *)
Ltac truncated_run :=
  eexists _, _, _; split;
    [unfold generate_report; rewrite run_prologue; cbv beta iota zeta;
     eapply emits_run; [|apply report_opened_lookup]; emit_any|];
  split; [reflexivity|];
  split;
    [first [ eapply py_format_f_raises; eassumption
           | eapply py_format_pct_raises; eassumption
           | eapply py_format_comma_raises; eassumption
           | eapply py_truediv_raises; eassumption ]|];
  split; [absent | unfold next_steps_header; absent].

Lemma report_truncated_run (py_repr : json -> string) (perf : option Perf.t)
    (sys : option Sys.t) (dir : string) (w : World) :
  ~ renders py_repr perf ->
  exists e chunks lines,
    generate_report py_repr perf sys dir w =
    (Raise e, with_output (report_path dir w) chunks lines (report_opened dir w)) /\
    lines = [] /\
    format_error e /\
    ~ In recommendations_header chunks /\
    ~ In next_steps_header chunks.
Proof.
  intros Hn. destruct perf as [perf|]; [|exfalso; apply Hn; exact I]. cbn [renders] in Hn.
  destruct (py_format_f 2 (Http.p95 (Perf.http_requests perf))) eqn:E1; [|truncated_run].
  destruct (py_format_pct 2 (Http.failed_rate (Perf.http_requests perf))) eqn:E2;
    [|truncated_run].
  destruct (py_format_f 2 (Ws.latency_p95 (Perf.websocket perf))) eqn:E3; [|truncated_run].
  destruct (py_format_comma py_repr (Http.total (Perf.http_requests perf))) eqn:E4;
    [|truncated_run].
  destruct (py_format_f 2 (Http.rate (Perf.http_requests perf))) eqn:E5; [|truncated_run].
  destruct (py_truediv (Perf.test_duration perf) 1000000000) as [seconds|] eqn:E6;
    [|truncated_run].
  destruct (py_format_f 1 seconds) eqn:E7; [|truncated_run].
  exfalso. apply Hn. unfold kpi_renders, is_Ok. rewrite E1, E2, E3, E4, E5, E6.
  cbn [mbind result_bind rbind]. rewrite E7. repeat split; eexists; reflexivity.
Qed.

(** X14. When an indicator of the performance summary has no text (it is not a
    number, or an integer too large for a float), the report writer raises
    [TypeError], [ValueError] or [OverflowError] while it writes the Key
    Performance Indicators: the report is left on the disk without
    Recommendations and without Next Steps, and nothing is printed. *)
Theorem report_truncated_on_failure (py_repr : json -> string) (perf : option Perf.t)
    (sys : option Sys.t) (dir : string) (w : World) :
  ~ renders py_repr perf ->
  exists e w',
    generate_report py_repr perf sys dir w = (Raise e, w') /\
    format_error e /\
    is_Some (files w' !! report_path dir w) /\
    (~ In recommendations_header (report_of dir w w') /\
     ~ In next_steps_header (report_of dir w w')) /\
    stdout w' = stdout w.
Proof.
  intros Hn.
  destruct (report_truncated_run py_repr perf sys dir w Hn)
    as (e & chunks & lines & Hrun & -> & He & Hrec & Hnext).
  eexists e, _. split; [exact Hrun|]. split; [exact He|].
  unfold report_of. rewrite with_output_lookup. cbn [default from_option id].
  split; [eauto|]. split; [split; assumption|].
  unfold with_output, report_opened; cbn [stdout]. apply app_nil_r.
Qed.

(** ** Chart renderer: what a run draws and leaves behind *)

(** The world after the directory is made and a new figure is given its
    title. *)
Definition graphs_opened (dir : string) (w : World) : World :=
  {| files := files w;
     dirs := if bool_decide (dir ∈ dirs w) || bool_decide (is_Some (files w !! dir))
             then dirs w else {[dir]} ∪ dirs w;
     stdout := stdout w; clock := clock w; ticks := ticks w;
     rc := (rc w ++ ["seaborn-v0_8"; "husl"])%list;
     figure := [SupTitle "Party Puzzle Palooza Load Test Analysis"];
     images := images w |}.

(** While the panels are drawn: the current figure satisfies [F], and all
    the rest of the world is as in [w0]. *)
Definition charting (F : list draw -> Prop) (w0 w : World) : Prop :=
  F (figure w) /\ files w = files w0 /\ dirs w = dirs w0 /\ stdout w = stdout w0 /\
  clock w = clock w0 /\ ticks w = ticks w0 /\ rc w = rc w0 /\ images w = images w0.

Lemma chart_draw (F F' : list draw -> Prop) (E : World -> Prop) (w0 : World) (d : draw) :
  (forall fig, F fig -> F' (fig ++ [d])%list) ->
  hoare (charting F w0) (draw_call d) (fun _ => charting F' w0) E.
Proof.
  intros HF w (Hf & H). unfold draw_call, charting; simpl. split; [apply HF, Hf | exact H].
Qed.

Lemma chart_lift {A} (F FE : list draw -> Prop) (w0 : World) (r : result A) :
  (forall fig, F fig -> FE fig) ->
  hoare (charting F w0) (lift r) (fun a w => r = Ok a /\ charting F w0 w) (charting FE w0).
Proof.
  intros HF w (Hf & H). unfold lift. destruct r; [split; [reflexivity|]|]; split; auto.
Qed.

Lemma chart_prologue (F : list draw -> Prop) (dir : string) (w : World) (k : M unit)
    (R : unit -> World -> Prop) (E : World -> Prop) :
  F [SupTitle "Party Puzzle Palooza Load Test Analysis"] ->
  hoare (charting F (graphs_opened dir w)) k R E ->
  hoare (fun w1 => w1 = w)
    (ex ← path_exists dir;
     when (negb ex) (makedirs dir);;
     use_setting "seaborn-v0_8";;
     use_setting "husl";;
     subplots;;
     draw_call (SupTitle "Party Puzzle Palooza Load Test Analysis");;
     k) R E.
Proof.
  intros HF Hk w1 ->. unfold mbind, M_bind, path_exists, when.
  assert (Hc : forall w2, w2 = graphs_opened dir w -> charting F (graphs_opened dir w) w2).
  { intros w2 ->. repeat split. exact HF. }
  destruct (bool_decide (dir ∈ dirs w) || bool_decide (is_Some (files w !! dir))) eqn:Ex;
    cbn; apply Hk, Hc; unfold graphs_opened; rewrite Ex, <- app_assoc; reflexivity.
Qed.

Definition graphs_message (dir : string) : string := "📈 Graphs saved to " +:+ dir.

(** The world after the figure [fig] is saved and closed. *)
Definition graphs_saved (dir : string) (w : World) (fig : list draw) : World :=
  {| files := files w;
     dirs := dirs (graphs_opened dir w);
     stdout := (stdout w ++ [graphs_message dir])%list;
     clock := clock w; ticks := S (ticks w);
     rc := rc (graphs_opened dir w);
     figure := [];
     images := <[graph_path dir w := fig]> (images w) |}.

Lemma chart_epilogue (F : list draw -> Prop) (E : World -> Prop) (dir : string) (w : World) :
  hoare (charting F (graphs_opened dir w))
    (draw_call TightLayout;;
     t ← now;
     savefig (dir +:+ "/load-test-analysis-" +:+ strftime_compact t +:+ ".png");;
     plt_close;;
     py_print ("📈 Graphs saved to " +:+ dir))
    (fun _ w' => exists fig, F fig /\ w' = graphs_saved dir w (fig ++ [TightLayout]))
    E.
Proof.
  intros w1 (Hf & Hfiles & Hdirs & Hout & Hclock & Hticks & Hrc & Himages).
  cbn. exists (figure w1). split; [exact Hf|].
  unfold graphs_saved, graph_path. rewrite Hfiles, Hdirs, Hout, Hclock, Hticks, Hrc, Himages.
  reflexivity.
Qed.

Lemma chart_draw_keep (F : list draw -> Prop) (E : World -> Prop) (w0 : World) (d : draw) :
  (forall fig, F fig -> F (fig ++ [d])%list) ->
  hoare (charting F w0) (draw_call d) (fun _ => charting F w0) E.
Proof. apply chart_draw. Qed.

(** A bar: it is drawn, or the conversion of its heights raises. *)
Lemma chart_bar (F FE : list draw -> Prop) (w0 : World)
    (plt_bar_error : list json -> option exn) (ax : panel) (labels : list string)
    (values : list json) (colors : list string) (R : unit -> World -> Prop) :
  (forall fig, F fig -> FE fig) ->
  hoare (charting F w0) (draw_call (Bar ax labels values colors)) R (charting FE w0) ->
  hoare (charting F w0) (plt_bar plt_bar_error ax labels values colors) R (charting FE w0).
Proof.
  intros HF H. unfold plt_bar. destruct (plt_bar_error values); [|exact H].
  intros w (Hf & Hw). split; [apply HF, Hf | exact Hw].
Qed.

Lemma hoare_when (P : World -> Prop) (b : bool) (m : M unit) (R : unit -> World -> Prop)
    (E : World -> Prop) :
  hoare P m R E -> (forall w, P w -> R tt w) -> hoare P (when b m) R E.
Proof. intros Hm Hskip. destruct b; [exact Hm | exact Hskip]. Qed.

(** Every path through the chart renderer once the figure is opened, with
    the value of each library call that returns among the hypotheses;
    [call_ok] proves the step of a call on the figure, [raise_ok] that the
    figure is as stated when a library call raises. *)
Ltac chart call_ok raise_ok :=
  cbv beta iota zeta;
  lazymatch goal with
  | |- hoare _ (@mbind _ _ _ _ _ (draw_call TightLayout)) _ _ => apply chart_epilogue
  | |- hoare _ (@mbind _ _ _ _ _ (lift _)) _ _ =>
      eapply hoare_bind;
        [apply chart_lift; raise_ok
        | intros ?; apply hoare_pure; intros ?; chart call_ok raise_ok]
  | |- hoare _ (@mbind _ _ _ _ _ _) _ _ =>
      eapply hoare_bind; [chart call_ok raise_ok | intros ?; chart call_ok raise_ok]
  | |- hoare _ (draw_call _) _ _ => call_ok
  | |- hoare _ (plt_bar _ _ _ _ _) _ _ => apply chart_bar; [raise_ok | call_ok]
  | |- hoare _ (mret _) _ _ => apply hoare_ret
  | |- hoare _ (when _ _) _ _ =>
      apply hoare_when; [chart call_ok raise_ok | exact (fun _ Hw => Hw)]
  end.

(** X7. Whatever the metrics document and the resource series, and whether or
    not it raises, the chart renderer writes no file. When it returns, it
    has read the clock once, saved one image under a name with that time,
    closed the figure and printed one line; when it raises, it has saved
    no image and printed nothing. *)
Theorem generate_graphs_saves_one_image (plt_bar_error : list json -> option exn)
    (k6_data : json) (system_df : option DataFrame) (dir : string) (w : World) :
  match generate_graphs plt_bar_error k6_data system_df dir w with
  | (Ok _, w') =>
      exists fig,
        images w' = <[graph_path dir w := fig]> (images w) /\
        files w' = files w /\ stdout w' = (stdout w ++ [graphs_message dir])%list /\
        figure w' = [] /\ ticks w' = S (ticks w)
  | (Raise _, w') => files w' = files w /\ images w' = images w /\ stdout w' = stdout w
  end.
Proof.
  assert (H : hoare (fun w1 => w1 = w) (generate_graphs plt_bar_error k6_data system_df dir)
                (fun _ w' => exists fig, fig <> [] /\ w' = graphs_saved dir w (fig ++ [TightLayout]))
                (charting (fun fig => fig <> []) (graphs_opened dir w))).
  { unfold generate_graphs. apply (chart_prologue (fun fig => fig <> [])); [discriminate|].
    destruct system_df as [df|];
      chart ltac:(apply chart_draw_keep; intros [] ?; discriminate) ltac:(auto). }
  specialize (H w eq_refl).
  destruct (generate_graphs plt_bar_error k6_data system_df dir w) as [[[]|e] w'].
  - destruct H as (fig & _ & ->). eexists. repeat split.
  - destruct H as (Hf & -> & _ & -> & _ & _ & _ & ->). repeat split.
Qed.

(** The calls of the chart renderer on the four panels of the resource
    series. *)
Definition resource_calls (df : DataFrame) : list draw :=
  [Plot (0, 1)%nat (column Row.timestamp df) (column Row.cpu df) None;
   SetTitle (0, 1)%nat "CPU Usage Over Time";
   SetYLabel (0, 1)%nat "CPU Usage (%)";
   TickParams (0, 1)%nat;
   AxHLine (0, 1)%nat (JInt 80) "Warning (80%)";
   Legend (0, 1)%nat;
   Plot (0, 2)%nat (column Row.timestamp df) (column Row.db_connections df) (Some "blue");
   SetTitle (0, 2)%nat "Database Connections Over Time";
   SetYLabel (0, 2)%nat "Connections";
   TickParams (0, 2)%nat;
   AxHLine (0, 2)%nat (JInt 100) "Limit (100)";
   Legend (0, 2)%nat;
   Plot (1, 0)%nat (column Row.timestamp df) (column Row.redis_connections df) (Some "green");
   SetTitle (1, 0)%nat "Redis Connections Over Time";
   SetYLabel (1, 0)%nat "Connections";
   TickParams (1, 0)%nat;
   AxHLine (1, 0)%nat (JInt 500) "Limit (500)";
   Legend (1, 0)%nat;
   Plot (1, 1)%nat (column Row.timestamp df) (column Row.memory df) (Some "purple");
   SetTitle (1, 1)%nat "Memory Usage Over Time";
   SetYLabel (1, 1)%nat "Memory (pages)";
   TickParams (1, 1)%nat].

(** The calls of a figure on the panels of the resource series are [L]. *)
Definition resource_part (L : list draw) (fig : list draw) : Prop :=
  List.filter on_resource_panel fig = L.

Lemma chart_draw_other (L : list draw) (E : World -> Prop) (w0 : World) (d : draw) :
  on_resource_panel d = false ->
  hoare (charting (resource_part L) w0) (draw_call d)
    (fun _ => charting (resource_part L) w0) E.
Proof.
  intros Hd. apply chart_draw. unfold resource_part. intros fig <-.
  rewrite List.filter_app. simpl. rewrite Hd. apply app_nil_r.
Qed.

Lemma chart_draw_resource (L : list draw) (E : World -> Prop) (w0 : World) (d : draw) :
  on_resource_panel d = true ->
  hoare (charting (resource_part L) w0) (draw_call d)
    (fun _ => charting (resource_part (L ++ [d])) w0) E.
Proof.
  intros Hd. apply chart_draw. unfold resource_part. intros fig <-.
  rewrite List.filter_app. simpl. rewrite Hd. reflexivity.
Qed.

(** X8. With a resource series, also one of zero rows, the calls of the chart
    renderer on the four panels of the resource series are the same
    whatever the metrics document: each panel plots its column against the
    timestamps, the CPU, database and Redis panels have a reference line
    at 80, 100 and 500, and the memory panel has none. They are in the
    image when the renderer returns; when it raises on the metrics
    document, it does so before the first or after the last of them. *)
Theorem generate_graphs_resource_panels (plt_bar_error : list json -> option exn)
    (k6_data : json) (df : DataFrame) (dir : string) (w : World) :
  match generate_graphs plt_bar_error k6_data (Some df) dir w with
  | (Ok _, w') =>
      exists fig, images w' !! graph_path dir w = Some fig /\
        List.filter on_resource_panel fig = resource_calls df
  | (Raise _, w') =>
      List.filter on_resource_panel (figure w') = [] \/
      List.filter on_resource_panel (figure w') = resource_calls df
  end.
Proof.
  assert (H : hoare (fun w1 => w1 = w) (generate_graphs plt_bar_error k6_data (Some df) dir)
                (fun _ w' => exists fig, resource_part (resource_calls df) fig /\
                   w' = graphs_saved dir w (fig ++ [TightLayout]))
                (charting (fun fig => resource_part [] fig \/
                                      resource_part (resource_calls df) fig)
                   (graphs_opened dir w))).
  { unfold generate_graphs. apply (chart_prologue (resource_part [])); [reflexivity|].
    chart ltac:(first [ apply chart_draw_other; reflexivity
                      | apply chart_draw_resource; reflexivity ])
          ltac:(intros ?; first [exact (@or_introl _ _) | exact (@or_intror _ _)]). }
  specialize (H w eq_refl).
  destruct (generate_graphs plt_bar_error k6_data (Some df) dir w) as [[[]|e] w'].
  - destruct H as (fig & Hf & ->). exists (fig ++ [TightLayout])%list.
    split; [apply lookup_insert_eq|].
    rewrite List.filter_app. simpl. rewrite app_nil_r. exact Hf.
  - destruct H as (Hf & _). exact Hf.
Qed.

(** ** Chart renderer: the panels of the metrics document *)

(** The figure is exactly [L]. *)
Lemma chart_draw_exact (L : list draw) (E : World -> Prop) (w0 : World) (d : draw) :
  hoare (charting (eq L) w0) (draw_call d) (fun _ => charting (eq (L ++ [d])%list) w0) E.
Proof. apply chart_draw. intros fig <-. reflexivity. Qed.

Lemma hoare_bind_ok {A B} (P : World -> Prop) (a : A) (k : A -> M B)
    (R : B -> World -> Prop) (E : World -> Prop) :
  hoare P (k a) R E -> hoare P (lift (Ok a) ≫= k) R E.
Proof. intros H. exact H. Qed.

(** The one path through the chart renderer when the value of every
    library call is known; [known] rewrites the calls with their values. *)
Ltac chart_known known :=
  cbv beta iota zeta; known;
  lazymatch goal with
  | |- hoare _ (@mbind _ _ _ _ _ (draw_call TightLayout)) _ _ => apply chart_epilogue
  | |- hoare _ (@mbind _ _ _ _ _ (lift (Ok _))) _ _ => apply hoare_bind_ok; chart_known known
  | |- hoare _ (@mbind _ _ _ _ _ _) _ _ =>
      eapply hoare_bind; [chart_known known | intros ?; chart_known known]
  | |- hoare _ (draw_call _) _ _ => apply chart_draw_exact
  | |- hoare _ (plt_bar _ _ _ _ _) _ _ => unfold plt_bar; known; apply chart_draw_exact
  | |- hoare _ (mret _) _ _ => apply hoare_ret
  | |- hoare _ (when true _) _ _ => unfold when; chart_known known
  | |- hoare _ (when false _) _ _ => apply hoare_ret
  end.

(** The calls on the panels of the resource series, if there is one. *)
Definition resource_part_of (system_df : option DataFrame) : list draw :=
  match system_df with
  | Some df => resource_calls df
  | None => []
  end.

Definition figure_title : draw := SupTitle "Party Puzzle Palooza Load Test Analysis".

Lemma generate_graphs_without_metrics_run (plt_bar_error : list json -> option exn)
    (k6_data : json) (system_df : option DataFrame) (dir : string) (w : World) :
  truthy k6_data = false \/ (exists d, k6_data = JObj d /\ d !! "metrics" = None) ->
  generate_graphs plt_bar_error k6_data system_df dir w =
  (Ok tt, graphs_saved dir w (figure_title :: resource_part_of system_df ++ [TightLayout])).
Proof.
  intros Hno.
  assert (E1 : (if truthy k6_data then py_contains "metrics" k6_data else Ok false) = Ok false).
  { destruct Hno as [-> | (d & -> & Hd)]; [reflexivity|].
    destruct (truthy (JObj d)); [|reflexivity]. simpl. rewrite Hd. reflexivity. }
  assert (H : hoare (fun w1 => w1 = w) (generate_graphs plt_bar_error k6_data system_df dir)
                (fun _ w' => exists fig, figure_title :: resource_part_of system_df = fig /\
                   w' = graphs_saved dir w (fig ++ [TightLayout]))
                (fun _ => False)).
  { unfold generate_graphs. apply (chart_prologue (eq [figure_title])); [reflexivity|].
    destruct system_df as [df|]; chart_known ltac:(rewrite ?E1). }
  specialize (H w eq_refl).
  destruct (generate_graphs plt_bar_error k6_data system_df dir w) as [[[]|e] w'].
  - destruct H as (fig & <- & ->). reflexivity.
  - contradiction.
Qed.

(** The panels of the metrics document: the HTTP percentiles and the
    business metrics. *)
Definition metrics_panels : list panel := [(0, 0); (1, 2)]%nat.

Definition on_metrics_panel (d : draw) : bool :=
  match draw_panel d with
  | Some ax => bool_decide (ax ∈ metrics_panels)
  | None => false
  end.

(** X9. For a metrics document that is absent or empty, or a mapping with no
    [metrics] entry, the chart renderer returns, and the image it saves
    holds the title and the panels of the resource series only: no call is
    on the panel of the HTTP percentiles or on the panel of the business
    metrics. *)
Theorem generate_graphs_without_metrics (plt_bar_error : list json -> option exn)
    (k6_data : json) (system_df : option DataFrame) (dir : string) (w : World) :
  truthy k6_data = false \/ (exists d, k6_data = JObj d /\ d !! "metrics" = None) ->
  exists fig,
    generate_graphs plt_bar_error k6_data system_df dir w = (Ok tt, graphs_saved dir w fig) /\
    fig = (figure_title :: resource_part_of system_df ++ [TightLayout])%list /\
    Forall (fun d => on_metrics_panel d = false) fig.
Proof.
  intros Hno. eexists. split; [apply generate_graphs_without_metrics_run, Hno|].
  split; [reflexivity|].
  destruct system_df as [df|]; repeat (constructor; [reflexivity|]); constructor.
Qed.

Definition percentiles : list string := ["p(50)"; "p(90)"; "p(95)"; "p(99)"].

(** The four percentiles of an entry of [http_req_duration], 0 where one
    is missing. *)
Definition percentile_values (duration_data : gmap string json) : list json :=
  map (fun p => default (JInt 0) (duration_data !! p)) percentiles.

(** The calls on the panel of the HTTP percentiles for the entry of
    [http_req_duration] in the metrics. *)
Definition http_calls (entry : option json) : list draw :=
  match entry with
  | Some (JObj duration_data) =>
      [Bar (0, 0)%nat percentiles (percentile_values duration_data)
         ["green"; "yellow"; "orange"; "red"];
       SetTitle (0, 0)%nat "HTTP Response Time Percentiles";
       SetYLabel (0, 0)%nat "Response Time (ms)";
       TickParams (0, 0)%nat;
       AxHLine (0, 0)%nat (JInt 300) "Threshold (300ms)";
       Legend (0, 0)%nat]
  | _ => []
  end.

Definition business_metrics : list string :=
  ["room_creation_success"; "game_join_success"; "question_flag_success"].

(** The success rate of each business metric in the metrics, 0 where the
    metric or its rate is missing. *)
Definition business_values (ms : gmap string json) : list json :=
  map (fun m => default (JInt 0) (nested (JObj ms) [m; "rate"])) business_metrics.

Definition business_calls (values : list json) (colors : list string) : list draw :=
  [Bar (1, 2)%nat ["Room Creation"; "Game Join"; "Question Flag"] values colors;
   SetTitle (1, 2)%nat "Business Metrics Success Rates";
   SetYLabel (1, 2)%nat "Success Rate";
   TickParams (1, 2)%nat;
   SetYLim (1, 2)%nat 0 1;
   AxHLine (1, 2)%nat (JFloat f0_95) "Threshold (95%)";
   Legend (1, 2)%nat].

Lemma rate_color_zero : rate_color (JInt 0) = Ok "red".
Proof. vm_compute. reflexivity. Qed.

(** [Axes.bar] takes the heights of the bars of the metrics [ms]: the
    percentiles of its entry of [http_req_duration], if it has one, and
    its business success rates. *)
Definition percentile_bar_drawn (plt_bar_error : list json -> option exn)
    (ms : gmap string json) : Prop :=
  forall duration_data, ms !! "http_req_duration" = Some (JObj duration_data) ->
    plt_bar_error (percentile_values duration_data) = None.

Definition business_bar_drawn (plt_bar_error : list json -> option exn)
    (ms : gmap string json) : Prop :=
  plt_bar_error (business_values ms) = None.

Lemma generate_graphs_figure_run (plt_bar_error : list json -> option exn)
    (d ms : gmap string json) (system_df : option DataFrame)
    (colors : list string) (dir : string) (w : World) :
  d !! "metrics" = Some (JObj ms) ->
  dict_or_missing (ms !! "http_req_duration") ->
  Forall (fun m => dict_or_missing (ms !! m)) business_metrics ->
  mapM_result rate_color (business_values ms) = Ok colors ->
  percentile_bar_drawn plt_bar_error ms -> business_bar_drawn plt_bar_error ms ->
  generate_graphs plt_bar_error (JObj d) system_df dir w =
  (Ok tt,
   graphs_saved dir w
     (figure_title :: http_calls (ms !! "http_req_duration") ++ resource_part_of system_df ++
      business_calls (business_values ms) colors ++ [TightLayout])).
Proof.
  intros Hm Hd Hb Hc Hbar1 Hbar2. unfold business_bar_drawn in Hbar2.
  assert (E1 : (if truthy (JObj d) then py_contains "metrics" (JObj d) else Ok false) = Ok true).
  { assert (Ht : truthy (JObj d) = true).
    { apply truthy_dict. intros ->. rewrite lookup_empty in Hm. discriminate Hm. }
    rewrite Ht. simpl. rewrite Hm. reflexivity. }
  assert (E2 : py_getitem (JObj d) "metrics" = Ok (JObj ms)) by (simpl; rewrite Hm; reflexivity).
  assert (E3 : mapM_result (fun m => get2 (JObj ms) m "rate")
                 ["room_creation_success"; "game_join_success"; "question_flag_success"] =
               Ok (business_values ms)).
  { unfold business_metrics in Hb.
    apply Forall_cons in Hb as [H1 Hb]. apply Forall_cons in Hb as [H2 Hb].
    apply Forall_cons in Hb as [H3 _].
    cbn [mapM_result]. rewrite !get2_nested by assumption. reflexivity. }
  assert (H : hoare (fun w1 => w1 = w) (generate_graphs plt_bar_error (JObj d) system_df dir)
                (fun _ w' => exists fig,
                   (figure_title :: http_calls (ms !! "http_req_duration") ++
                    resource_part_of system_df ++
                    business_calls (business_values ms) colors)%list = fig /\
                   w' = graphs_saved dir w (fig ++ [TightLayout]))
                (fun _ => False)).
  { unfold generate_graphs. apply (chart_prologue (eq [figure_title])); [reflexivity|].
    destruct (ms !! "http_req_duration") as [[| | | | | |dur]|] eqn:Edur;
      simpl in Hd; try contradiction.
    - assert (E4 : py_contains "http_req_duration" (JObj ms) = Ok true)
        by (simpl; rewrite Edur; reflexivity).
      assert (E5 : py_getitem (JObj ms) "http_req_duration" = Ok (JObj dur))
        by (simpl; rewrite Edur; reflexivity).
      assert (E6 : mapM_result (fun p => py_get (JObj dur) p (JInt 0))
                     ["p(50)"; "p(90)"; "p(95)"; "p(99)"] =
                   Ok (percentile_values dur))
        by reflexivity.
      pose proof (Hbar1 dur Edur) as E7.
      destruct system_df as [df|];
        chart_known ltac:(rewrite ?E1, ?E2, ?E3, ?E4, ?E5, ?E6, ?E7, ?Hbar2, ?Hc).
    - assert (E4 : py_contains "http_req_duration" (JObj ms) = Ok false)
        by (simpl; rewrite Edur; reflexivity).
      destruct system_df as [df|];
        chart_known ltac:(rewrite ?E1, ?E2, ?E3, ?E4, ?Hbar2, ?Hc). }
  specialize (H w eq_refl).
  destruct (generate_graphs plt_bar_error (JObj d) system_df dir w) as [[[]|e] w'];
    [|contradiction].
  destruct H as (fig & <- & ->). rewrite <- app_comm_cons, <- !app_assoc. reflexivity.
Qed.

(** X10. For a metrics document whose [metrics] entry is a mapping in which the
    entries of [http_req_duration] and of the three business metrics, when
    present, are mappings, whose business success rates are numbers, and
    whose percentiles and rates [Axes.bar] takes as heights, the chart
    renderer returns and saves exactly this figure: the title; the bars of
    the four HTTP percentiles, 0 for a missing percentile, when there is
    an entry of [http_req_duration], and nothing on that panel otherwise;
    the panels of the resource series, if any; the bars of the three
    business metrics with the colour of each rate. A business metric that
    is missing from the document is a red bar of height 0. *)
Theorem generate_graphs_figure (plt_bar_error : list json -> option exn)
    (d ms : gmap string json) (system_df : option DataFrame)
    (colors : list string) (dir : string) (w : World) :
  d !! "metrics" = Some (JObj ms) ->
  dict_or_missing (ms !! "http_req_duration") ->
  Forall (fun m => dict_or_missing (ms !! m)) business_metrics ->
  mapM_result rate_color (business_values ms) = Ok colors ->
  percentile_bar_drawn plt_bar_error ms -> business_bar_drawn plt_bar_error ms ->
  generate_graphs plt_bar_error (JObj d) system_df dir w =
  (Ok tt,
   graphs_saved dir w
     (figure_title :: http_calls (ms !! "http_req_duration") ++ resource_part_of system_df ++
      business_calls (business_values ms) colors ++ [TightLayout])) /\
  forall i m, business_metrics !! i = Some m -> nested (JObj ms) [m; "rate"] = None ->
    business_values ms !! i = Some (JInt 0) /\ colors !! i = Some "red".
Proof.
  intros Hm Hd Hb Hc Hbar1 Hbar2. split; [apply generate_graphs_figure_run; assumption|].
  intros i m Hi Hmiss.
  assert (Hv : business_values ms !! i = Some (JInt 0)).
  { unfold business_values. rewrite list_lookup_fmap, Hi. simpl in *. rewrite Hmiss. reflexivity. }
  split; [exact Hv|].
  revert Hc Hv. generalize (business_values ms). clear. intros values.
  revert colors i. induction values as [|v values IH]; intros colors i; [discriminate 2|].
  cbn [mapM_result]. unfold mbind, result_bind.
  destruct (rate_color v) as [c|] eqn:Ec; cbn [rbind]; [|discriminate].
  destruct (mapM_result rate_color values) as [cs|] eqn:Ecs; cbn [rbind]; [|discriminate].
  intros [= <-]. destruct i as [|i]; simpl.
  + intros [= ->]. rewrite rate_color_zero in Ec. congruence.
  + intros Hv. exact (IH cs i eq_refl Hv).
Qed.

(** ** Loader: the other exceptions, and the system metrics *)

Lemma printed_nothing (w : World) : printed [] w = w.
Proof. destruct w. unfold printed; simpl. rewrite app_nil_r. reflexivity. Qed.

(** X1. [load_k6_results] handles two exceptions only. An exception of
    [json.load] other than [JSONDecodeError] (and [FileNotFoundError])
    goes through it: nothing is printed, and [main] ends with this
    exception after its first message, before anything is analyzed or
    written. *)
Theorem load_k6_results_propagates_other_errors (py_repr : json -> string)
    (json_loads : string -> result json) (pd_parse_csv : string -> result DataFrame)
    (pd_to_datetime : string -> result string) (py_exn_str : exn -> string)
    (pd_mean : list Q -> Q) (pd_quantile : Q -> list Q -> Q)
    (plt_bar_error : list json -> option exn)
    (args : Args) (w : World) (chunks : list string) (e : exn) :
  files w !! k6_results args = Some chunks ->
  json_loads (file_bytes chunks) = Raise e ->
  e <> FileNotFoundError -> e <> JSONDecodeError ->
  load_k6_results json_loads (k6_results args) w = (Raise e, w) /\
  main py_repr json_loads pd_parse_csv pd_to_datetime py_exn_str pd_mean pd_quantile
      plt_bar_error args w =
  (Raise e, printed [start_message] w).
Proof.
  intros Hf Hp Hn1 Hn2.
  assert (Hload : forall w1, files w1 = files w ->
            load_k6_results json_loads (k6_results args) w1 = (Raise e, w1)).
  { intros w1 Hw1. unfold load_k6_results, try_except, mbind, M_bind, read_file, lift.
    rewrite Hw1, Hf, Hp. destruct e; try reflexivity; congruence. }
  split; [apply Hload; reflexivity|].
  unfold main. unfold mbind at 1, M_bind at 1. cbn [py_print].
  unfold mbind at 1, M_bind at 1. rewrite Hload by reflexivity. reflexivity.
Qed.

(** X25. When the path of the results is a directory, [open] raises
    [IsADirectoryError], which [load_k6_results] does not handle: nothing
    is printed, and [main] ends with this exception after its first
    message. *)
Theorem load_k6_results_on_directory (py_repr : json -> string)
    (json_loads : string -> result json) (pd_parse_csv : string -> result DataFrame)
    (pd_to_datetime : string -> result string) (py_exn_str : exn -> string)
    (pd_mean : list Q -> Q) (pd_quantile : Q -> list Q -> Q)
    (plt_bar_error : list json -> option exn)
    (args : Args) (w : World) :
  files w !! k6_results args = None -> k6_results args ∈ dirs w ->
  load_k6_results json_loads (k6_results args) w = (Raise IsADirectoryError, w) /\
  main py_repr json_loads pd_parse_csv pd_to_datetime py_exn_str pd_mean pd_quantile
    plt_bar_error args w =
  (Raise IsADirectoryError, printed [start_message] w).
Proof.
  intros Hf Hd.
  assert (Hload : forall w1, files w1 = files w -> dirs w1 = dirs w ->
            load_k6_results json_loads (k6_results args) w1 = (Raise IsADirectoryError, w1)).
  { intros w1 Hf1 Hd1. unfold load_k6_results, try_except, mbind, M_bind, read_file.
    rewrite Hf1, Hd1, Hf, bool_decide_true by exact Hd. reflexivity. }
  split; [apply Hload; reflexivity|].
  unfold main. unfold mbind at 1, M_bind at 1. cbn [py_print].
  unfold mbind at 1, M_bind at 1. rewrite Hload by reflexivity. reflexivity.
Qed.

Definition metrics_not_found_warning (metrics_file : string) : string :=
  "⚠️  System metrics file not found: " +:+ metrics_file.

Definition metrics_error (py_exn_str : exn -> string) (e : exn) : string :=
  "❌ Error loading system metrics: " +:+ py_exn_str e.

(** What [load_system_metrics] computes from the text of the file. *)
Definition parse_system_metrics (pd_parse_csv : string -> result DataFrame)
    (pd_to_datetime : string -> result string) (text : string) : result DataFrame :=
  df ← pd_parse_csv text;
  ts ← mapM_result pd_to_datetime (column Row.timestamp df);
  Ok (set_timestamps df ts).

(** The run of [load_system_metrics]: it returns, and prints at most one
    line. *)
Lemma load_system_metrics_run (pd_parse_csv : string -> result DataFrame)
    (pd_to_datetime : string -> result string) (py_exn_str : exn -> string)
    (metrics_file : string) (w : World) :
  exists r lines,
    load_system_metrics pd_parse_csv pd_to_datetime py_exn_str metrics_file w =
    (Ok r, printed lines w) /\
    match files w !! metrics_file with
    | None =>
        r = None /\
        lines = [if bool_decide (metrics_file ∈ dirs w)
                 then metrics_error py_exn_str IsADirectoryError
                 else metrics_not_found_warning metrics_file]
    | Some chunks =>
        match parse_system_metrics pd_parse_csv pd_to_datetime (file_bytes chunks) with
        | Ok df => r = Some df /\ lines = []
        | Raise e =>
            r = None /\
            lines = [match e with
                     | FileNotFoundError => metrics_not_found_warning metrics_file
                     | _ => metrics_error py_exn_str e
                     end]
        end
    end.
Proof.
  unfold load_system_metrics, parse_system_metrics, try_except, mbind at 1 2 3, M_bind,
    read_file, lift.
  destruct (files w !! metrics_file) as [chunks|] eqn:Hf.
  - unfold mbind, result_bind.
    destruct (pd_parse_csv (file_bytes chunks)) as [df|e] eqn:Hp; cbn [rbind].
    + destruct (mapM_result pd_to_datetime (column Row.timestamp df)) as [ts|e] eqn:Ht;
        cbn [rbind].
      * exists (Some (set_timestamps df ts)), []. rewrite printed_nothing. auto.
      * eexists None, _. split; [|split; reflexivity]. destruct e; reflexivity.
    + eexists None, _. split; [|split; reflexivity]. destruct e; reflexivity.
  - eexists None, _. split; [|split; reflexivity].
    destruct (bool_decide (metrics_file ∈ dirs w)); reflexivity.
Qed.


Lemma mapM_result_length {A B} (f : A -> result B) (l : list A) (l' : list B) :
  mapM_result f l = Ok l' -> length l' = length l.
Proof.
  revert l'. induction l as [|x l IH]; intros l'; simpl.
  - intros [= <-]. reflexivity.
  - unfold mbind, result_bind. destruct (f x); cbn [rbind]; [|discriminate].
    destruct (mapM_result f l); cbn [rbind]; [|discriminate].
    intros [= <-]. simpl. f_equal. apply IH. reflexivity.
Qed.

Lemma set_timestamps_columns (df : DataFrame) (ts : list string) :
  length ts = length df ->
  column Row.timestamp (set_timestamps df ts) = ts /\
  column Row.cpu (set_timestamps df ts) = column Row.cpu df /\
  column Row.memory (set_timestamps df ts) = column Row.memory df /\
  column Row.db_connections (set_timestamps df ts) = column Row.db_connections df /\
  column Row.redis_connections (set_timestamps df ts) = column Row.redis_connections df.
Proof.
  revert ts. induction df as [|r df IH]; intros [|t ts]; simpl; try discriminate.
  - intros _. repeat split.
  - intros [= Hlen]. destruct (IH ts Hlen) as (H1 & H2 & H3 & H4 & H5).
    unfold column, set_timestamps in *. repeat split; simpl; f_equal; assumption.
Qed.

(** X3. When the file parses and every cell of its first column is a time,
    [load_system_metrics] returns a series with the rows of the parsed
    one: the four columns of readings are unchanged and the timestamps are
    the parsed times. The resource summary is the one of the parsed
    series. *)
Theorem load_system_metrics_keeps_readings (pd_parse_csv : string -> result DataFrame)
    (pd_to_datetime : string -> result string) (py_exn_str : exn -> string)
    (pd_mean : list Q -> Q) (pd_quantile : Q -> list Q -> Q)
    (metrics_file : string) (w : World) (chunks : list string) (df : DataFrame)
    (ts : list string) :
  files w !! metrics_file = Some chunks ->
  pd_parse_csv (file_bytes chunks) = Ok df ->
  mapM_result pd_to_datetime (column Row.timestamp df) = Ok ts ->
  exists df',
    load_system_metrics pd_parse_csv pd_to_datetime py_exn_str metrics_file w =
    (Ok (Some df'), w) /\
    length df' = length df /\
    column Row.timestamp df' = ts /\
    column Row.cpu df' = column Row.cpu df /\
    column Row.memory df' = column Row.memory df /\
    column Row.db_connections df' = column Row.db_connections df /\
    column Row.redis_connections df' = column Row.redis_connections df /\
    analyze_system_metrics pd_mean pd_quantile (Some df') =
    analyze_system_metrics pd_mean pd_quantile (Some df).
Proof.
  intros Hf Hp Ht.
  destruct (load_system_metrics_run pd_parse_csv pd_to_datetime py_exn_str metrics_file w)
    as (r & lines & Hrun & Hcase).
  rewrite Hf in Hcase. unfold parse_system_metrics in Hcase. rewrite Hp in Hcase.
  cbn [mbind result_bind rbind] in Hcase. rewrite Ht in Hcase. cbn [rbind] in Hcase.
  destruct Hcase as [-> ->]. rewrite printed_nothing in Hrun.
  exists (set_timestamps df ts). split; [exact Hrun|].
  pose proof (mapM_result_length _ _ _ Ht) as Hlen. unfold column in Hlen at 1.
  rewrite length_map in Hlen.
  destruct (set_timestamps_columns df ts Hlen) as (H1 & H2 & H3 & H4 & H5).
  assert (Hlen' : length (set_timestamps df ts) = length df).
  { rewrite <- (length_map Row.cpu (set_timestamps df ts)).
    change (map Row.cpu (set_timestamps df ts)) with (column Row.cpu (set_timestamps df ts)).
    rewrite H2. apply length_map. }
  repeat (split; [assumption|]).
  unfold analyze_system_metrics. rewrite H2, H3, H4, H5.
  destruct df as [|r df], (set_timestamps (_) ts) as [|r' df'] eqn:E; simpl in Hlen';
    try discriminate; reflexivity.
Qed.

(** ** Entry point: a run from the files to the outputs *)

Lemma run_bind_ok {A B} (m : M A) (k : A -> M B) (w w1 : World) (a : A) :
  m w = (Ok a, w1) -> (m ≫= k) w = k a w1.
Proof. intros E. unfold mbind, M_bind. rewrite E. reflexivity. Qed.

Lemma run_bind_raise {A B} (m : M A) (k : A -> M B) (w w1 : World) (e : exn) :
  m w = (Raise e, w1) -> (m ≫= k) w = (Raise e, w1).
Proof. intros E. unfold mbind, M_bind. rewrite E. reflexivity. Qed.

Lemma printed_printed (l1 l2 : list string) (w : World) :
  printed l2 (printed l1 w) = printed (l1 ++ l2) w.
Proof. unfold printed; simpl. rewrite app_assoc. reflexivity. Qed.

(** The first steps of [main] when the results file parses: the message,
    the two loaders, which leave everything but the standard output as it
    is. *)
Lemma main_loads (json_loads : string -> result json) (pd_parse_csv : string -> result DataFrame)
    (pd_to_datetime : string -> result string) (py_exn_str : exn -> string)
    (args : Args) (w : World) (chunks : list string) (doc : json)
    (k : json -> option DataFrame -> M unit) :
  files w !! k6_results args = Some chunks ->
  json_loads (file_bytes chunks) = Ok doc ->
  exists system_df lines,
    (length lines <= 1)%nat /\
    (py_print "🔍 Analyzing load test results...";;
     k6_data ← load_k6_results json_loads (k6_results args);
     system_df ← match system_metrics args with
                 | Some path =>
                     if negb (String.eqb path "")
                     then load_system_metrics pd_parse_csv pd_to_datetime py_exn_str path
                     else mret None
                 | None => mret None
                 end;
     k k6_data system_df) w =
    k doc system_df (printed (start_message :: lines) w).
Proof.
  intros Hf Hp.
  assert (Hloader : exists system_df lines,
            (length lines <= 1)%nat /\
            match system_metrics args with
            | Some path =>
                if negb (String.eqb path "")
                then load_system_metrics pd_parse_csv pd_to_datetime py_exn_str path
                else mret None
            | None => mret None
            end (printed [start_message] w) =
            (Ok system_df, printed (start_message :: lines) w)).
  { destruct (system_metrics args) as [path|].
    - destruct (negb (String.eqb path "")).
      + destruct (load_system_metrics_run pd_parse_csv pd_to_datetime py_exn_str path
                    (printed [start_message] w)) as (r & lines & E & Hcase).
        exists r, lines. rewrite E, printed_printed. split; [|reflexivity].
        destruct (files _ !! path); [destruct (parse_system_metrics _ _ _)|];
          destruct Hcase as [Hr ->]; simpl; lia.
      + exists None, []. split; [simpl; lia|reflexivity].
    - exists None, []. split; [simpl; lia|reflexivity]. }
  destruct Hloader as (system_df & lines & Hlen & Hloader). exists system_df, lines.
  split; [exact Hlen|].
  rewrite (run_bind_ok _ _ w (printed [start_message] w) tt) by reflexivity.
  rewrite (run_bind_ok _ _ _ (printed [start_message] w) doc)
    by (apply (load_k6_results_success _ _ _ chunks); assumption).
  rewrite (run_bind_ok _ _ _ _ _ Hloader). reflexivity.
Qed.

(** The same steps in a run without a resource log: the series is absent. *)
Lemma main_loads_without_log (json_loads : string -> result json)
    (pd_parse_csv : string -> result DataFrame)
    (pd_to_datetime : string -> result string) (py_exn_str : exn -> string)
    (args : Args) (w : World) (chunks : list string) (doc : json)
    (k : json -> option DataFrame -> M unit) :
  files w !! k6_results args = Some chunks ->
  json_loads (file_bytes chunks) = Ok doc ->
  no_resource_log args w ->
  exists lines,
    (length lines <= 1)%nat /\
    (py_print "🔍 Analyzing load test results...";;
     k6_data ← load_k6_results json_loads (k6_results args);
     system_df ← match system_metrics args with
                 | Some path =>
                     if negb (String.eqb path "")
                     then load_system_metrics pd_parse_csv pd_to_datetime py_exn_str path
                     else mret None
                 | None => mret None
                 end;
     k k6_data system_df) w =
    k doc None (printed (start_message :: lines) w).
Proof.
  intros Hf Hp Hlog.
  assert (Hloader : exists lines,
            (length lines <= 1)%nat /\
            match system_metrics args with
            | Some path =>
                if negb (String.eqb path "")
                then load_system_metrics pd_parse_csv pd_to_datetime py_exn_str path
                else mret None
            | None => mret None
            end (printed [start_message] w) =
            (Ok None, printed (start_message :: lines) w)).
  { destruct (system_metrics args) as [path|] eqn:Es.
    - destruct (String.eqb_spec path "") as [-> | Hne]; cbn [negb].
      + exists []. split; [simpl; lia|reflexivity].
      + destruct (load_system_metrics_run pd_parse_csv pd_to_datetime py_exn_str path
                    (printed [start_message] w)) as (r & lines & E & Hcase).
        change (files (printed [start_message] w)) with (files w) in Hcase.
        rewrite (Hlog path Es Hne) in Hcase. destruct Hcase as [-> ->].
        eexists. rewrite E, printed_printed. split; [|reflexivity]. simpl; lia.
    - exists []. split; [simpl; lia|reflexivity]. }
  destruct Hloader as (lines & Hlen & Hloader). exists lines.
  split; [exact Hlen|].
  rewrite (run_bind_ok _ _ w (printed [start_message] w) tt) by reflexivity.
  rewrite (run_bind_ok _ _ _ (printed [start_message] w) doc)
    by (apply (load_k6_results_success _ _ _ chunks); assumption).
  rewrite (run_bind_ok _ _ _ _ _ Hloader). reflexivity.
Qed.

(** X20. When the results file holds a value that the analyzer cannot read (a
    non-empty list, a number, a mapping whose [metrics] is not a mapping),
    [main] raises [AttributeError] at the analysis: it has printed its
    first message and at most a line about the system metrics, and has
    written no file, made no directory and saved no image. *)
Theorem main_raises_on_unreadable_document (py_repr : json -> string)
    (json_loads : string -> result json) (pd_parse_csv : string -> result DataFrame)
    (pd_to_datetime : string -> result string) (py_exn_str : exn -> string)
    (pd_mean : list Q -> Q) (pd_quantile : Q -> list Q -> Q)
    (plt_bar_error : list json -> option exn)
    (args : Args) (w : World) (chunks : list string) (doc : json) :
  files w !! k6_results args = Some chunks ->
  json_loads (file_bytes chunks) = Ok doc ->
  truthy doc = true -> ~ analyzable doc ->
  exists lines,
    (length lines <= 1)%nat /\
    main py_repr json_loads pd_parse_csv pd_to_datetime py_exn_str pd_mean pd_quantile
      plt_bar_error args w =
    (Raise AttributeError, printed (start_message :: lines) w).
Proof.
  intros Hf Hp Ht Hn. unfold main.
  edestruct main_loads as (system_df & lines & Hlines & ->); [exact Hf | exact Hp |].
  exists lines. split; [exact Hlines|]. apply run_bind_raise. unfold lift.
  rewrite (analyze_performance_raises doc Ht Hn). reflexivity.
Qed.

(** The three business success rates of a summary have a colour. *)
Definition chart_renders (perf : Perf.t) : Prop :=
  is_Ok (mapM_result rate_color
           [Biz.room_creation_success (Perf.business_metrics perf);
            Biz.game_join_success (Perf.business_metrics perf);
            Biz.question_flag_success (Perf.business_metrics perf)]).

(** [Axes.bar] takes the heights of the bars of the document. *)
Definition percentile_bars_drawn (plt_bar_error : list json -> option exn) (doc : json) : Prop :=
  forall ms, nested doc ["metrics"] = Some (JObj ms) -> percentile_bar_drawn plt_bar_error ms.

Definition business_bars_drawn (plt_bar_error : list json -> option exn) (doc : json) : Prop :=
  forall ms, nested doc ["metrics"] = Some (JObj ms) -> business_bar_drawn plt_bar_error ms.

Lemma nested_metrics (d : gmap string json) (v : json) :
  d !! "metrics" = Some v -> nested (JObj d) ["metrics"] = Some v.
Proof. intros E. simpl. rewrite E. reflexivity. Qed.

Lemma generate_graphs_returns (plt_bar_error : list json -> option exn) (doc : json)
    (perf : Perf.t) (system_df : option DataFrame) (dir : string) (w : World) :
  analyze_performance doc = Ok (Some perf) -> chart_renders perf ->
  percentile_bars_drawn plt_bar_error doc -> business_bars_drawn plt_bar_error doc ->
  exists fig,
    generate_graphs plt_bar_error doc system_df dir w = (Ok tt, graphs_saved dir w fig).
Proof.
  intros Ha [colors Hc] Hbar1 Hbar2.
  pose proof (analyze_performance_some_analyzable _ _ Ha) as Hdoc.
  assert (Ht : truthy doc = true).
  { destruct (truthy doc) eqn:E; [reflexivity|].
    unfold analyze_performance in Ha. rewrite E in Ha. discriminate Ha. }
  destruct (analyze_performance_fields doc Hdoc Ht) as (a & Ea & Hfields).
  rewrite Ha in Ea. injection Ea as <-.
  destruct Hdoc as (d & -> & _ & Hm & Hms).
  destruct (d !! "metrics") as [[| | | | | |ms]|] eqn:Em; simpl in Hm; try contradiction.
  - eexists. apply (generate_graphs_figure_run plt_bar_error d ms system_df colors);
      try assumption.
    + apply (Hms ms _ eq_refl). simpl. tauto.
    + repeat constructor; apply (Hms ms _ eq_refl); simpl; tauto.
    + pose proof (Hfields RoomCreationSuccess) as H1.
      pose proof (Hfields GameJoinSuccess) as H2.
      pose proof (Hfields QuestionFlagSuccess) as H3.
      cbn [get_field target_path nested] in H1, H2, H3. rewrite Em in H1, H2, H3.
      rewrite H1, H2, H3 in Hc. exact Hc.
    + apply Hbar1, nested_metrics, Em.
    + apply Hbar2, nested_metrics, Em.
  - eexists. apply generate_graphs_without_metrics_run. right. eauto.
Qed.

Definition summary_header : string := nl +:+ "📈 Performance Summary:".

(** X23. In a run without a resource log whose output directory exists,
    when the results file parses to a document that the analyzer
    summarizes, the indicators and business rates of the summary are
    numbers that can be printed and coloured, and [Axes.bar] takes the
    percentiles and the rates of the document as heights, [main] returns.
    It has printed, in this order, its first message, at most a line about
    the system metrics, the messages of the chart renderer and of the
    report writer, that the analysis is complete, and the Performance
    Summary with the HTTP p95, the error rate and the WebSocket p95; it
    has saved one image and written one file, the report, under names that
    carry two successive readings of the clock. *)
Theorem main_returns_with_outputs (py_repr : json -> string)
    (json_loads : string -> result json) (pd_parse_csv : string -> result DataFrame)
    (pd_to_datetime : string -> result string) (py_exn_str : exn -> string)
    (pd_mean : list Q -> Q) (pd_quantile : Q -> list Q -> Q)
    (plt_bar_error : list json -> option exn)
    (args : Args) (w : World) (chunks : list string) (doc : json) (perf : Perf.t) :
  files w !! k6_results args = Some chunks ->
  json_loads (file_bytes chunks) = Ok doc ->
  analyze_performance doc = Ok (Some perf) ->
  kpi_renders py_repr perf -> chart_renders perf ->
  percentile_bars_drawn plt_bar_error doc -> business_bars_drawn plt_bar_error doc ->
  no_resource_log args w -> output_dir args ∈ dirs w ->
  let report_file :=
    output_dir args +:+ "/performance-report-" +:+
    strftime_compact (clock w (S (ticks w))) +:+ ".md" in
  exists w' lines s_http s_err s_ws fig,
    main py_repr json_loads pd_parse_csv pd_to_datetime py_exn_str pd_mean pd_quantile
      plt_bar_error args w = (Ok tt, w') /\
    py_format_f 2 (Http.p95 (Perf.http_requests perf)) = Ok s_http /\
    py_format_pct 2 (Http.failed_rate (Perf.http_requests perf)) = Ok s_err /\
    py_format_f 2 (Ws.latency_p95 (Perf.websocket perf)) = Ok s_ws /\
    stdout w' =
      (stdout w ++ start_message :: lines ++
       [graphs_message (output_dir args); "📊 Report saved to " +:+ report_file;
        complete_message; summary_header;
        "  HTTP p95: " +:+ s_http +:+ "ms"; "  Error Rate: " +:+ s_err;
        "  WS p95: " +:+ s_ws +:+ "ms"])%list /\
    (length lines <= 1)%nat /\
    images w' = <[graph_path (output_dir args) w := fig]> (images w) /\
    is_Some (files w' !! report_file) /\
    (forall p, p <> report_file -> files w' !! p = files w !! p).
Proof.
  intros Hf Hp Ha Hkpi Hchart Hbar1 Hbar2 Hlog _ report_file.
  unfold main.
  edestruct main_loads_without_log as (lines & Hlines & ->); [exact Hf | exact Hp | exact Hlog |].
  cbv beta.
  set (w2 := printed (start_message :: lines) w).
  destruct (generate_graphs_returns plt_bar_error doc perf None (output_dir args) w2 Ha Hchart
              Hbar1 Hbar2) as (fig & Hg).
  set (w3 := graphs_saved (output_dir args) w2 fig) in Hg.
  kpi_values Hkpi.
  eassert (Hr : generate_report py_repr (Some perf)
                  (analyze_system_metrics pd_mean pd_quantile None)
                  (output_dir args) w3 = (Ok tt, _)) by (clearbody w3; report_run).
  match type of Hr with
  | _ = (_, with_output _ ?cs ?pr _) =>
      set (report := cs) in Hr; clearbody report;
      change pr with [saved_message (output_dir args) w3] in Hr
  end.
  set (w4 := with_output (report_path (output_dir args) w3) report
               [saved_message (output_dir args) w3] (report_opened (output_dir args) w3)) in Hr.
  exists (printed [complete_message; summary_header; "  HTTP p95: " +:+ s_p95 +:+ "ms";
                   "  Error Rate: " +:+ s_err; "  WS p95: " +:+ s_ws +:+ "ms"] w4).
  exists lines, s_p95, s_err, s_ws, fig.
  split.
  { rewrite (run_bind_ok _ _ w2 w2 (Some perf)) by (unfold lift; rewrite Ha; reflexivity).
    cbv beta zeta.
    rewrite (run_bind_ok _ _ _ _ _ Hg). rewrite (run_bind_ok _ _ _ _ _ Hr).
    clearbody w4. unfold mbind, M_bind, lift. rewrite Hp95, Herr, Hws.
    unfold py_print, printed; simpl. rewrite <- !app_assoc. reflexivity. }
  do 3 (split; [assumption|]).
  split; [|split; [exact Hlines|split; [|split]]].
  - cbn. rewrite <- !app_assoc. reflexivity.
  - reflexivity.
  - cbn. rewrite lookup_insert_eq. eauto.
  - intros p Hne. cbn. rewrite !lookup_insert_ne by (intros E; apply Hne; rewrite <- E; reflexivity).
    reflexivity.
Qed.

(** ** Analyzer: the statistics of each column *)

(** [m] is the greatest cell of the column. *)
Definition is_max (m : Q) (xs : list Q) : Prop :=
  In m xs /\ Forall (fun x => (x <= m)%Q) xs.

(** The statistics of a column: what pandas returns for its mean and for
    its 0.95 quantile, and its greatest cell. *)
Definition column_summary (pd_mean : list Q -> Q) (pd_quantile : Q -> list Q -> Q)
    (st : Stats.t) (xs : list Q) : Prop :=
  Stats.mean st = pd_mean xs /\
  is_max (Stats.max st) xs /\
  Stats.p95 st = pd_quantile (95 # 100) xs.

Lemma qmax_l (a b : Q) : (a <= qmax a b)%Q.
Proof. unfold qmax. destruct (decide (a <= b)%Q); [assumption|apply Qle_refl]. Qed.

Lemma qmax_r (a b : Q) : (b <= qmax a b)%Q.
Proof.
  unfold qmax. destruct (decide (a <= b)%Q) as [|Hn]; [apply Qle_refl|].
  apply Qlt_le_weak, Qnot_le_lt, Hn.
Qed.

Lemma qmax_cases (a b : Q) : qmax a b = a \/ qmax a b = b.
Proof. unfold qmax. destruct (decide (a <= b)%Q); auto. Qed.

Lemma foldl_qmax_bound (l : list Q) (a : Q) :
  (a <= foldl qmax a l)%Q /\ Forall (fun x => (x <= foldl qmax a l)%Q) l.
Proof.
  revert a. induction l as [|x l IH]; intros a; simpl.
  - split; [apply Qle_refl|constructor].
  - destruct (IH (qmax a x)) as [Hacc Hall]. split.
    + eapply Qle_trans; [apply qmax_l|exact Hacc].
    + constructor; [|exact Hall]. eapply Qle_trans; [apply qmax_r|exact Hacc].
Qed.

Lemma foldl_qmax_in (l : list Q) (a : Q) : In (foldl qmax a l) (a :: l).
Proof.
  revert a. induction l as [|x l IH]; intros a; simpl.
  - left; reflexivity.
  - destruct (IH (qmax a x)) as [E | Hin].
    + destruct (qmax_cases a x) as [Ea | Ex]; rewrite <- E; [left|right; left]; congruence.
    + right; right; exact Hin.
Qed.

Lemma series_max_is_max (xs : list Q) : xs <> [] -> is_max (series_max xs) xs.
Proof.
  destruct xs as [|x rest]; [congruence|]. intros _. unfold is_max, series_max. split.
  - apply foldl_qmax_in.
  - destruct (foldl_qmax_bound rest x) as [Hx Hall]. constructor; assumption.
Qed.

(** X24. For a resource series of at least one row, [analyze_system_metrics]
    returns a summary in which each of the four resources has the
    statistics of its own column: the mean and the p95 are what
    [Series.mean] and [Series.quantile(0.95)] of pandas return on that
    column, and the max is the greatest cell of the column. *)
Theorem analyze_system_metrics_columns (pd_mean : list Q -> Q)
    (pd_quantile : Q -> list Q -> Q) (df : DataFrame) :
  (1 <= length df)%nat ->
  exists a,
    analyze_system_metrics pd_mean pd_quantile (Some df) = Some a /\
    column_summary pd_mean pd_quantile (Sys.cpu a) (column Row.cpu df) /\
    column_summary pd_mean pd_quantile (Sys.memory a) (column Row.memory df) /\
    column_summary pd_mean pd_quantile (Sys.database_connections a)
      (column Row.db_connections df) /\
    column_summary pd_mean pd_quantile (Sys.redis_connections a)
      (column Row.redis_connections df).
Proof.
  intros Hlen. destruct df as [|r df]; [simpl in Hlen; lia|].
  eexists. split; [reflexivity|].
  cbn [Sys.cpu Sys.memory Sys.database_connections Sys.redis_connections].
  repeat split; apply series_max_is_max; discriminate.
Qed.

(** ** Entry point: a rate that has no colour *)

(** The world after the calls [ds] on the current figure. *)
Definition drawn (ds : list draw) (w : World) : World :=
  {| files := files w; dirs := dirs w; stdout := stdout w; clock := clock w; ticks := ticks w;
     rc := rc w; figure := (figure w ++ ds)%list; images := images w |}.

(** [m] does nothing but make the calls [ds] on the current figure, and
    ends with [r]. *)
Definition draws {A} (m : M A) (ds : list draw) (r : result A) : Prop :=
  forall w, m w = (r, drawn ds w).

Lemma drawn_nothing (w : World) : drawn [] w = w.
Proof. destruct w. unfold drawn; simpl. rewrite app_nil_r. reflexivity. Qed.

Lemma drawn_drawn (ds1 ds2 : list draw) (w : World) :
  drawn ds2 (drawn ds1 w) = drawn (ds1 ++ ds2) w.
Proof. unfold drawn; simpl. rewrite app_assoc. reflexivity. Qed.

Lemma draws_call (d : draw) : draws (draw_call d) [d] (Ok tt).
Proof. intros w. reflexivity. Qed.

Lemma draws_bar (plt_bar_error : list json -> option exn) (ax : panel)
    (labels : list string) (values : list json) (colors : list string) :
  plt_bar_error values = None ->
  draws (plt_bar plt_bar_error ax labels values colors) [Bar ax labels values colors] (Ok tt).
Proof. intros E w. unfold plt_bar. rewrite E. reflexivity. Qed.

Lemma draws_lift {A} (r r' : result A) : r = r' -> draws (lift r) [] r'.
Proof. intros <- w. unfold lift. rewrite drawn_nothing. reflexivity. Qed.

Lemma draws_ret {A} (a : A) : draws (mret a) [] (Ok a).
Proof. apply (draws_lift (Ok a)). reflexivity. Qed.

Lemma draws_seq {A B} (m : M A) (k : A -> M B) (a : A) (ds ds1 ds2 : list draw)
    (r : result B) :
  draws m ds1 (Ok a) -> draws (k a) ds2 r -> ds = (ds1 ++ ds2)%list -> draws (m ≫= k) ds r.
Proof.
  intros Hm Hk -> w. unfold mbind, M_bind. rewrite (Hm w), (Hk _), drawn_drawn. reflexivity.
Qed.

Lemma draws_raise {A B} (m : M A) (k : A -> M B) (e : exn) (ds : list draw) :
  draws m ds (Raise e) -> draws (m ≫= k) ds (Raise e).
Proof. intros Hm w. unfold mbind, M_bind. rewrite (Hm w). reflexivity. Qed.

(** One call after the other, up to the first library call that raises,
    when the value of every library call is among the hypotheses. *)
Ltac draw_any :=
  cbv beta iota zeta;
  lazymatch goal with
  | |- draws (@mbind _ _ _ _ _ _) _ _ =>
      first [ eapply draws_seq; [draw_any | draw_any | reflexivity]
            | eapply draws_raise; draw_any ]
  | |- draws (draw_call _) _ _ => apply draws_call
  | |- draws (plt_bar _ _ _ _ _) _ _ => apply draws_bar; eassumption
  | |- draws (lift _) _ _ => apply draws_lift; eassumption
  | |- draws (mret _) _ _ => apply draws_ret
  | |- draws (when true _) _ _ => unfold when; draw_any
  | |- draws (when false _) _ _ => apply draws_ret
  end.

Lemma graphs_prologue_run (dir : string) (k : M unit) (w : World) :
  (ex ← path_exists dir;
   when (negb ex) (makedirs dir);;
   use_setting "seaborn-v0_8";;
   use_setting "husl";;
   subplots;;
   draw_call (SupTitle "Party Puzzle Palooza Load Test Analysis");;
   k) w = k (graphs_opened dir w).
Proof.
  unfold mbind, M_bind, path_exists, when, graphs_opened.
  destruct (bool_decide (dir ∈ dirs w) || bool_decide (is_Some (files w !! dir)));
    cbn; rewrite <- app_assoc; reflexivity.
Qed.

Lemma rate_color_raises (v : json) (e : exn) : rate_color v = Raise e -> e = TypeError.
Proof.
  unfold rate_color, py_gt, mbind, result_bind.
  destruct (xnum_of v); cbn [rbind xnum_of]; [|congruence].
  destruct (match xcompare _ _ with Some Gt => true | _ => false end); cbn [rbind]; discriminate.
Qed.

Lemma mapM_rate_color_raises (values : list json) (e : exn) :
  mapM_result rate_color values = Raise e -> e = TypeError.
Proof.
  induction values as [|v values IH]; [discriminate|].
  cbn [mapM_result]. unfold mbind, result_bind.
  destruct (rate_color v) eqn:Ev; cbn [rbind]; [|intros [= <-]; exact (rate_color_raises _ _ Ev)].
  destruct (mapM_result rate_color values); cbn [rbind]; [discriminate|].
  intros [= <-]. apply IH. reflexivity.
Qed.

(** The chart renderer on a document whose business rates have no colour:
    it raises once the panels before the business metrics are drawn. *)
Lemma generate_graphs_raises_run (plt_bar_error : list json -> option exn)
    (d ms : gmap string json) (system_df : option DataFrame)
    (e : exn) (dir : string) (w : World) :
  d !! "metrics" = Some (JObj ms) ->
  dict_or_missing (ms !! "http_req_duration") ->
  Forall (fun m => dict_or_missing (ms !! m)) business_metrics ->
  mapM_result rate_color (business_values ms) = Raise e ->
  percentile_bar_drawn plt_bar_error ms ->
  exists ds,
    generate_graphs plt_bar_error (JObj d) system_df dir w =
    (Raise e, drawn ds (graphs_opened dir w)).
Proof.
  intros Hm Hd Hb Hc Hbar1.
  assert (E1 : (if truthy (JObj d) then py_contains "metrics" (JObj d) else Ok false) = Ok true).
  { assert (Ht : truthy (JObj d) = true).
    { apply truthy_dict. intros ->. rewrite lookup_empty in Hm. discriminate Hm. }
    rewrite Ht. simpl. rewrite Hm. reflexivity. }
  assert (E2 : py_getitem (JObj d) "metrics" = Ok (JObj ms)) by (simpl; rewrite Hm; reflexivity).
  assert (E3 : mapM_result (fun m => get2 (JObj ms) m "rate")
                 ["room_creation_success"; "game_join_success"; "question_flag_success"] =
               Ok (business_values ms)).
  { unfold business_metrics in Hb.
    apply Forall_cons in Hb as [H1 Hb]. apply Forall_cons in Hb as [H2 Hb].
    apply Forall_cons in Hb as [H3 _].
    cbn [mapM_result]. rewrite !get2_nested by assumption. reflexivity. }
  unfold generate_graphs. rewrite graphs_prologue_run.
  destruct (ms !! "http_req_duration") as [[| | | | | |dur]|] eqn:Edur;
    simpl in Hd; try contradiction.
  - assert (E4 : py_contains "http_req_duration" (JObj ms) = Ok true)
      by (simpl; rewrite Edur; reflexivity).
    assert (E5 : py_getitem (JObj ms) "http_req_duration" = Ok (JObj dur))
      by (simpl; rewrite Edur; reflexivity).
    assert (E6 : mapM_result (fun p => py_get (JObj dur) p (JInt 0))
                   ["p(50)"; "p(90)"; "p(95)"; "p(99)"] =
                 Ok (percentile_values dur))
      by reflexivity.
    pose proof (Hbar1 dur Edur) as E7.
    destruct system_df as [df|];
      match goal with
      | |- exists ds, ?m ?w0 = _ =>
          let H := fresh in
          eassert (H : draws m _ (Raise e)) by draw_any; eexists; apply H
      end.
  - assert (E4 : py_contains "http_req_duration" (JObj ms) = Ok false)
      by (simpl; rewrite Edur; reflexivity).
    destruct system_df as [df|];
      match goal with
      | |- exists ds, ?m ?w0 = _ =>
          let H := fresh in
          eassert (H : draws m _ (Raise e)) by draw_any; eexists; apply H
      end.
Qed.

(** The business rates of the summary of a document with metrics. *)
Lemma summary_business_values (d ms : gmap string json) (perf : Perf.t) :
  analyze_performance (JObj d) = Ok (Some perf) ->
  d !! "metrics" = Some (JObj ms) ->
  [Biz.room_creation_success (Perf.business_metrics perf);
   Biz.game_join_success (Perf.business_metrics perf);
   Biz.question_flag_success (Perf.business_metrics perf)] = business_values ms.
Proof.
  intros Ha Em.
  pose proof (analyze_performance_some_analyzable _ _ Ha) as Hdoc.
  assert (Ht : truthy (JObj d) = true).
  { apply truthy_dict. intros ->. rewrite lookup_empty in Em. discriminate Em. }
  destruct (analyze_performance_fields _ Hdoc Ht) as (a & Ea & Hfields).
  rewrite Ha in Ea. injection Ea as <-.
  pose proof (Hfields RoomCreationSuccess) as H1.
  pose proof (Hfields GameJoinSuccess) as H2.
  pose proof (Hfields QuestionFlagSuccess) as H3.
  cbn [get_field target_path nested] in H1, H2, H3. rewrite Em in H1, H2, H3.
  rewrite H1, H2, H3. reflexivity.
Qed.

(** X21. In a run without a resource log whose output directory exists, when
    the analyzer summarizes the document, [Axes.bar] takes its percentiles
    as heights, and one of the three business success rates of the summary
    is not a number, [main] raises [TypeError] in the chart renderer,
    where the rate is compared with 0.95: it has printed its first message
    and at most a line about the system metrics, and has saved no image
    and written no report, although the report shows no business rate. *)
Theorem main_raises_on_uncoloured_rate (py_repr : json -> string)
    (json_loads : string -> result json) (pd_parse_csv : string -> result DataFrame)
    (pd_to_datetime : string -> result string) (py_exn_str : exn -> string)
    (pd_mean : list Q -> Q) (pd_quantile : Q -> list Q -> Q)
    (plt_bar_error : list json -> option exn)
    (args : Args) (w : World) (chunks : list string) (doc : json) (perf : Perf.t) :
  files w !! k6_results args = Some chunks ->
  json_loads (file_bytes chunks) = Ok doc ->
  analyze_performance doc = Ok (Some perf) ->
  ~ chart_renders perf ->
  percentile_bars_drawn plt_bar_error doc ->
  no_resource_log args w -> output_dir args ∈ dirs w ->
  exists w' lines,
    main py_repr json_loads pd_parse_csv pd_to_datetime py_exn_str pd_mean pd_quantile
      plt_bar_error args w =
    (Raise TypeError, w') /\
    files w' = files w /\ images w' = images w /\
    stdout w' = (stdout w ++ start_message :: lines)%list /\ (length lines <= 1)%nat.
Proof.
  intros Hf Hp Ha Hn Hbar1 Hlog _. unfold main.
  edestruct main_loads_without_log as (lines & Hlines & ->); [exact Hf | exact Hp | exact Hlog |].
  cbv beta.
  set (w2 := printed (start_message :: lines) w).
  rewrite (run_bind_ok _ _ w2 w2 (Some perf)) by (unfold lift; rewrite Ha; reflexivity).
  cbv beta zeta.
  pose proof (analyze_performance_some_analyzable _ _ Ha) as (d & -> & _ & Hm & Hms).
  destruct (d !! "metrics") as [[| | | | | |ms]|] eqn:Em; simpl in Hm; try contradiction.
  - pose proof (summary_business_values d ms perf Ha Em) as Hvalues.
    destruct (mapM_result rate_color (business_values ms)) as [colors|e] eqn:Hc.
    { exfalso. apply Hn. exists colors. rewrite Hvalues. exact Hc. }
    pose proof (mapM_rate_color_raises _ _ Hc) as ->.
    destruct (generate_graphs_raises_run plt_bar_error d ms None TypeError (output_dir args)
                w2) as (ds & Hg); try assumption.
    + apply (Hms ms _ eq_refl). simpl. tauto.
    + repeat constructor; apply (Hms ms _ eq_refl); simpl; tauto.
    + apply Hbar1, nested_metrics, Em.
    + rewrite (run_bind_raise _ _ _ _ _ Hg). eexists _, lines.
      split; [reflexivity|]. repeat split. exact Hlines.
  - exfalso. apply Hn.
    assert (Ht : truthy (JObj d) = true).
    { destruct (truthy (JObj d)) eqn:E; [reflexivity|].
      unfold analyze_performance in Ha. rewrite E in Ha. discriminate Ha. }
    destruct (analyze_performance_fields (JObj d)
                (analyze_performance_some_analyzable _ _ Ha) Ht) as (a & Ea & Hfields).
    rewrite Ha in Ea. injection Ea as <-.
    pose proof (Hfields RoomCreationSuccess) as H1.
    pose proof (Hfields GameJoinSuccess) as H2.
    pose proof (Hfields QuestionFlagSuccess) as H3.
    cbn [get_field target_path nested] in H1, H2, H3. rewrite Em in H1, H2, H3.
    unfold chart_renders. rewrite H1, H2, H3. eexists. vm_compute. reflexivity.
Qed.

(** X22. In a run without a resource log whose output directory exists, when
    the analyzer summarizes the document, the business rates have a colour
    and [Axes.bar] takes the percentiles and the rates as heights, but an
    indicator of the summary has no text, [main] raises [TypeError],
    [ValueError] or [OverflowError] in the report writer: the image is
    saved and its message printed, the report is left on the disk without
    Recommendations, and the run ends before it prints that the analysis
    is complete. *)
Theorem main_raises_while_reporting (py_repr : json -> string)
    (json_loads : string -> result json) (pd_parse_csv : string -> result DataFrame)
    (pd_to_datetime : string -> result string) (py_exn_str : exn -> string)
    (pd_mean : list Q -> Q) (pd_quantile : Q -> list Q -> Q)
    (plt_bar_error : list json -> option exn)
    (args : Args) (w : World) (chunks : list string) (doc : json) (perf : Perf.t) :
  files w !! k6_results args = Some chunks ->
  json_loads (file_bytes chunks) = Ok doc ->
  analyze_performance doc = Ok (Some perf) ->
  chart_renders perf -> ~ kpi_renders py_repr perf ->
  percentile_bars_drawn plt_bar_error doc -> business_bars_drawn plt_bar_error doc ->
  no_resource_log args w -> output_dir args ∈ dirs w ->
  let report_file :=
    output_dir args +:+ "/performance-report-" +:+
    strftime_compact (clock w (S (ticks w))) +:+ ".md" in
  exists e w' lines fig report,
    main py_repr json_loads pd_parse_csv pd_to_datetime py_exn_str pd_mean pd_quantile
      plt_bar_error args w = (Raise e, w') /\
    format_error e /\
    stdout w' = (stdout w ++ start_message :: lines ++ [graphs_message (output_dir args)])%list /\
    images w' = <[graph_path (output_dir args) w := fig]> (images w) /\
    files w' !! report_file = Some report /\
    ~ In recommendations_header report /\ ~ In next_steps_header report.
Proof.
  intros Hf Hp Ha Hchart Hn Hbar1 Hbar2 Hlog _ report_file. unfold main.
  edestruct main_loads_without_log as (lines & Hlines & ->); [exact Hf | exact Hp | exact Hlog |].
  cbv beta.
  set (w2 := printed (start_message :: lines) w).
  rewrite (run_bind_ok _ _ w2 w2 (Some perf)) by (unfold lift; rewrite Ha; reflexivity).
  cbv beta zeta.
  destruct (generate_graphs_returns plt_bar_error doc perf None (output_dir args) w2 Ha Hchart
              Hbar1 Hbar2) as (fig & Hg).
  rewrite (run_bind_ok _ _ _ _ _ Hg).
  set (w3 := graphs_saved (output_dir args) w2 fig).
  destruct (report_truncated_run py_repr (Some perf)
              (analyze_system_metrics pd_mean pd_quantile None)
              (output_dir args) w3 Hn) as (e & report & ? & Hr & -> & He & Hrec & Hnext).
  rewrite (run_bind_raise _ _ _ _ _ Hr).
  eexists e, _, lines, fig, report. split; [reflexivity|]. split; [exact He|].
  split; [|split; [|split; [|split]]]; try assumption.
  - cbn. rewrite app_nil_r, <- app_assoc. reflexivity.
  - reflexivity.
  - cbn. apply lookup_insert_eq.
Qed.

(** ** Instances of the further properties *)

(** The resource summary of [sample_series], without rounding. *)
Definition sample_resources : Sys.t :=
  {| Sys.cpu :=
       {| Stats.mean := sample_mean (column Row.cpu sample_series);
          Stats.max := series_max (column Row.cpu sample_series);
          Stats.p95 := sample_quantile (95 # 100) (column Row.cpu sample_series) |};
     Sys.memory :=
       {| Stats.mean := sample_mean (column Row.memory sample_series);
          Stats.max := series_max (column Row.memory sample_series);
          Stats.p95 := sample_quantile (95 # 100) (column Row.memory sample_series) |};
     Sys.database_connections :=
       {| Stats.mean := sample_mean (column Row.db_connections sample_series);
          Stats.max := series_max (column Row.db_connections sample_series);
          Stats.p95 := sample_quantile (95 # 100) (column Row.db_connections sample_series) |};
     Sys.redis_connections :=
       {| Stats.mean := sample_mean (column Row.redis_connections sample_series);
          Stats.max := series_max (column Row.redis_connections sample_series);
          Stats.p95 := sample_quantile (95 # 100) (column Row.redis_connections sample_series) |} |}.

(** [sample_summary] with other values in the fields that the report does
    not show. *)
Definition sample_summary_unreported : Perf.t :=
  {| Perf.http_requests :=
       {| Http.total := JInt 0; Http.rate := JInt 0; Http.p95 := JInt 320; Http.p99 := JInt 999;
          Http.failed_rate := JFloat (float_literal 2 (-2)) |};
     Perf.websocket := {| Ws.latency_p95 := JInt 0; Ws.messages_total := JInt 77 |};
     Perf.business_metrics :=
       {| Biz.room_creation_success := JInt 1; Biz.game_join_success := JInt 1;
          Biz.question_flag_success := JInt 1 |};
     Perf.test_duration := JInt 90500000000;
     Perf.max_vus := JInt 0 |}.

(** A summary whose HTTP p95 is a text. *)
Definition unprintable_summary : Perf.t :=
  {| Perf.http_requests :=
       {| Http.total := JInt 0; Http.rate := JInt 0; Http.p95 := JStr "n/a"; Http.p99 := JInt 0;
          Http.failed_rate := JInt 0 |};
     Perf.websocket := {| Ws.latency_p95 := JInt 0; Ws.messages_total := JInt 0 |};
     Perf.business_metrics := zero_biz;
     Perf.test_duration := JInt 0;
     Perf.max_vus := JInt 0 |}.

(** A document whose error rate is a text, and its summary. *)
Definition unformattable_document : json :=
  dict [("metrics", dict [("http_req_failed", dict [("rate", JStr "n/a")])])].

Definition unformattable_summary : Perf.t :=
  {| Perf.http_requests :=
       {| Http.total := JInt 0; Http.rate := JInt 0; Http.p95 := JInt 0; Http.p99 := JInt 0;
          Http.failed_rate := JStr "n/a" |};
     Perf.websocket := {| Ws.latency_p95 := JInt 0; Ws.messages_total := JInt 0 |};
     Perf.business_metrics := zero_biz;
     Perf.test_duration := JInt 0;
     Perf.max_vus := JInt 0 |}.

(** A document in which a business success rate is a text, and its
    summary. *)
Definition uncoloured_document : json :=
  dict [("metrics", dict [("room_creation_success", dict [("rate", JStr "high")])])].

Definition uncoloured_summary : Perf.t :=
  {| Perf.http_requests :=
       {| Http.total := JInt 0; Http.rate := JInt 0; Http.p95 := JInt 0; Http.p99 := JInt 0;
          Http.failed_rate := JInt 0 |};
     Perf.websocket := {| Ws.latency_p95 := JInt 0; Ws.messages_total := JInt 0 |};
     Perf.business_metrics :=
       {| Biz.room_creation_success := JStr "high"; Biz.game_join_success := JInt 0;
          Biz.question_flag_success := JInt 0 |};
     Perf.test_duration := JInt 0;
     Perf.max_vus := JInt 0 |}.

(** Metrics with the HTTP percentiles and two of the three business
    metrics. *)
Definition partial_metrics : gmap string json :=
  list_to_map
    [("http_req_duration", dict [("p(95)", JInt 250)]);
     ("room_creation_success", dict [("rate", JInt 1)]);
     ("game_join_success", dict [("rate", JFloat (float_literal 92 (-2)))])].

Definition partial_document : gmap string json :=
  list_to_map [("metrics", JObj partial_metrics)].

Definition sample_files_args : Args :=
  {| k6_results := "k6-results.json"; system_metrics := Some "metrics.csv";
     output_dir := "out" |}.

(** A run whose log of system metrics does not exist. *)
Definition sample_run_args : Args :=
  {| k6_results := "k6-results.json"; system_metrics := Some "missing.csv";
     output_dir := "out" |}.

Lemma sample_run_without_log : no_resource_log sample_run_args sample_files_world.
Proof. intros path [= <-] _. reflexivity. Defined.

Lemma sample_output_dir : output_dir sample_run_args ∈ dirs sample_files_world.
Proof. vm_compute. reflexivity. Defined.

Lemma report_assessment_follows_comparisons_witness :
  exists w' below above,
    generate_report sample_repr (Some sample_summary) None "out" sample_world = (Ok tt, w') /\
    py_lt (metric_value sample_summary HttpTime) (threshold HttpTime) = Ok below /\
    py_gt (metric_value sample_summary HttpTime) (threshold HttpTime) = Ok above /\
    (In (pass_line HttpTime) (report_of "out" sample_world w') <-> below = true) /\
    (In (fail_line HttpTime) (report_of "out" sample_world w') <-> below = false) /\
    (forall line, In line (advice HttpTime) ->
       (In line (report_of "out" sample_world w') <-> above = true)) /\
    (below = true -> above = false).
Proof. apply report_assessment_follows_comparisons. exact sample_summary_renders. Defined.

Lemma report_resource_advice_iff_above_limit_witness :
  exists w',
    generate_report sample_repr None (Some sample_resources) "out" sample_world = (Ok tt, w') /\
    forall line, In line (resource_advice Cpu) ->
      (In line (report_of "out" sample_world w') <->
       (inject_Z (resource_limit Cpu) < Stats.p95 (resource_stats sample_resources Cpu))%Q).
Proof. apply report_resource_advice_iff_above_limit. exact I. Defined.

Lemma report_system_section_lines_witness :
  exists w' rest,
    generate_report sample_repr None (Some sample_resources) "out" sample_world = (Ok tt, w') /\
    section_from system_section_header (report_of "out" sample_world w') =
    (system_section_lines sample_resources ++ recommendations_header :: rest)%list.
Proof. apply report_system_section_lines. exact I. Defined.

Lemma generate_report_ignores_unreported_fields_witness :
  generate_report sample_repr (Some sample_summary) None "out" sample_world =
  generate_report sample_repr (Some sample_summary_unreported) None "out" sample_world.
Proof. apply generate_report_ignores_unreported_fields; reflexivity. Defined.

Lemma report_complete_on_return_witness :
  exists w',
    generate_report sample_repr (Some sample_summary) None "out" sample_world = (Ok tt, w') /\
    next_steps `suffix_of` report_of "out" sample_world w' /\
    stdout w' = (stdout sample_world ++ [saved_message "out" sample_world])%list.
Proof. apply report_complete_on_return. exact sample_summary_renders. Defined.

Lemma report_truncated_on_failure_witness :
  exists e w',
    generate_report sample_repr (Some unprintable_summary) None "out" sample_world =
    (Raise e, w') /\
    format_error e /\
    is_Some (files w' !! report_path "out" sample_world) /\
    (~ In recommendations_header (report_of "out" sample_world w') /\
     ~ In next_steps_header (report_of "out" sample_world w')) /\
    stdout w' = stdout sample_world.
Proof.
  apply report_truncated_on_failure. intros [[s E] _]. discriminate E.
Defined.

Lemma generate_graphs_without_metrics_witness :
  exists fig,
    generate_graphs sample_bar_error JNull (Some sample_series) "out" sample_world =
    (Ok tt, graphs_saved "out" sample_world fig) /\
    fig = (figure_title :: resource_part_of (Some sample_series) ++ [TightLayout])%list /\
    Forall (fun d => on_metrics_panel d = false) fig.
Proof. apply generate_graphs_without_metrics. left. reflexivity. Defined.

Lemma generate_graphs_figure_witness :
  generate_graphs sample_bar_error (JObj partial_document) None "out" sample_world =
  (Ok tt,
   graphs_saved "out" sample_world
     (figure_title :: http_calls (partial_metrics !! "http_req_duration") ++
      resource_part_of None ++
      business_calls (business_values partial_metrics) ["green"; "yellow"; "red"] ++
      [TightLayout])) /\
  forall i m, business_metrics !! i = Some m ->
    nested (JObj partial_metrics) [m; "rate"] = None ->
    business_values partial_metrics !! i = Some (JInt 0) /\
    ["green"; "yellow"; "red"] !! i = Some "red".
Proof.
  apply generate_graphs_figure.
  - vm_compute. reflexivity.
  - eapply bool_decide_unpack. vm_compute. exact I.
  - repeat constructor; eapply bool_decide_unpack; vm_compute; exact I.
  - vm_compute. reflexivity.
  - intros dur E. vm_compute in E. injection E as <-. vm_compute. reflexivity.
  - vm_compute. reflexivity.
Defined.

Lemma load_k6_results_propagates_other_errors_witness :
  load_k6_results (fun _ => Raise (OtherException "UnicodeDecodeError"))
    (k6_results sample_files_args) sample_files_world =
  (Raise (OtherException "UnicodeDecodeError"), sample_files_world) /\
  main sample_repr (fun _ => Raise (OtherException "UnicodeDecodeError"))
    (fun _ => Ok sample_series) (fun t => Ok t) (fun _ => "error")
    sample_mean sample_quantile sample_bar_error sample_files_args sample_files_world =
  (Raise (OtherException "UnicodeDecodeError"), printed [start_message] sample_files_world).
Proof.
  apply (load_k6_results_propagates_other_errors sample_repr
           (fun _ => Raise (OtherException "UnicodeDecodeError"))
           (fun _ => Ok sample_series) (fun t => Ok t) (fun _ => "error")
           sample_mean sample_quantile sample_bar_error
           sample_files_args sample_files_world ["{}"]).
  - vm_compute. reflexivity.
  - reflexivity.
  - discriminate.
  - discriminate.
Defined.

Lemma load_system_metrics_keeps_readings_witness :
  exists df',
    load_system_metrics (fun _ => Ok sample_series) (fun t => Ok t) (fun _ => "error")
      "metrics.csv" sample_files_world = (Ok (Some df'), sample_files_world) /\
    length df' = length sample_series /\
    column Row.timestamp df' = column Row.timestamp sample_series /\
    column Row.cpu df' = column Row.cpu sample_series /\
    column Row.memory df' = column Row.memory sample_series /\
    column Row.db_connections df' = column Row.db_connections sample_series /\
    column Row.redis_connections df' = column Row.redis_connections sample_series /\
    analyze_system_metrics sample_mean sample_quantile (Some df') =
    analyze_system_metrics sample_mean sample_quantile (Some sample_series).
Proof.
  apply (load_system_metrics_keeps_readings _ _ _ _ _ _ _ ["rows"]).
  - vm_compute. reflexivity.
  - reflexivity.
  - reflexivity.
Defined.

Lemma main_raises_on_unreadable_document_witness :
  exists lines,
    (length lines <= 1)%nat /\
    main sample_repr (fun _ => Ok (JArr [JInt 1])) (fun _ => Ok sample_series)
      (fun t => Ok t) (fun _ => "error") sample_mean sample_quantile sample_bar_error
      sample_files_args sample_files_world =
    (Raise AttributeError, printed (start_message :: lines) sample_files_world).
Proof.
  apply (main_raises_on_unreadable_document _ _ _ _ _ _ _ _ _ _ ["{}"] (JArr [JInt 1])).
  - vm_compute. reflexivity.
  - reflexivity.
  - reflexivity.
  - intros (d & E & _). discriminate E.
Defined.

Lemma sample_summary_chart_renders : chart_renders sample_summary.
Proof. eexists. vm_compute. reflexivity. Defined.

Lemma main_returns_with_outputs_witness :
  let report_file :=
    output_dir sample_run_args +:+ "/performance-report-" +:+
    strftime_compact (clock sample_files_world (S (ticks sample_files_world))) +:+ ".md" in
  exists w' lines s_http s_err s_ws fig,
    main sample_repr (fun _ => Ok sample_document) (fun _ => Ok sample_series)
      (fun t => Ok t) (fun _ => "error") sample_mean sample_quantile sample_bar_error
      sample_run_args sample_files_world = (Ok tt, w') /\
    py_format_f 2 (Http.p95 (Perf.http_requests sample_summary)) = Ok s_http /\
    py_format_pct 2 (Http.failed_rate (Perf.http_requests sample_summary)) = Ok s_err /\
    py_format_f 2 (Ws.latency_p95 (Perf.websocket sample_summary)) = Ok s_ws /\
    stdout w' =
      (stdout sample_files_world ++ start_message :: lines ++
       [graphs_message (output_dir sample_run_args); "📊 Report saved to " +:+ report_file;
        complete_message; summary_header;
        "  HTTP p95: " +:+ s_http +:+ "ms"; "  Error Rate: " +:+ s_err;
        "  WS p95: " +:+ s_ws +:+ "ms"])%list /\
    (length lines <= 1)%nat /\
    images w' =
      <[graph_path (output_dir sample_run_args) sample_files_world := fig]>
        (images sample_files_world) /\
    is_Some (files w' !! report_file) /\
    (forall p, p <> report_file -> files w' !! p = files sample_files_world !! p).
Proof.
  apply (main_returns_with_outputs _ _ _ _ _ _ _ _ _ _ ["{}"] sample_document sample_summary).
  - vm_compute. reflexivity.
  - reflexivity.
  - vm_compute. reflexivity.
  - exact sample_summary_renders.
  - exact sample_summary_chart_renders.
  - intros ms E dur Edur. vm_compute in E. injection E as <-.
    vm_compute in Edur. injection Edur as <-. vm_compute. reflexivity.
  - intros ms E. vm_compute in E. injection E as <-. vm_compute. reflexivity.
  - exact sample_run_without_log.
  - exact sample_output_dir.
Defined.

Lemma main_raises_on_uncoloured_rate_witness :
  exists w' lines,
    main sample_repr (fun _ => Ok uncoloured_document) (fun _ => Ok sample_series)
      (fun t => Ok t) (fun _ => "error") sample_mean sample_quantile sample_bar_error
      sample_run_args sample_files_world =
    (Raise TypeError, w') /\
    files w' = files sample_files_world /\ images w' = images sample_files_world /\
    stdout w' = (stdout sample_files_world ++ start_message :: lines)%list /\
    (length lines <= 1)%nat.
Proof.
  apply (main_raises_on_uncoloured_rate _ _ _ _ _ _ _ _ _ _ ["{}"] uncoloured_document
           uncoloured_summary).
  - vm_compute. reflexivity.
  - reflexivity.
  - vm_compute. reflexivity.
  - intros [colors E]. vm_compute in E. discriminate E.
  - intros ms E dur Edur. vm_compute in E. injection E as <-.
    vm_compute in Edur. discriminate Edur.
  - exact sample_run_without_log.
  - exact sample_output_dir.
Defined.

Lemma main_raises_while_reporting_witness :
  let report_file :=
    output_dir sample_run_args +:+ "/performance-report-" +:+
    strftime_compact (clock sample_files_world (S (ticks sample_files_world))) +:+ ".md" in
  exists e w' lines fig report,
    main sample_repr (fun _ => Ok unformattable_document) (fun _ => Ok sample_series)
      (fun t => Ok t) (fun _ => "error") sample_mean sample_quantile sample_bar_error
      sample_run_args sample_files_world =
    (Raise e, w') /\
    format_error e /\
    stdout w' =
      (stdout sample_files_world ++ start_message :: lines ++
       [graphs_message (output_dir sample_run_args)])%list /\
    images w' =
      <[graph_path (output_dir sample_run_args) sample_files_world := fig]>
        (images sample_files_world) /\
    files w' !! report_file = Some report /\
    ~ In recommendations_header report /\ ~ In next_steps_header report.
Proof.
  apply (main_raises_while_reporting _ _ _ _ _ _ _ _ _ _ ["{}"] unformattable_document
           unformattable_summary).
  - vm_compute. reflexivity.
  - reflexivity.
  - vm_compute. reflexivity.
  - eexists. vm_compute. reflexivity.
  - intros (_ & [s E] & _). discriminate E.
  - intros ms E dur Edur. vm_compute in E. injection E as <-.
    vm_compute in Edur. discriminate Edur.
  - intros ms E. vm_compute in E. injection E as <-. vm_compute. reflexivity.
  - exact sample_run_without_log.
  - exact sample_output_dir.
Defined.

Lemma analyze_system_metrics_columns_witness :
  exists a,
    analyze_system_metrics sample_mean sample_quantile (Some sample_series) = Some a /\
    column_summary sample_mean sample_quantile (Sys.cpu a) (column Row.cpu sample_series) /\
    column_summary sample_mean sample_quantile (Sys.memory a)
      (column Row.memory sample_series) /\
    column_summary sample_mean sample_quantile (Sys.database_connections a)
      (column Row.db_connections sample_series) /\
    column_summary sample_mean sample_quantile (Sys.redis_connections a)
      (column Row.redis_connections sample_series).
Proof. apply analyze_system_metrics_columns. simpl. lia. Defined.

(** A run whose results path is the output directory. *)
Definition directory_args : Args :=
  {| k6_results := "out"; system_metrics := None; output_dir := "out" |}.

Lemma load_k6_results_on_directory_witness :
  load_k6_results (fun _ => Ok sample_document) (k6_results directory_args)
    sample_files_world = (Raise IsADirectoryError, sample_files_world) /\
  main sample_repr (fun _ => Ok sample_document) (fun _ => Ok sample_series)
    (fun t => Ok t) (fun _ => "error") sample_mean sample_quantile sample_bar_error
    directory_args sample_files_world =
  (Raise IsADirectoryError, printed [start_message] sample_files_world).
Proof.
  apply load_k6_results_on_directory.
  - reflexivity.
  - vm_compute. reflexivity.
Defined.
